(** * Package analytics dashboard: fetch, normalise, aggregate

    A shallow embedding of the data pipeline of the dashboard:

    - [utils.py]: [fetch_pypi_stats], [fetch_lifetime_downloads],
      [fetch_github_stats_api];
    - [Home.py]: the metric computation of the "Fetch Stats" handler;
    - [app.py]: the older single-file copy of both, which differs from
      [utils.py]/[Home.py] in a few places.  Module [App] holds the
      definitions that differ.

    Python exceptions are values of [exc]; the remote services are
    records of replies; pandas columns are lists.  Download and star
    counts are Python/NumPy integers that stay far below 2^63, they are
    modelled in [Z].  A pandas mean is a float; it is modelled by the
    exact rational (or [NaN] for the empty column). *)

From Stdlib Require Import ZArith QArith Qcanon String Ascii.
From stdpp Require Import base option list gmap strings.

Local Open Scope Z_scope.

(** ** Exceptions *)

Inductive exn : Set :=
  | ConnectionError     (* requests.exceptions.ConnectionError, Timeout, ... *)
  | HTTPError           (* raised by Response.raise_for_status *)
  | JSONDecodeError     (* requests.exceptions.JSONDecodeError *)
  | ValueError
  | KeyError
  | IndexError
  | AttributeError      (* a method looked up on [None] *)
  | WarehouseError.     (* any error of the BigQuery client *)

(** [except requests.RequestException] catches exactly these ([.json()]
    raises the [requests] class [JSONDecodeError] since requests 2.27). *)
Definition is_RequestException (e : exn) : bool :=
  match e with
  | ConnectionError | HTTPError | JSONDecodeError => true
  | ValueError | KeyError | IndexError | AttributeError | WarehouseError => false
  end.

Inductive exc (A : Type) : Type :=
  | Ret (a : A)
  | Raise (e : exn).
Arguments Ret {A} a.
Arguments Raise {A} e.

#[global] Instance exc_ret : MRet exc := fun A a => Ret a.
#[global] Instance exc_bind : MBind exc := fun A B f m =>
  match m with
  | Ret a => f a
  | Raise e => Raise e
  end.

#[global] Instance exc_fmap : FMap exc := fun A B f m =>
  match m with
  | Ret a => Ret (f a)
  | Raise e => Raise e
  end.

(** [d[k]] on a JSON object whose key [k] may be absent. *)
Definition getitem {A} (field : option A) : exc A :=
  match field with
  | Some a => Ret a
  | None => Raise KeyError
  end.

(** ** pandas primitives *)

(** A numeric scalar as pandas returns it from a reduction: [NaN] for
    the reduction of an empty column. *)
Inductive scalar (A : Type) : Type :=
  | NaN
  | Num (a : A).
Arguments NaN {A}.
Arguments Num {A} a.

Definition Qc_of_Z (z : Z) : Qc := Q2Qc (inject_Z z).

Definition sum (l : list Z) : Z := foldr Z.add 0 l.

(** [Series.mean()] *)
Definition mean (l : list Z) : scalar Qc :=
  match l with
  | [] => NaN
  | _ :: _ => Num (Qc_of_Z (sum l) / Qc_of_Z (Z.of_nat (length l)))%Qc
  end.

(** [Series.max()] and [Series.min()] *)
Definition max (l : list Z) : scalar Z :=
  match l with
  | [] => NaN
  | x :: xs => Num (foldr Z.max x xs)
  end.

Definition min (l : list Z) : scalar Z :=
  match l with
  | [] => NaN
  | x :: xs => Num (foldr Z.min x xs)
  end.

(** [df.empty], [df.tail(n)], [df.head(n)], [df[:-1]] *)
Definition empty {A} (l : list A) : bool := bool_decide (length l = 0%nat).
Definition tail {A} (n : nat) (l : list A) : list A := drop (length l - n) l.
Definition head {A} (n : nat) (l : list A) : list A := take n l.
Definition but_last {A} (l : list A) : list A := take (length l - 1) l.

(** [df.iloc[-k]] for [k >= 1]: raises [IndexError] out of range. *)
Definition iloc_neg {A} (k : nat) (l : list A) : exc A :=
  if decide (k <= length l)%nat
  then match l !! (length l - k)%nat with
       | Some a => Ret a
       | None => Raise IndexError
       end
  else Raise IndexError.

(** Float arithmetic: [NaN] is absorbing. *)
Definition scalar_sub {A} (sub : A -> A -> A) (x y : scalar A) : scalar A :=
  match x, y with
  | Num a, Num b => Num (sub a b)
  | _, _ => NaN
  end.

(** [Series.cumsum()] *)
Fixpoint cumsum_from (acc : Z) (l : list Z) : list Z :=
  match l with
  | [] => []
  | x :: xs => (acc + x) :: cumsum_from (acc + x) xs
  end.
Definition cumsum (l : list Z) : list Z := cumsum_from 0 l.

(** [Series.diff()]: the first entry has no predecessor. *)
Definition diff (l : list Z) : list (scalar Z) :=
  match l with
  | [] => []
  | _ :: xs => NaN :: zip_with (fun prev cur => Num (cur - prev)) l xs
  end.

(** [Series.fillna(other)] with a column of the same index. *)
Definition fillna (s : list (scalar Z)) (other : list Z) : list Z :=
  zip_with (fun x o => match x with NaN => o | Num v => v end) s other.

(** [df.groupby(key)[col].sum()] on rows [(key, value)]: a map from each
    key that occurs to the sum of its values. *)
Definition groupby_sum (rows : list (Z * Z)) : gmap Z Z :=
  foldl (fun m r => <[r.1 := default 0 (m !! r.1) + r.2]> m) ∅ rows.

(** [Series.reindex(index, fill_value=fill)] followed by
    [reset_index()]: one row per label of [index], in that order. *)
Definition reindex (m : gmap Z Z) (index : list Z) (fill : Z) : list (Z * Z) :=
  (fun d => (d, default fill (m !! d))) <$> index.

(** [pd.date_range(lo, hi, freq='D').date] on day numbers. *)
Definition date_range (lo hi : Z) : list Z := seqZ lo (hi - lo + 1).

(** ** Download series and the metrics of the "Fetch Stats" handler *)

(** One row of [df_pypi]: a period bucket and its download count. *)
Record download_record : Set := {
  dl_date : Z;
  downloads : Z;
}.

Definition downloads_col (df : list download_record) : list Z :=
  downloads <$> df.

(** [pd.Series({'date': None, 'downloads': 0})] *)
Definition no_downloads : Z := 0.

Record pypi_metrics : Type := {
  today_downloads : Z;
  yesterday_downloads : Z;
  avg_downloads : scalar Qc;
  max_downloads : scalar Z;
  daily_change : Z;
  avg_last_week : scalar Qc;
  avg_previous_week : scalar Qc;
  avg_change : scalar Qc;
  current_peak : Z;
  previous_peak : scalar Z;
  peak_change : scalar Z;
}.

(** ** Warehouse query for the download series *)

(** The BigQuery client: the rows a query text returns for the bound
    parameters [package_name], [start_date], [end_date], or the error
    the job raises. *)
Definition bigquery : Type :=
  string -> string -> Z -> Z -> exc (list download_record).

Definition query_text (select_time : string) : string :=
  ("
    SELECT
        " ++ select_time ++ " AS date,
        COUNT(*) AS downloads
    FROM
        `bigquery-public-data.pypi.file_downloads`
    WHERE
        file.project = @package_name
        AND DATE(timestamp) BETWEEN @start_date AND @end_date
    GROUP BY
        date
    ORDER BY
        date
    ")%string.

Definition daily_sql : string * string :=
  ("DATE(timestamp)", "DATE(timestamp)")%string.

(** ** Star events and their normalisation *)

(** One stargazer entry.  [starred_at] is the event time in seconds
    since the epoch (UTC), absent when the key is missing. *)
Record star : Set := {
  starred_at : option Z;
}.

(** [pd.to_datetime(ts).date()]: the calendar day, as a day number. *)
Definition to_date (ts : Z) : Z := ts `div` 86400.

(** One record of [stars_history]. *)
Record star_record : Set := {
  date : Z;
  stars : Z;
  cumulative_stars : Z;
  star_change : Z;
}.

(** The [stars_df] pipeline on the [date] column of the raw frame (every
    raw row has [stars = 1]): utils.py lines 122-126. *)
Definition normalize (dates : list Z) (lo hi : Z) : list star_record :=
  let raw := (fun d => (d, 1)) <$> dates in
  let stars_df := reindex (groupby_sum raw) (date_range lo hi) 0 in
  let stars_col := snd <$> stars_df in
  let cumulative := cumsum stars_col in
  let change := fillna (diff stars_col) stars_col in
  zip_with (fun '(d, s) '(c, ch) =>
              {| date := d; stars := s; cumulative_stars := c; star_change := ch |})
           stars_df (zip cumulative change).

(** utils.py lines 117-128, with [to_dict('records')] applied. *)
Definition stars_df_records (stars_data : list star) : exc (list star_record) :=
  if negb (empty stars_data) then
    dates ← mapM (fun s => to_date <$> getitem (starred_at s)) stars_data;
    match min dates, max dates with
    | Num lo, Num hi => Ret (normalize dates lo hi)
    | _, _ => Raise ValueError
    end
  else Ret [].

(** ** Remote services and the trace of a fetch *)

(** A [requests.Response]: the status and what [.json()] gives (the
    decoded body, or the exception it raises). *)
Record response (T : Type) : Type := {
  status_code : Z;
  json : exc T;
}.
Arguments status_code {T} r.
Arguments json {T} r.

(** [requests.get] returns a response or raises (no connection, ...). *)
Definition reply (T : Type) : Type := exc (response T).

(** The [license] object of a repository body. *)
Record license_json : Set := {
  license_name : option string;
}.

(** The body of [GET /repos/{owner}/{name}]: the keys the fetch and the
    handlers read, [None] for a key the object does not have (an error
    body has only [message]).  [created_at] and [updated_at] are
    timestamps in seconds since the epoch; [language], [license] and
    [description] may be present with the value [null], which is the
    inner [None]. *)
Record repo_json : Set := {
  message : option string;
  stargazers_count : option Z;
  forks_count : option Z;
  open_issues_count : option Z;
  watchers_count : option Z;
  created_at : option Z;
  updated_at : option Z;
  language : option (option string);
  license : option (option license_json);
  description : option (option string);
}.

(** One weekly bucket of [/stats/commit_activity]. *)
Record week : Set := {
  total : option Z;
}.

(** An element the fetch stores without reading it (a contributor, a
    release, a pull request): its JSON text. *)
Definition json_item : Set := string.

(** The source-hosting API below [base_url], as one fetch sees it.
    [stargazers per_page page] is the reply to the request with these
    query parameters. *)
Record github : Type := {
  repos : reply repo_json;
  stargazers : Z -> Z -> reply (list star);
  stats_commit_activity : reply (list week);
  stats_contributors : reply (list json_item);
  releases : reply (list json_item);
  pulls : reply (list json_item);
}.

(** The body of [GET /packages/{package_name}/overall]. *)
Record overall_item : Set := {
  item_downloads : option Z;
}.
Record overall_json : Set := {
  data : option (list overall_item);
}.

Definition pypistats : Type := string -> reply overall_json.

Inductive request : Set :=
  | GetRepo
  | GetStargazers (per_page page : Z)
  | GetCommitActivity
  | GetContributors
  | GetReleases
  | GetPulls
  | GetOverall (package_name : string).

(** What a fetch does to the outside: the requests it sends and the
    [st.error] boxes it shows. *)
Inductive event : Set :=
  | Request (r : request)
  | StError (text : string)
  | StErrorExn (prefix : string) (e : exn).

(** A computation that sends requests: it extends the trace and ends
    with a value, with an exception, or with the loop budget of the
    model used up. *)
Inductive outcome (A : Type) : Type :=
  | Done (a : A)
  | Raised (e : exn)
  | OutOfFuel.
Arguments Done {A} a.
Arguments Raised {A} e.
Arguments OutOfFuel {A}.

Definition io (A : Type) : Type := list event -> outcome A * list event.

#[global] Instance io_ret : MRet io := fun A a tr => (Done a, tr).
#[global] Instance io_bind : MBind io := fun A B f m tr =>
  match m tr with
  | (Done a, tr') => f a tr'
  | (Raised e, tr') => (Raised e, tr')
  | (OutOfFuel, tr') => (OutOfFuel, tr')
  end.

Definition emit (ev : event) : io unit := fun tr => (Done tt, tr ++ [ev]).

Definition lift {A} (m : exc A) : io A := fun tr =>
  match m with
  | Ret a => (Done a, tr)
  | Raise e => (Raised e, tr)
  end.

Definition out_of_fuel {A} : io A := fun tr => (OutOfFuel, tr).

(** [try: body except <caught>: handler] *)
Definition try_except {A} (body : io A) (caught : exn -> bool)
    (handler : exn -> io A) : io A := fun tr =>
  match body tr with
  | (Raised e, tr') => if caught e then handler e tr' else (Raised e, tr')
  | r => r
  end.

Definition requests_get {T} (r : request) (server : reply T) : io (response T) :=
  emit (Request r);; lift server.

Definition st_error (text : string) : io unit := emit (StError text).
Definition st_error_exn (prefix : string) (e : exn) : io unit :=
  emit (StErrorExn prefix e).

(** ** Repository statistics *)

(** One row of the time series [df]. *)
Record github_row : Set := {
  row_date : Z;
  row_stars : Z;
  row_forks : Z;
  row_open_issues : Z;
  row_watchers : Z;
  row_weekly_commits : Z;
}.

(** [repo_data] after [repo_data.update(...)]. *)
Record repo_data : Type := {
  repo : repo_json;
  total_commits : Z;
  total_contributors : nat;
  total_releases : nat;
  commits_data : list week;
  contributors_data : list json_item;
  releases_data : list json_item;
  prs_data : list json_item;
  stars_history : list star_record;
}.

(** [pd.date_range(end=now, periods=n, freq='W')] on timestamps in
    seconds: [n] weekly stamps, the last one on the last Sunday that is
    not after [now] (day 0 of the epoch was a Thursday). *)
Definition date_range_weekly (now : Z) (periods : nat) : list Z :=
  let last := now - 86400 * ((now `div` 86400 + 4) `mod` 7) in
  (fun i : nat => last - 604800 * (Z.of_nat periods - 1 - Z.of_nat i)) <$> seq 0 periods.

Section fetch_github.

Variable gh : github.
Variable now : Z.

(** The [while True] loop over the stargazer pages; [fuel] bounds the
    number of iterations of the model. *)
Fixpoint stargazers_loop (fuel : nat) (page : Z) (stars_data : list star)
    : io (list star) :=
  match fuel with
  | O => out_of_fuel
  | S fuel' =>
      stars_response ← requests_get (GetStargazers 100 page) (stargazers gh 100 page);
      if decide (status_code stars_response ≠ 200) then mret stars_data
      else
        body ← lift (json stars_response);
        if empty body then mret stars_data
        else stargazers_loop fuel' (page + 1) (stars_data ++ body)
  end.

(** [x.json() if x.status_code == 200 else []] *)
Definition json_or_empty {T} (r : response (list T)) : io (list T) :=
  if decide (status_code r = 200) then lift (json r) else mret [].

(** The body of the [try] block of [fetch_github_stats_api]. *)
Definition fetch_github_stats_body (fuel : nat)
    : io (option (list github_row * repo_data)) :=
  repo_response ← requests_get GetRepo (repos gh);
  if decide (status_code repo_response ≠ 200) then
    body ← lift (json repo_response);
    st_error ("Error fetching GitHub data: " ++ default "" (message body))%string;;
    mret None
  else
    repo_data ← lift (json repo_response);
    stars_data ← stargazers_loop fuel 1 [];
    stars_df ← lift (stars_df_records stars_data);
    commits_response ← requests_get GetCommitActivity (stats_commit_activity gh);
    commits_data ← json_or_empty commits_response;
    contributors_response ← requests_get GetContributors (stats_contributors gh);
    contributors_data ← json_or_empty contributors_response;
    releases_response ← requests_get GetReleases (releases gh);
    releases_data ← json_or_empty releases_response;
    prs_response ← requests_get GetPulls (pulls gh);
    prs_data ← json_or_empty prs_response;
    total_commits ← lift (if negb (empty commits_data)
                          then sum <$> mapM (fun w => getitem (total w)) commits_data
                          else Ret 0);
    let total_contributors := length contributors_data in
    let total_releases := length releases_data in
    let dates := if negb (empty commits_data)
                 then date_range_weekly now (length commits_data)
                 else [] in
    df ← lift (stars ← getitem (stargazers_count repo_data);
               forks ← getitem (forks_count repo_data);
               open_issues ← getitem (open_issues_count repo_data);
               watchers ← getitem (watchers_count repo_data);
               weekly_commits ← (if negb (empty commits_data)
                                 then mapM (fun w => getitem (total w)) commits_data
                                 else Ret []);
               mret (zip_with (fun d c =>
                                 {| row_date := d;
                                    row_stars := stars;
                                    row_forks := forks;
                                    row_open_issues := open_issues;
                                    row_watchers := watchers;
                                    row_weekly_commits := c |})
                              dates weekly_commits));
    mret (Some (df, {| repo := repo_data;
                       total_commits := total_commits;
                       total_contributors := total_contributors;
                       total_releases := total_releases;
                       commits_data := commits_data;
                       contributors_data := contributors_data;
                       releases_data := releases_data;
                       prs_data := prs_data;
                       stars_history := stars_df |})).

(** [fetch_github_stats_api]: [None] stands for the pair
    [(None, None)].  The credential loading of utils.py line 83, which
    runs before the [try], is outside the model. *)
Definition fetch_github_stats_api (fuel : nat)
    : io (option (list github_row * repo_data)) :=
  try_except (fetch_github_stats_body fuel) (fun _ => true)
    (fun e => st_error_exn "Error fetching GitHub data: " e;; mret None).

End fetch_github.

(** ** Further pandas primitives *)

(** [Series.idxmax()] on a column with the default index: the position
    of the first occurrence of the maximum; raises on an empty column. *)
Fixpoint idxmax_from (i best_i : nat) (best : Z) (l : list Z) : nat :=
  match l with
  | [] => best_i
  | x :: xs =>
      if decide (best < x) then idxmax_from (S i) i x xs
      else idxmax_from (S i) best_i best xs
  end.

Definition idxmax (l : list Z) : exc nat :=
  match l with
  | [] => Raise ValueError
  | x :: xs => Ret (idxmax_from 1 0 x xs)
  end.

(** [df.loc[i, col]] on a frame with the default index: [KeyError] for a
    label that is not a row. *)
Definition loc {A} (i : nat) (l : list A) : exc A :=
  match l !! i with
  | Some a => Ret a
  | None => Raise KeyError
  end.

(** [Series.rolling(window=w).mean()] for [w >= 1]: the entry of row [i]
    is the mean of the [w] rows ending at [i], and [NaN] while fewer
    than [w] rows are available. *)
Definition rolling_mean (window : nat) (l : list Z) : list (scalar Qc) :=
  imap (fun i _ =>
          if decide (window <= S i)%nat
          then mean (take window (drop (S i - window) l))
          else NaN) l.

(** ** The three source variants

    [Utils] is utils.py, [Home] the handler of Home.py, [App] the
    single-file app.py.  The star normalisation and
    [fetch_github_stats_api] above are the same text in utils.py and
    app.py. *)


(** The lines of the "Quick Package Info" expander. *)
Record package_info : Set := {
  created : Z;
  last_updated : Z;
  info_language : option string;
  info_license : string;
  info_description : option string;
}.

(** Home.py lines 76-89 and app.py lines 304-317, the same text: the
    expander reads the keys in this order.  A missing key raises
    [KeyError]; [repo_data.get('license', {})] is [None] for a
    repository without a licence, and [None.get] raises
    [AttributeError].  The description line is written for a
    description that is neither [null] nor empty. *)
Definition quick_package_info (repo_data : repo_data) : exc package_info :=
  created ← to_date <$> getitem (created_at (repo repo_data));
  last_updated ← to_date <$> getitem (updated_at (repo repo_data));
  language ← getitem (language (repo repo_data));
  license_name ← match license (repo repo_data) with
                 | None => Ret "Not specified"%string
                 | Some None => Raise AttributeError
                 | Some (Some l) => Ret (default "Not specified"%string (license_name l))
                 end;
  description ← getitem (description (repo repo_data));
  mret {| created := created;
          last_updated := last_updated;
          info_language := language;
          info_license := license_name;
          info_description :=
            match description with
            | Some text => if decide (text = ""%string) then None else Some text
            | None => None
            end |}.

(** What the handler has computed when it starts to draw the metrics. *)
Record dashboard : Type := {
  info : package_info;
  total_downloads : Z;
  pypi : pypi_metrics;
  stars_change : Z;
  forks_change : Z;
}.

Module Utils.

(** utils.py, lines 31-36: the dict literal and its [.get]. *)
Definition granularity_table : gmap string (string * string) :=
  list_to_map
    [ ("hourly",  ("DATETIME_TRUNC(timestamp, HOUR)", "DATETIME(timestamp)"));
      ("daily",   ("DATE(timestamp)", "DATE(timestamp)"));
      ("weekly",  ("DATE_TRUNC(DATE(timestamp), WEEK)",
                   "DATE_TRUNC(DATE(timestamp), WEEK)"));
      ("monthly", ("DATE_TRUNC(DATE(timestamp), MONTH)",
                   "DATE_TRUNC(DATE(timestamp), MONTH)")) ]%string.

Definition time_group_select_time (granularity : string) : string * string :=
  default daily_sql (granularity_table !! granularity).

Definition fetch_pypi_stats (client : bigquery)
    (package_name : string) (start_date end_date : Z) (granularity : string)
    : exc (list download_record) :=
  let '(time_group, select_time) := time_group_select_time granularity in
  client (query_text select_time) package_name start_date end_date.

(** [Response.raise_for_status()]: an [HTTPError] for a 4xx or 5xx
    status, nothing otherwise. *)
Definition raise_for_status {T} (r : response T) : exc unit :=
  if decide (400 <= status_code r < 600) then Raise HTTPError else Ret tt.

(** utils.py, lines 64-77. *)
Definition fetch_lifetime_downloads (api : pypistats) (package_name : string)
    : io Z :=
  try_except
    (response ← requests_get (GetOverall package_name) (api package_name);
     lift (raise_for_status response);;
     data_ ← lift (json response);
     items ← lift (getitem (data data_));
     total_downloads ←
       lift (sum <$> mapM (fun item => getitem (item_downloads item)) items);
     mret total_downloads)
    is_RequestException
    (fun e =>
       st_error_exn ("Error fetching download stats for " ++ package_name ++ ": ") e;;
       mret 0).

End Utils.

Module Home.

(** Home.py, lines 92-106. *)
Definition calculate_metrics (df_pypi : list download_record) : exc pypi_metrics :=
  today ← (if negb (empty df_pypi) then downloads <$> iloc_neg 1 df_pypi
           else Ret no_downloads);
  yesterday ← (if decide (1 < length df_pypi)%nat
               then downloads <$> iloc_neg 2 df_pypi
               else Ret no_downloads);
  let avg_downloads := mean (downloads_col df_pypi) in
  let max_downloads := max (downloads_col df_pypi) in
  let daily_change := today - yesterday in
  let avg_last_week := mean (downloads_col (tail 7 df_pypi)) in
  let avg_previous_week :=
    if decide (14 <= length df_pypi)%nat
    then mean (downloads_col (head 7 (tail 14 df_pypi)))
    else Num 0%Qc in
  let avg_change := scalar_sub Qcminus avg_last_week avg_previous_week in
  let current_peak := today in
  let previous_peak :=
    if decide (1 < length df_pypi)%nat
    then max (downloads_col (but_last df_pypi))
    else Num 0 in
  let peak_change := scalar_sub Z.sub (Num current_peak) previous_peak in
  mret {| today_downloads := today;
          yesterday_downloads := yesterday;
          avg_downloads := avg_downloads;
          max_downloads := max_downloads;
          daily_change := daily_change;
          avg_last_week := avg_last_week;
          avg_previous_week := avg_previous_week;
          avg_change := avg_change;
          current_peak := current_peak;
          previous_peak := previous_peak;
          peak_change := peak_change |}.

(** Home.py, lines 109-113. *)
Definition github_changes (df_github : list github_row) (repo_data : repo_data)
    : exc (Z * Z) :=
  if decide (7 <= length df_github)%nat then
    count ← getitem (stargazers_count (repo repo_data));
    old ← row_stars <$> iloc_neg 7 df_github;
    let stars_change := count - old in
    count ← getitem (forks_count (repo repo_data));
    old ← row_forks <$> iloc_neg 7 df_github;
    let forks_change := count - old in
    mret (stars_change, forks_change)
  else mret (0, 0).

(** The "Fetch Stats" handler from the fetches to the download and
    repository metrics it computes (Home.py, lines 61-113 and 287-288);
    the star metrics and the drawing that follow are not modelled.
    [None]: nothing is computed. *)
Definition after_lifetime (client : bigquery) (gh : github) (now : Z) (fuel : nat)
    (package : string) (start_date end_date : Z) (granularity : string)
    (lifetime_downloads : Z) : io (option dashboard) :=
  df_pypi ← lift (Utils.fetch_pypi_stats client package start_date end_date granularity);
  fetched ← fetch_github_stats_api gh now fuel;
  match fetched with
  | Some (df_github, repo_data) =>
      info ← lift (quick_package_info repo_data);
      metrics ← lift (calculate_metrics df_pypi);
      changes ← lift (github_changes df_github repo_data);
      mret (Some {| info := info;
                    total_downloads := lifetime_downloads;
                    pypi := metrics;
                    stars_change := changes.1;
                    forks_change := changes.2 |})
  | None => mret None
  end.

Definition fetch_stats (api : pypistats) (client : bigquery) (gh : github)
    (now : Z) (fuel : nat)
    (package : string) (start_date end_date : Z) (granularity : string)
    : io (option dashboard) :=
  try_except
    (lifetime_downloads ← Utils.fetch_lifetime_downloads api package;
     after_lifetime client gh now fuel package start_date end_date granularity
       lifetime_downloads)
    (fun _ => true)
    (fun e => st_error_exn "Error fetching data: " e;; mret None).

(** Home.py, lines 115-125: the stars of the last two weeks, from the
    star history of the snapshot.  [current_date] is the day number of
    [datetime.now().date()]. *)
Definition star_windows (current_date : Z) (stars_history : list star_record) : Z * Z :=
  let stars_df := stars_history in
  if negb (empty stars_df) then
    let last_week_stars :=
      sum (stars <$> filter (fun r => current_date - 7 <= date r) stars_df) in
    let previous_week_stars :=
      sum (stars <$> filter (fun r => current_date - 14 <= date r
                                      ∧ date r < current_date - 7) stars_df) in
    (last_week_stars, previous_week_stars)
  else (0, 0).

(** Home.py, lines 186-187: the largest number of stars of a day and the
    day it was reached; [None] is the text "N/A". *)
Definition peak_stars (stars_history : list star_record) : exc (scalar Z * option Z) :=
  let stars_df := stars_history in
  let peak_stars_day := if negb (empty stars_df) then max (stars <$> stars_df) else Num 0 in
  peak_stars_date ← (if negb (empty stars_df)
                     then i ← idxmax (stars <$> stars_df);
                          r ← loc i stars_df;
                          mret (Some (date r))
                     else mret None);
  mret (peak_stars_day, peak_stars_date).

(** Home.py, lines 238-239: the column [MA] of the download chart. *)
Definition moving_average (ma_window : nat) (df_pypi : list download_record)
    : list (scalar Qc) :=
  rolling_mean ma_window (downloads_col df_pypi).

End Home.

Module App.

(** app.py, lines 31-42: the if / elif chain. *)
Definition time_group_select_time (granularity : string) : string * string :=
  if decide (granularity = "hourly"%string) then
    ("DATETIME_TRUNC(timestamp, HOUR)", "DATETIME(timestamp)")%string
  else if decide (granularity = "daily"%string) then
    ("DATE(timestamp)", "DATE(timestamp)")%string
  else if decide (granularity = "weekly"%string) then
    ("DATE_TRUNC(DATE(timestamp), WEEK)",
     "DATE_TRUNC(DATE(timestamp), WEEK)")%string
  else (* monthly *)
    ("DATE_TRUNC(DATE(timestamp), MONTH)",
     "DATE_TRUNC(DATE(timestamp), MONTH)")%string.

Definition fetch_pypi_stats (client : bigquery)
    (package_name : string) (start_date end_date : Z) (granularity : string)
    : exc (list download_record) :=
  let '(time_group, select_time) := time_group_select_time granularity in
  client (query_text select_time) package_name start_date end_date.

(** app.py, lines 321-336: as in Home.py, except that
    [avg_previous_week] has no length guard. *)
Definition calculate_metrics (df_pypi : list download_record) : exc pypi_metrics :=
  today ← (if negb (empty df_pypi) then downloads <$> iloc_neg 1 df_pypi
           else Ret no_downloads);
  yesterday ← (if decide (1 < length df_pypi)%nat
               then downloads <$> iloc_neg 2 df_pypi
               else Ret no_downloads);
  let avg_downloads := mean (downloads_col df_pypi) in
  let max_downloads := max (downloads_col df_pypi) in
  let daily_change := today - yesterday in
  let avg_last_week := mean (downloads_col (tail 7 df_pypi)) in
  let avg_previous_week := mean (downloads_col (head 7 (tail 14 df_pypi))) in
  let avg_change := scalar_sub Qcminus avg_last_week avg_previous_week in
  let current_peak := today in
  let previous_peak :=
    if decide (1 < length df_pypi)%nat
    then max (downloads_col (but_last df_pypi))
    else Num 0 in
  let peak_change := scalar_sub Z.sub (Num current_peak) previous_peak in
  mret {| today_downloads := today;
          yesterday_downloads := yesterday;
          avg_downloads := avg_downloads;
          max_downloads := max_downloads;
          daily_change := daily_change;
          avg_last_week := avg_last_week;
          avg_previous_week := avg_previous_week;
          avg_change := avg_change;
          current_peak := current_peak;
          previous_peak := previous_peak;
          peak_change := peak_change |}.

(** app.py, lines 179-199: a count query on the warehouse, with no
    handler of its own.  [client] gives the [total_downloads] of the
    single result row, or the error of the job. *)
Definition fetch_lifetime_downloads (client : string -> exc Z) (package_name : string)
    : io Z :=
  lift (client package_name).

(** app.py, lines 339-340. *)
Definition github_changes (df_github : list github_row) (repo_data : repo_data)
    : exc (Z * Z) :=
  stars_change ← (if decide (7 <= length df_github)%nat
                  then count ← getitem (stargazers_count (repo repo_data));
                       old ← row_stars <$> iloc_neg 7 df_github;
                       mret (count - old)
                  else mret 0);
  forks_change ← (if decide (7 <= length df_github)%nat
                  then count ← getitem (forks_count (repo repo_data));
                       old ← row_forks <$> iloc_neg 7 df_github;
                       mret (count - old)
                  else mret 0);
  mret (stars_change, forks_change).

(** The "Fetch Stats" handler of app.py (lines 289-340 and 530-531), to
    the same point as [Home.fetch_stats]. *)
Definition after_lifetime (client : bigquery) (gh : github) (now : Z) (fuel : nat)
    (package : string) (start_date end_date : Z) (granularity : string)
    (lifetime_downloads : Z) : io (option dashboard) :=
  df_pypi ← lift (fetch_pypi_stats client package start_date end_date granularity);
  fetched ← fetch_github_stats_api gh now fuel;
  match fetched with
  | Some (df_github, repo_data) =>
      info ← lift (quick_package_info repo_data);
      metrics ← lift (calculate_metrics df_pypi);
      changes ← lift (github_changes df_github repo_data);
      mret (Some {| info := info;
                    total_downloads := lifetime_downloads;
                    pypi := metrics;
                    stars_change := changes.1;
                    forks_change := changes.2 |})
  | None => mret None
  end.

Definition fetch_stats (count_client : string -> exc Z) (client : bigquery)
    (gh : github) (now : Z) (fuel : nat)
    (package : string) (start_date end_date : Z) (granularity : string)
    : io (option dashboard) :=
  try_except
    (lifetime_downloads ← fetch_lifetime_downloads count_client package;
     after_lifetime client gh now fuel package start_date end_date granularity
       lifetime_downloads)
    (fun _ => true)
    (fun e => st_error_exn "Error fetching data: " e;; mret None).

End App.

(** ** The Compare page (pages/Compare.py) *)

(** [l[i]] on a Python list. *)
Definition list_getitem {A} (i : nat) (l : list A) : exc A :=
  match l !! i with
  | Some a => Ret a
  | None => Raise IndexError
  end.

(** What the page writes for one package: the figures of the download
    series ([None]: "No download data found.") and the repository line. *)
Record package_stats : Type := {
  range_downloads : Z;
  lifetime_downloads : Z;
  avg_daily : scalar Qc;
  max_daily : scalar Z;
}.

Inductive github_report : Set :=
  | RepoMismatch                          (* no repository, or counts differ *)
  | RepoNoData                            (* "No GitHub data found or invalid repo." *)
  | RepoCounts (stars forks open_issues : Z).

Record package_report : Type := {
  report_package : string;
  report_stats : option package_stats;
  report_github : github_report;
}.

Module Compare.

Section names.

(** A Python [str] is a list of characters of any alphabet [C];
    [is_space] is [str.isspace] on one character. *)
Context {C : Type} `{EqDecision C}.
Variable is_space : C -> bool.
Variable comma : C.

(** [s.split(",")] *)
Fixpoint split (s : list C) : list (list C) :=
  match s with
  | [] => [[]]
  | c :: s' =>
      if decide (c = comma) then [] :: split s'
      else match split s' with
           | p :: ps => (c :: p) :: ps
           | [] => [[c]]
           end
  end.

(** [s.lstrip()] and [s.strip()] *)
Fixpoint lstrip (s : list C) : list C :=
  match s with
  | [] => []
  | c :: s' => if is_space c then lstrip s' else s
  end.

Definition strip (s : list C) : list C :=
  reverse (lstrip (reverse (lstrip s))).

(** pages/Compare.py, lines 24 and 38:
    [[p.strip() for p in text.split(",") if p.strip()]] *)
Definition parse_names (text : list C) : list (list C) :=
  strip <$> filter (fun p => strip p ≠ []) (split text).

End names.

Section page.

Variable client : bigquery.
Variable api : pypistats.
(** The source-hosting API of each repository name. *)
Variable repositories : string -> github.
Variable now : Z.
Variable fuel : nat.
Variable start_date end_date : Z.
Variable granularity : string.
Variable package_list github_list : list string.

(** pages/Compare.py, lines 99-109: the repository part of one package. *)
Definition github_section (i : nat) : io github_report :=
  if decide (length github_list = length package_list) then
    repo_name ← lift (list_getitem i github_list);
    fetched ← fetch_github_stats_api (repositories repo_name) now fuel;
    match fetched with
    | Some (df_github, repo_data) =>
        stars ← lift (getitem (stargazers_count (repo repo_data)));
        forks ← lift (getitem (forks_count (repo repo_data)));
        open_issues ← lift (getitem (open_issues_count (repo repo_data)));
        mret (RepoCounts stars forks open_issues)
    | None => mret RepoNoData
    end
  else mret RepoMismatch.

(** pages/Compare.py, lines 76-118: the loop over the packages.
    [reports] collects what is written, [all_data] the tagged frames
    kept for the comparison chart. *)
Fixpoint compare_loop (i : nat) (packages : list string)
    (reports : list package_report)
    (all_data : list (list (download_record * string)))
    : io (list package_report * list (list (download_record * string))) :=
  match packages with
  | [] => mret (reports, all_data)
  | pkg :: rest =>
      df_pypi ← lift (Utils.fetch_pypi_stats client pkg start_date end_date granularity);
      total_downloads ← Utils.fetch_lifetime_downloads api pkg;
      let stats :=
        if negb (empty df_pypi)
        then Some {| range_downloads := sum (downloads_col df_pypi);
                     lifetime_downloads := total_downloads;
                     avg_daily := mean (downloads_col df_pypi);
                     max_daily := max (downloads_col df_pypi) |}
        else None in
      github ← github_section i;
      let all_data :=
        if negb (empty df_pypi)
        then all_data ++ [(fun r => (r, pkg)) <$> df_pypi]
        else all_data in
      compare_loop (S i) rest
        (reports ++ [{| report_package := pkg;
                        report_stats := stats;
                        report_github := github |}])
        all_data
  end.

(** pages/Compare.py, lines 68-129: what pressing "Compare" does.  The
    result is what was written per package and the frame of the
    comparison chart ([None]: no chart); [None] when the page stops at
    the missing package names. *)
Definition compare_packages
    : io (option (list package_report * option (list (download_record * string)))) :=
  if empty package_list then
    st_error "Please enter at least one package name.";;
    mret None
  else
    result ← compare_loop 0 package_list [] [];
    let df_all := if negb (empty result.2) then Some (concat result.2) else None in
    mret (Some (result.1, df_all)).

End page.

End Compare.

(** ** Vocabulary of the statements *)

(** [p] is the maximum of the column [l]. *)
Definition is_max_of (p : Z) (l : list Z) : Prop :=
  p ∈ l ∧ ∀ x, x ∈ l → x <= p.

(** The count of the last record, 0 for the empty series; the count of
    the record before it, 0 when there is none. *)
Definition latest (df : list download_record) : Z :=
  default 0 (downloads <$> last df).
Definition previous (df : list download_record) : Z :=
  latest (but_last df).

(** What section 4.3 of the specification says of the peak metrics. *)
Definition peak_spec (df : list download_record) (m : pypi_metrics) : Prop :=
  current_peak m = latest df
  ∧ (df ≠ [] → ∃ p, max_downloads m = Num p ∧ is_max_of p (downloads_col df))
  ∧ ((length df <= 1)%nat → previous_peak m = Num 0)
  ∧ (∀ init r, df = init ++ [r] → init ≠ [] →
       ∃ q, previous_peak m = Num q ∧ is_max_of q (downloads_col init))
  ∧ (∃ q c, previous_peak m = Num q ∧ peak_change m = Num c
            ∧ c = latest df - q ∧ (latest df < q → c < 0)).

(** [p] is the minimum of the column [l]. *)
Definition is_min_of (p : Z) (l : list Z) : Prop :=
  p ∈ l ∧ ∀ x, x ∈ l → p <= x.

(** The number of star events on day [d]. *)
Definition events_on (d : Z) (dates : list Z) : Z :=
  Z.of_nat (length (filter (λ x, x = d) dates)).

(** A stargazer entry with its timestamp. *)
Definition star_event (ts : Z) : star := {| starred_at := Some ts |}.

(** The four granularities the specification enumerates. *)
Definition enumerated (granularity : string) : Prop :=
  granularity ∈ ["daily"; "weekly"; "monthly"; "hourly"]%string.

(** The lifetime-download request fails with [e]: the request itself
    raises a [RequestException], or the response has a 4xx or 5xx
    status, for which [raise_for_status] raises [HTTPError]. *)
Definition lifetime_request_fails (r : reply overall_json) (e : exn) : Prop :=
  (r = Raise e ∧ is_RequestException e = true)
  ∨ (∃ resp, r = Ret resp ∧ 400 <= status_code resp < 600 ∧ e = HTTPError).

(** The requests for the pages [p], [p + 1], ..., [p + n - 1]. *)
Definition page_requests (p : Z) (n : nat) : list event :=
  (λ i : nat, Request (GetStargazers 100 (p + Z.of_nat i))) <$> seq 0 n.

(** The collection the fetch keeps for an auxiliary sub-call: the
    sub-call is answered, and the collection is the decoded body for
    status 200 and empty for any other status. *)
Definition sub_resource {T} (r : reply (list T)) (d : list T) : Prop :=
  ∃ resp, r = Ret resp
          ∧ ((status_code resp ≠ 200 ∧ d = [])
             ∨ (status_code resp = 200 ∧ json resp = Ret d)).

(** A sub-call fails with the exception [e]: the request raises it, or
    the reply has status 200 and decoding its body raises it. *)
Definition raises_on_use {T} (r : reply T) (e : exn) : Prop :=
  r = Raise e ∨ ∃ resp, r = Ret resp ∧ status_code resp = 200 ∧ json resp = Raise e.

(** A reduction that has a value. *)
Definition is_Num {A} (x : scalar A) : Prop := ∃ a, x = Num a.

(** No figure of the download metrics is [NaN]. *)
Definition all_defined (m : pypi_metrics) : Prop :=
  is_Num (avg_downloads m) ∧ is_Num (max_downloads m)
  ∧ is_Num (avg_last_week m) ∧ is_Num (avg_previous_week m)
  ∧ is_Num (avg_change m)
  ∧ is_Num (previous_peak m) ∧ is_Num (peak_change m).

(** A repository with another answer to the pull-request call, to the
    metadata call, or to the stargazer calls. *)
Definition with_pulls (gh : github) (r : reply (list json_item)) : github :=
  {| repos := repos gh;
     stargazers := stargazers gh;
     stats_commit_activity := stats_commit_activity gh;
     stats_contributors := stats_contributors gh;
     releases := releases gh;
     pulls := r |}.

Definition with_repos (gh : github) (r : reply repo_json) : github :=
  {| repos := r;
     stargazers := stargazers gh;
     stats_commit_activity := stats_commit_activity gh;
     stats_contributors := stats_contributors gh;
     releases := releases gh;
     pulls := pulls gh |}.

Definition with_stargazers (gh : github) (r : Z -> Z -> reply (list star)) : github :=
  {| repos := repos gh;
     stargazers := r;
     stats_commit_activity := stats_commit_activity gh;
     stats_contributors := stats_contributors gh;
     releases := releases gh;
     pulls := pulls gh |}.

(** A statistics endpoint with two rows, and a warehouse with 14 daily
    rows of 10, 20, ..., 140 downloads. *)
Definition example_pypistats : pypistats :=
  λ _, Ret {| status_code := 200;
              json := Ret {| data := Some [ {| item_downloads := Some 120 |};
                                            {| item_downloads := Some 30 |} ] |} |}.

Definition example_series : list download_record :=
  (λ i, {| dl_date := 19000 + i; downloads := 10 * i |}) <$> seqZ 1 14.

Definition example_bigquery : bigquery := λ _ _ _ _, Ret example_series.

(** A name as [parse_names] keeps it: not empty, without comma, with
    neither leading nor trailing whitespace. *)
Definition clean_name {C} (is_space : C -> bool) (comma : C) (name : list C) : Prop :=
  name ≠ [] ∧ (comma ∉ name)
  ∧ (∀ c, name !! 0%nat = Some c → is_space c = false)
  ∧ (∀ c, last name = Some c → is_space c = false).

(** The names written one after the other, separated by a comma and
    the blank [sp]. *)
Fixpoint join_names {C} (comma sp : C) (names : list (list C)) : list C :=
  match names with
  | [] => []
  | [name] => name
  | name :: rest => name ++ comma :: sp :: join_names comma sp rest
  end.

(** [str.isspace] on the characters below 256. *)
Definition is_space_latin1 (c : ascii) : bool :=
  let n := nat_of_ascii c in
  ((9 <=? n) && (n <=? 13) || (28 <=? n) && (n <=? 32) || (n =? 133) || (n =? 160))%nat.

(** The rows of a package in the comparison chart: its download series
    tagged with the package, none when the query fails. *)
Definition tagged_series (client : bigquery) (start_date end_date : Z)
    (granularity : string) (pkg : string) : list (download_record * string) :=
  match Utils.fetch_pypi_stats client pkg start_date end_date granularity with
  | Ret df_pypi => (λ r, (r, pkg)) <$> df_pypi
  | Raise _ => []
  end.

(** The [total] of each weekly bucket. *)
Definition week_totals (commits : list week) : list Z :=
  (λ w, default 0 (total w)) <$> commits.

(** A repository on which the statements are tried: 100 stargazers on
    one page, 8 weekly commit buckets, contributor statistics still
    being computed (status 202), one release, no pull-request listing. *)
Definition example_github : github :=
  {| repos := Ret {| status_code := 200;
                     json := Ret {| message := None;
                                    stargazers_count := Some 100;
                                    forks_count := Some 7;
                                    open_issues_count := Some 3;
                                    watchers_count := Some 100;
                                    created_at := Some 1600000000;
                                    updated_at := Some 1699000000;
                                    language := Some (Some "Python"%string);
                                    license :=
                                      Some (Some {| license_name :=
                                                      Some "MIT License"%string |});
                                    description := Some None |} |};
     stargazers := λ per_page page,
       Ret {| status_code := 200;
              json := Ret (if decide (page = 1)
                           then replicate (Z.to_nat per_page) (star_event 1700000000)
                           else []) |};
     stats_commit_activity :=
       Ret {| status_code := 200; json := Ret (replicate 8 {| total := Some 2 |}) |};
     stats_contributors := Ret {| status_code := 202; json := Raise JSONDecodeError |};
     releases := Ret {| status_code := 200; json := Ret ["v1.0"%string] |};
     pulls := Ret {| status_code := 404; json := Raise JSONDecodeError |} |}.

(** The answer for a repository that does not exist, and the body of a
    repository without a licence. *)
Definition not_found_body : repo_json :=
  {| message := Some "Not Found"%string;
     stargazers_count := None;
     forks_count := None;
     open_issues_count := None;
     watchers_count := None;
     created_at := None;
     updated_at := None;
     language := None;
     license := None;
     description := None |}.

Definition not_found : reply repo_json :=
  Ret {| status_code := 404; json := Ret not_found_body |}.

Definition unlicensed_body : repo_json :=
  {| message := None;
     stargazers_count := Some 100;
     forks_count := Some 7;
     open_issues_count := Some 3;
     watchers_count := Some 100;
     created_at := Some 1600000000;
     updated_at := Some 1699000000;
     language := Some (Some "Python"%string);
     license := Some None;
     description := Some (Some "Agents"%string) |}.

Definition unlicensed : reply repo_json :=
  Ret {| status_code := 200; json := Ret unlicensed_body |}.

(** What it says of the weekly averages. *)
Definition weekly_average_spec (df : list download_record) (m : pypi_metrics) : Prop :=
  ((length df < 7)%nat → avg_last_week m = mean (downloads_col df))
  ∧ (∀ pre last7, df = pre ++ last7 → length last7 = 7%nat →
       avg_last_week m = mean (downloads_col last7)).

Definition previous_weekly_average_spec (df : list download_record) (m : pypi_metrics)
    : Prop :=
  ((length df < 14)%nat → avg_previous_week m = Num 0%Qc)
  ∧ (∀ pre prev7 last7, df = pre ++ prev7 ++ last7 →
       length prev7 = 7%nat → length last7 = 7%nat →
       avg_previous_week m = mean (downloads_col prev7)).

(** Unfolds the monad of a fetch down to trace passing. *)
Ltac io_unfold :=
  unfold try_except, requests_get, st_error, st_error_exn, emit, lift,
    mbind, io_bind, mret, io_ret.

(** * Properties *)

(** ** Lists and reductions *)

Lemma exc_fmap_Ret {A B} (f : A -> B) (a : A) : f <$> Ret a = Ret (f a).
Proof. reflexivity. Qed.

Lemma empty_nil {A} : empty (@nil A) = true.
Proof. reflexivity. Qed.

Lemma empty_false_iff {A} (l : list A) : empty l = false ↔ l ≠ [].
Proof.
  unfold empty. rewrite bool_decide_eq_false.
  destruct l; simpl; split; intros H; try done; lia.
Qed.

Lemma tail_short {A} (n : nat) (l : list A) :
  (length l <= n)%nat -> tail n l = l.
Proof.
  intros Hn. unfold tail.
  replace (length l - n)%nat with 0%nat by lia. apply drop_0.
Qed.

Lemma tail_app {A} (n : nat) (pre l : list A) :
  length l = n -> tail n (pre ++ l) = l.
Proof.
  intros <-. unfold tail. rewrite length_app.
  replace (length pre + length l - length l)%nat with (length pre) by lia.
  apply drop_app_length.
Qed.

Lemma but_last_snoc {A} (init : list A) (r : A) : but_last (init ++ [r]) = init.
Proof.
  unfold but_last. rewrite length_app. simpl.
  replace (length init + 1 - 1)%nat with (length init) by lia.
  apply take_app_length.
Qed.

Lemma iloc_neg_1 {A} (l : list A) (r : A) : iloc_neg 1 (l ++ [r]) = Ret r.
Proof.
  unfold iloc_neg. rewrite length_app. simpl.
  destruct (decide _) as [_|Hn]; [|lia].
  replace (length l + 1 - 1)%nat with (length l) by lia.
  by rewrite list_lookup_middle.
Qed.

Lemma iloc_neg_in_range {A} (k : nat) (l : list A) :
  (1 <= k <= length l)%nat -> ∃ a, iloc_neg k l = Ret a ∧ l !! (length l - k)%nat = Some a.
Proof.
  intros Hk. unfold iloc_neg.
  destruct (decide _) as [_|Hn]; [|lia].
  destruct (lookup_lt_is_Some_2 l (length l - k)%nat) as [a Ha]; [lia|].
  exists a. by rewrite Ha.
Qed.

Lemma max_spec (l : list Z) : l ≠ [] -> ∃ p, max l = Num p ∧ is_max_of p l.
Proof.
  destruct l as [|x xs]; [done|intros _].
  exists (foldr Z.max x xs). split; [done|].
  induction xs as [|y ys [IHin IHle]]; simpl.
  - split; [by apply list_elem_of_singleton|].
    intros z Hz. apply list_elem_of_singleton in Hz. lia.
  - split.
    + destruct (Z.max_spec y (foldr Z.max x ys)) as [[_ ->]|[_ ->]].
      * apply elem_of_cons in IHin as [->|Hin]; rewrite !elem_of_cons; auto.
      * rewrite !elem_of_cons; auto.
    + assert (x <= foldr Z.max x ys) as Hx by (apply IHle, elem_of_cons; auto).
      intros z Hz. rewrite !elem_of_cons in Hz.
      destruct Hz as [->|[->|Hz]]; [lia..|].
      assert (z <= foldr Z.max x ys) by (apply IHle, elem_of_cons; auto). lia.
Qed.

Lemma is_max_of_unique (p q : Z) (l : list Z) :
  is_max_of p l -> is_max_of q l -> p = q.
Proof. intros [Hp Hp'] [Hq Hq']. specialize (Hp' q Hq). specialize (Hq' p Hp). lia. Qed.

Lemma latest_snoc (init : list download_record) (r : download_record) :
  latest (init ++ [r]) = downloads r.
Proof. unfold latest. by rewrite last_snoc. Qed.

(** ** The download metrics never raise *)

Lemma today_latest (df : list download_record) :
  (if negb (empty df) then downloads <$> iloc_neg 1 df else Ret no_downloads)
  = Ret (latest df).
Proof.
  destruct df as [|r df _] using rev_ind; [done|].
  assert (empty (df ++ [r]) = false) as ->.
  { apply empty_false_iff. by destruct df. }
  simpl. by rewrite iloc_neg_1, latest_snoc.
Qed.

Lemma yesterday_previous (df : list download_record) :
  (if decide (1 < length df)%nat then downloads <$> iloc_neg 2 df else Ret no_downloads)
  = Ret (previous df).
Proof.
  unfold previous.
  destruct df as [|r df _] using rev_ind; [done|].
  rewrite but_last_snoc, length_app. simpl.
  destruct df as [|r' df _] using rev_ind.
  - by destruct (decide _) as [?|_]; [simpl in *; lia|].
  - destruct (decide _) as [_|Hn]; [|rewrite length_app in Hn; simpl in Hn; lia].
    rewrite latest_snoc.
    replace ((df ++ [r']) ++ [r]) with (df ++ [r'; r]) by by rewrite <-app_assoc.
    unfold iloc_neg. rewrite length_app. simpl.
    destruct (decide _) as [_|Hn]; [|lia].
    replace (length df + 2 - 2)%nat with (length df) by lia.
    by rewrite list_lookup_middle.
Qed.

Lemma Home_calculate_metrics_eq (df : list download_record) :
  Home.calculate_metrics df =
  Ret {| today_downloads := latest df;
         yesterday_downloads := previous df;
         avg_downloads := mean (downloads_col df);
         max_downloads := max (downloads_col df);
         daily_change := latest df - previous df;
         avg_last_week := mean (downloads_col (tail 7 df));
         avg_previous_week :=
           (if decide (14 <= length df)%nat
            then mean (downloads_col (head 7 (tail 14 df)))
            else Num 0%Qc);
         avg_change :=
           scalar_sub Qcminus (mean (downloads_col (tail 7 df)))
             (if decide (14 <= length df)%nat
              then mean (downloads_col (head 7 (tail 14 df)))
              else Num 0%Qc);
         current_peak := latest df;
         previous_peak :=
           (if decide (1 < length df)%nat
            then max (downloads_col (but_last df)) else Num 0);
         peak_change :=
           scalar_sub Z.sub (Num (latest df))
             (if decide (1 < length df)%nat
              then max (downloads_col (but_last df)) else Num 0) |}.
Proof.
  unfold Home.calculate_metrics.
  rewrite today_latest. simpl. by rewrite yesterday_previous.
Qed.

Lemma App_calculate_metrics_eq (df : list download_record) :
  App.calculate_metrics df =
  Ret {| today_downloads := latest df;
         yesterday_downloads := previous df;
         avg_downloads := mean (downloads_col df);
         max_downloads := max (downloads_col df);
         daily_change := latest df - previous df;
         avg_last_week := mean (downloads_col (tail 7 df));
         avg_previous_week := mean (downloads_col (head 7 (tail 14 df)));
         avg_change :=
           scalar_sub Qcminus (mean (downloads_col (tail 7 df)))
             (mean (downloads_col (head 7 (tail 14 df))));
         current_peak := latest df;
         previous_peak :=
           (if decide (1 < length df)%nat
            then max (downloads_col (but_last df)) else Num 0);
         peak_change :=
           scalar_sub Z.sub (Num (latest df))
             (if decide (1 < length df)%nat
              then max (downloads_col (but_last df)) else Num 0) |}.
Proof.
  unfold App.calculate_metrics.
  rewrite today_latest. simpl. by rewrite yesterday_previous.
Qed.

(** ** Claims on the download metrics *)

(** C1 (the code does not do this).  On the empty download series the
    metric computation returns without raising, and [latest],
    [previous] and [previous_peak] are 0; but the mean of the downloads,
    the weekly average and the peak are [NaN], not 0, in both handlers,
    and in app.py the previous weekly average is [NaN] too. *)
Theorem C1_empty_series_gives_nan :
  Home.calculate_metrics [] =
    Ret {| today_downloads := 0; yesterday_downloads := 0;
           avg_downloads := NaN; max_downloads := NaN; daily_change := 0;
           avg_last_week := NaN; avg_previous_week := Num 0%Qc;
           avg_change := NaN;
           current_peak := 0; previous_peak := Num 0; peak_change := Num 0 |}
  ∧ App.calculate_metrics [] =
    Ret {| today_downloads := 0; yesterday_downloads := 0;
           avg_downloads := NaN; max_downloads := NaN; daily_change := 0;
           avg_last_week := NaN; avg_previous_week := NaN;
           avg_change := NaN;
           current_peak := 0; previous_peak := Num 0; peak_change := Num 0 |}.
Proof. split; reflexivity. Qed.

Lemma peak_spec_intro (df : list download_record) (m : pypi_metrics) :
  current_peak m = latest df ->
  max_downloads m = max (downloads_col df) ->
  previous_peak m =
    (if decide (1 < length df)%nat then max (downloads_col (but_last df)) else Num 0) ->
  peak_change m = scalar_sub Z.sub (Num (current_peak m)) (previous_peak m) ->
  peak_spec df m.
Proof.
  intros Hcur Hmax Hprev Hchange. rewrite Hcur in Hchange.
  assert (∀ init r, df = init ++ [r] → init ≠ [] →
            ∃ q, previous_peak m = Num q ∧ is_max_of q (downloads_col init)) as Hinit.
  { intros init r -> Hne. rewrite Hprev, but_last_snoc, length_app. simpl.
    destruct (decide (1 < length init + 1)%nat) as [_|Hn].
    - apply max_spec. by destruct init.
    - destruct init; [done|simpl in Hn; lia]. }
  repeat split; try done.
  - intros Hne. rewrite Hmax. apply max_spec. by destruct df.
  - intros Hlen. rewrite Hprev. destruct (decide _); [lia|done].
  - assert (∃ q, previous_peak m = Num q) as [q Hq].
    { destruct df as [|r init _] using rev_ind.
      - exists 0. by rewrite Hprev.
      - destruct init as [|r' init].
        + exists 0. by rewrite Hprev.
        + destruct (Hinit (r' :: init) r eq_refl ltac:(done)) as (q & Hq & _). by exists q. }
    exists q, (latest df - q). rewrite Hchange, Hq. simpl. repeat split. lia.
Qed.

(** C2.  In both handlers, for every download series: the peak is the
    maximum count of the series; the previous peak is 0 for at most one
    record and otherwise the maximum over all records but the last; and
    the peak change is the latest count minus the previous peak, which
    is negative whenever the latest count is below the previous peak. *)
Theorem C2_peak_and_peak_change (df : list download_record) :
  (∃ m, Home.calculate_metrics df = Ret m ∧ peak_spec df m)
  ∧ (∃ m, App.calculate_metrics df = Ret m ∧ peak_spec df m).
Proof.
  split; eexists; (split; [apply Home_calculate_metrics_eq || apply App_calculate_metrics_eq|]);
    by apply peak_spec_intro.
Qed.

(** The scenario of the specification: 10, 20, 15. *)
Example peak_scenario :
  let df := [ {| dl_date := 1; downloads := 10 |};
              {| dl_date := 2; downloads := 20 |};
              {| dl_date := 3; downloads := 15 |} ] in
  ∃ m, Home.calculate_metrics df = Ret m
       ∧ daily_change m = -5 ∧ max_downloads m = Num 20
       ∧ previous_peak m = Num 20 ∧ peak_change m = Num (-5).
Proof. eexists. split; [reflexivity|]. by repeat split. Qed.

Lemma weekly_average_spec_intro (df : list download_record) (m : pypi_metrics) :
  avg_last_week m = mean (downloads_col (tail 7 df)) -> weekly_average_spec df m.
Proof.
  unfold weekly_average_spec. intros ->. split.
  - intros Hlen. rewrite tail_short; [done|lia].
  - intros pre last7 -> Hlen. by rewrite tail_app.
Qed.

Lemma head_tail_previous_week {A} (pre prev7 last7 : list A) :
  length prev7 = 7%nat -> length last7 = 7%nat ->
  head 7 (tail 14 (pre ++ prev7 ++ last7)) = prev7.
Proof.
  intros Hp Hl. rewrite tail_app by (rewrite length_app; lia).
  unfold head. rewrite <-Hp. apply take_app_length.
Qed.

(** In Home.py the weekly averages are as specified. *)
Lemma Home_weekly_averages (df : list download_record) :
  ∃ m, Home.calculate_metrics df = Ret m
       ∧ weekly_average_spec df m ∧ previous_weekly_average_spec df m.
Proof.
  eexists. split; [apply Home_calculate_metrics_eq|].
  split; [by apply weekly_average_spec_intro|].
  unfold previous_weekly_average_spec. cbn [avg_previous_week]. split.
  - intros Hlen. destruct (decide _); [lia|done].
  - intros pre prev7 last7 -> Hp Hl.
    destruct (decide _) as [_|Hn]; [|rewrite !length_app in Hn; lia].
    by rewrite head_tail_previous_week.
Qed.

(** In app.py the weekly average and the previous weekly average of a
    series of 14 records or more are the same. *)
Lemma App_weekly_averages (df : list download_record) :
  ∃ m, App.calculate_metrics df = Ret m
       ∧ weekly_average_spec df m
       ∧ (∀ pre prev7 last7, df = pre ++ prev7 ++ last7 →
            length prev7 = 7%nat → length last7 = 7%nat →
            avg_previous_week m = mean (downloads_col prev7)).
Proof.
  eexists. split; [apply App_calculate_metrics_eq|].
  split; [by apply weekly_average_spec_intro|]. cbn [avg_previous_week].
  intros pre prev7 last7 -> Hp Hl. by rewrite head_tail_previous_week.
Qed.

(** C5 (app.py does not do this).  On a series of one record with 5
    downloads, app.py gives 5 as the previous weekly average, where the
    claim and Home.py give 0. *)
Theorem C5_app_previous_week_of_short_series :
  let df := [ {| dl_date := 1; downloads := 5 |} ] in
  avg_previous_week <$> App.calculate_metrics df = Ret (Num (Qc_of_Z 5))
  ∧ avg_previous_week <$> Home.calculate_metrics df = Ret (Num 0%Qc)
  ∧ Qc_of_Z 5 ≠ 0%Qc.
Proof.
  intros df. split; [|split; [reflexivity|done]].
  rewrite App_calculate_metrics_eq, exc_fmap_Ret. cbn [avg_previous_week].
  reflexivity.
Qed.

(** ** Star normalisation *)

Lemma min_spec (l : list Z) : l ≠ [] -> ∃ p, min l = Num p ∧ is_min_of p l.
Proof.
  destruct l as [|x xs]; [done|intros _].
  exists (foldr Z.min x xs). split; [done|].
  induction xs as [|y ys [IHin IHle]]; simpl.
  - split; [by apply list_elem_of_singleton|].
    intros z Hz. apply list_elem_of_singleton in Hz. lia.
  - split.
    + destruct (Z.min_spec y (foldr Z.min x ys)) as [[_ ->]|[_ ->]].
      * rewrite !elem_of_cons; auto.
      * apply elem_of_cons in IHin as [->|Hin]; rewrite !elem_of_cons; auto.
    + assert (foldr Z.min x ys <= x) as Hx by (apply IHle, elem_of_cons; auto).
      intros z Hz. rewrite !elem_of_cons in Hz.
      destruct Hz as [->|[->|Hz]]; [lia..|].
      assert (foldr Z.min x ys <= z) by (apply IHle, elem_of_cons; auto). lia.
Qed.

Lemma is_min_of_unique (p q : Z) (l : list Z) :
  is_min_of p l -> is_min_of q l -> p = q.
Proof. intros [Hp Hp'] [Hq Hq']. specialize (Hp' q Hq). specialize (Hq' p Hp). lia. Qed.

Lemma mapM_exc_Ret {A B} (f : A -> exc B) (g : A -> B) (l : list A) :
  (∀ x, x ∈ l → f x = Ret (g x)) -> mapM f l = Ret (g <$> l).
Proof.
  induction l as [|x l IH]; intros Hf; [done|].
  simpl. rewrite (Hf x) by (apply elem_of_cons; auto). simpl.
  rewrite IH; [done|]. intros y Hy. apply Hf, elem_of_cons; auto.
Qed.

Lemma events_on_cons (d x : Z) (l : list Z) :
  events_on d (x :: l) = (if decide (x = d) then 1 else 0) + events_on d l.
Proof.
  unfold events_on. rewrite filter_cons.
  destruct (decide (x = d)); simpl length; lia.
Qed.

Lemma events_on_nonneg (d : Z) (l : list Z) : 0 <= events_on d l.
Proof. unfold events_on. lia. Qed.

Lemma events_on_zero (d : Z) (l : list Z) : d ∉ l -> events_on d l = 0.
Proof.
  induction l as [|x l IH]; [done|]. rewrite not_elem_of_cons. intros [Hne Hnin].
  rewrite events_on_cons, IH by done. destruct (decide _); [congruence|done].
Qed.

Lemma events_on_pos (d : Z) (l : list Z) : d ∈ l -> 0 < events_on d l.
Proof.
  induction l as [|x l IH]; [by intros ?%elem_of_nil|].
  rewrite elem_of_cons, events_on_cons. pose proof (events_on_nonneg d l).
  intros [->|Hin]; destruct (decide _); try done; try lia.
  specialize (IH Hin). lia.
Qed.

(** Grouping rows of weight 1 by day and summing counts the events of
    each day. *)
Lemma groupby_sum_count (dates : list Z) (d : Z) :
  default 0 (groupby_sum ((λ x, (x, 1)) <$> dates) !! d) = events_on d dates.
Proof.
  unfold groupby_sum.
  assert (∀ m : gmap Z Z,
    default 0 (foldl (λ m r, <[r.1 := default 0 (m !! r.1) + r.2]> m) m
                 ((λ x, (x, 1)) <$> dates) !! d)
    = default 0 (m !! d) + events_on d dates) as Hgen.
  { induction dates as [|x dates IH]; intros m; simpl.
    - unfold events_on. simpl. lia.
    - rewrite IH, events_on_cons, lookup_insert.
      destruct (decide (x = d)) as [->|Hne]; simpl; lia. }
  rewrite Hgen, lookup_empty. simpl. lia.
Qed.

Lemma length_cumsum_from (acc : Z) (l : list Z) : length (cumsum_from acc l) = length l.
Proof. revert acc. induction l; intros acc; simpl; auto. Qed.

Lemma length_diff (l : list Z) : length (diff l) = length l.
Proof.
  destruct l as [|x xs]; [done|].
  unfold diff. cbn [length]. rewrite length_zip_with. cbn [length]. lia.
Qed.

Lemma length_fillna_diff (l : list Z) : length (fillna (diff l) l) = length l.
Proof. unfold fillna. rewrite length_zip_with, length_diff. lia. Qed.

Lemma cumsum_from_lookup (acc : Z) (l : list Z) (i : nat) (c : Z) :
  cumsum_from acc l !! i = Some c -> c = acc + sum (take (S i) l).
Proof.
  revert acc i. induction l as [|x l IH]; intros acc i; [done|].
  destruct i as [|i]; simpl.
  - intros [= <-]. unfold sum. simpl. lia.
  - intros Hc. apply IH in Hc. unfold sum in *. simpl in *. lia.
Qed.

Lemma cumsum_from_ge (acc : Z) (l : list Z) (i : nat) (c : Z) :
  Forall (λ x, 0 <= x) l -> cumsum_from acc l !! i = Some c -> acc <= c.
Proof.
  intros Hl. revert acc i. induction Hl as [|x l Hx Hl IH]; intros acc i; [done|].
  destruct i as [|i]; simpl.
  - intros [= <-]. lia.
  - intros Hc. apply IH in Hc. lia.
Qed.

Lemma cumsum_from_mono (acc : Z) (l : list Z) (i j : nat) (a b : Z) :
  Forall (λ x, 0 <= x) l -> (i <= j)%nat ->
  cumsum_from acc l !! i = Some a -> cumsum_from acc l !! j = Some b -> a <= b.
Proof.
  intros Hl. revert acc i j. induction Hl as [|x l Hx Hl IH]; intros acc i j Hij; [done|].
  destruct i as [|i], j as [|j]; simpl; try lia.
  - intros [= <-] [= <-]. lia.
  - intros [= <-] Hb. by apply cumsum_from_ge in Hb.
  - apply IH. lia.
Qed.

Lemma records_of_columns (l k : list (Z * Z)) :
  length l = length k ->
  let records :=
    zip_with (fun '(d, s) '(c, ch) =>
                {| date := d; stars := s; cumulative_stars := c; star_change := ch |})
             l k in
  date <$> records = l.*1 ∧ stars <$> records = l.*2
  ∧ cumulative_stars <$> records = k.*1 ∧ star_change <$> records = k.*2.
Proof.
  revert k. induction l as [|[d s] l IH]; intros [|[c ch] k] Hlen; try done.
  simpl in Hlen. destruct (IH k) as (Hd & Hs & Hc & Hch); [lia|].
  simpl. repeat split; f_equal; assumption.
Qed.

Lemma normalize_columns (dates : list Z) (lo hi : Z) :
  let records := normalize dates lo hi in
  date <$> records = date_range lo hi
  ∧ stars <$> records = (λ d, events_on d dates) <$> date_range lo hi
  ∧ cumulative_stars <$> records = cumsum (stars <$> records).
Proof.
  unfold normalize.
  set (stars_df := reindex (groupby_sum ((λ d, (d, 1)) <$> dates)) (date_range lo hi) 0).
  set (stars_col := stars_df.*2).
  assert (length stars_col = length stars_df) as Hcol by apply length_fmap.
  destruct (records_of_columns stars_df
              (zip (cumsum stars_col) (fillna (diff stars_col) stars_col)))
    as (Hd & Hs & Hc & _).
  { unfold cumsum. rewrite length_zip, length_cumsum_from, length_fillna_diff.
    by rewrite Nat.min_id, Hcol. }
  cbv zeta. rewrite Hd, Hs, Hc. repeat split.
  - unfold stars_df, reindex. rewrite <-list_fmap_compose. apply list_fmap_id.
  - unfold stars_df, reindex. rewrite <-list_fmap_compose.
    apply list_fmap_ext. intros _ d _. simpl. apply groupby_sum_count.
  - apply fst_zip. unfold cumsum. by rewrite length_cumsum_from, length_fillna_diff.
Qed.

Lemma normalize_stars_nonneg (dates : list Z) (lo hi : Z) :
  Forall (λ x, 0 <= x) (stars <$> normalize dates lo hi).
Proof.
  destruct (normalize_columns dates lo hi) as (_ & -> & _).
  apply Forall_fmap, Forall_forall. intros d _. apply events_on_nonneg.
Qed.

Lemma stars_df_records_Ret (stars_data : list star) (records : list star_record) :
  stars_df_records stars_data = Ret records ->
  records = [] ∨ ∃ dates lo hi, records = normalize dates lo hi.
Proof.
  unfold stars_df_records. destruct (negb (empty stars_data)); [|intros [= <-]; auto].
  destruct (mapM _ stars_data) as [dates|e]; simpl; [|done].
  destruct (min dates) as [|lo], (max dates) as [|hi]; try done.
  intros [= <-]. right. eauto.
Qed.

Lemma stars_df_records_events (timestamps : list Z) :
  timestamps ≠ [] ->
  ∃ lo hi,
    stars_df_records (star_event <$> timestamps)
      = Ret (normalize (to_date <$> timestamps) lo hi)
    ∧ is_min_of lo (to_date <$> timestamps)
    ∧ is_max_of hi (to_date <$> timestamps).
Proof.
  intros Hne. unfold stars_df_records.
  assert (empty (star_event <$> timestamps) = false) as ->.
  { apply empty_false_iff. by destruct timestamps. }
  rewrite (mapM_exc_Ret _ (λ s, to_date (default 0 (starred_at s)))).
  2:{ intros s (ts & -> & _)%list_elem_of_fmap. done. }
  rewrite <-list_fmap_compose.
  assert ((λ s, to_date (default 0 (starred_at s))) ∘ star_event = to_date) as -> by done.
  destruct (min_spec (to_date <$> timestamps)) as (lo & Hlo & Hmin); [by destruct timestamps|].
  destruct (max_spec (to_date <$> timestamps)) as (hi & Hhi & Hmax); [by destruct timestamps|].
  exists lo, hi. simpl. by rewrite Hlo, Hhi.
Qed.

Lemma length_filter_zero_stars (records : list star_record) :
  length (filter (λ rec, stars rec = 0) records)
  = length (filter (λ s, s = 0) (stars <$> records)).
Proof.
  induction records as [|rec records IH]; [done|].
  rewrite fmap_cons, !filter_cons. destruct (decide (stars rec = 0)); simpl; congruence.
Qed.

(** ** Claims on the star series *)

(** C4.  For a non-empty list of star-event timestamps (every entry
    has its [starred_at]), the normalised series has one record for each
    calendar day from the earliest to the latest event day, in order;
    its [stars] is the number of events of that day, hence 0 on a day
    without events.  If the events fall on days [D1] and [D1 + 5] only,
    there are 6 records and 4 of them have [stars = 0]. *)
Theorem C4_dense_daily_series (timestamps : list Z) :
  timestamps ≠ [] ->
  ∃ lo hi records,
    stars_df_records (star_event <$> timestamps) = Ret records
    ∧ is_min_of lo (to_date <$> timestamps)
    ∧ is_max_of hi (to_date <$> timestamps)
    ∧ date <$> records = seqZ lo (hi - lo + 1)
    ∧ (∀ rec, rec ∈ records →
         stars rec = events_on (date rec) (to_date <$> timestamps)
         ∧ (date rec ∉ to_date <$> timestamps → stars rec = 0))
    ∧ (∀ D1, (∀ ts, ts ∈ timestamps → to_date ts = D1 ∨ to_date ts = D1 + 5) →
             D1 ∈ to_date <$> timestamps → D1 + 5 ∈ to_date <$> timestamps →
             length records = 6%nat
             ∧ length (filter (λ rec, stars rec = 0) records) = 4%nat).
Proof.
  intros Hne.
  destruct (stars_df_records_events timestamps Hne) as (lo & hi & Hrec & Hmin & Hmax).
  exists lo, hi, (normalize (to_date <$> timestamps) lo hi).
  destruct (normalize_columns (to_date <$> timestamps) lo hi) as (Hd & Hs & _).
  cbv zeta in Hd, Hs.
  set (dates := to_date <$> timestamps) in *.
  set (records := normalize dates lo hi) in *.
  assert (∀ rec, rec ∈ records → stars rec = events_on (date rec) dates) as Hcount.
  { intros rec (i & Hi)%list_elem_of_lookup.
    assert ((stars <$> records) !! i = Some (stars rec)) as Hsi
      by by rewrite list_lookup_fmap, Hi.
    assert ((date <$> records) !! i = Some (date rec)) as Hdi
      by by rewrite list_lookup_fmap, Hi.
    rewrite Hs, list_lookup_fmap in Hsi. rewrite Hd in Hdi.
    rewrite Hdi in Hsi. by injection Hsi. }
  split_and!; try done.
  - intros rec Hin. split; [by apply Hcount|].
    intros Hnin. rewrite Hcount by done. by apply events_on_zero.
  - intros D1 Honly Hfirst Hlast.
    assert (lo = D1 ∧ hi = D1 + 5) as [-> ->].
    { destruct Hmin as [Hlo Hlo'], Hmax as [Hhi Hhi'].
      pose proof (Hlo' _ Hfirst). pose proof (Hhi' _ Hlast).
      apply list_elem_of_fmap in Hlo as (t1 & -> & Ht1).
      apply list_elem_of_fmap in Hhi as (t2 & -> & Ht2).
      destruct (Honly _ Ht1), (Honly _ Ht2); lia. }
    unfold date_range in *. replace (D1 + 5 - D1 + 1) with 6 in * by lia.
    split.
    + by rewrite <-(length_fmap date), Hd, length_seqZ.
    + rewrite length_filter_zero_stars, Hs.
      assert (∀ k, 0 < k < 5 → events_on (k + D1) dates = 0) as Hgap.
      { intros k Hk. apply events_on_zero.
        intros (t & Ht & Hin)%list_elem_of_fmap. destruct (Honly _ Hin); lia. }
      apply events_on_pos in Hfirst, Hlast.
      assert (seqZ D1 6 = [D1; 1 + D1; 2 + D1; 3 + D1; 4 + D1; D1 + 5]) as ->.
      { unfold seqZ. change (Z.to_nat 6) with 6%nat. cbn [seq].
        rewrite !fmap_cons, fmap_nil. repeat (f_equal; try lia). }
      rewrite !fmap_cons, (Hgap 1), (Hgap 2), (Hgap 3), (Hgap 4) by lia.
      rewrite filter_cons_False by lia.
      rewrite !filter_cons_True by done.
      rewrite filter_cons_False by lia. done.
Qed.

(** C8.  In every normalised star series the records are in ascending
    date order, [cumulative_stars] of a record is the sum of [stars]
    over the records up to and including it, and it never decreases
    along the series. *)
Theorem C8_cumulative_stars_running_sum
    (stars_data : list star) (records : list star_record) :
  stars_df_records stars_data = Ret records ->
  (∀ i rec, records !! i = Some rec →
     cumulative_stars rec = sum (stars <$> take (S i) records))
  ∧ (∀ i j ri rj, (i < j)%nat → records !! i = Some ri → records !! j = Some rj →
       date ri < date rj ∧ cumulative_stars ri <= cumulative_stars rj).
Proof.
  intros [->|(dates & lo & hi & ->)]%stars_df_records_Ret; [done|].
  destruct (normalize_columns dates lo hi) as (Hd & _ & Hc). cbv zeta in Hd, Hc.
  pose proof (normalize_stars_nonneg dates lo hi) as Hnn.
  set (records := normalize dates lo hi) in *.
  assert (∀ i rec, records !! i = Some rec →
            cumsum_from 0 (stars <$> records) !! i = Some (cumulative_stars rec)) as Hcum.
  { intros i rec Hi. fold (cumsum (stars <$> records)).
    by rewrite <-Hc, list_lookup_fmap, Hi. }
  split.
  - intros i rec Hi. apply Hcum, cumsum_from_lookup in Hi.
    by rewrite fmap_take, Hi.
  - intros i j ri rj Hij Hi Hj. split.
    + assert ((date <$> records) !! i = Some (date ri)) as Hdi
        by by rewrite list_lookup_fmap, Hi.
      assert ((date <$> records) !! j = Some (date rj)) as Hdj
        by by rewrite list_lookup_fmap, Hj.
      rewrite Hd in Hdi, Hdj. unfold date_range in *.
      apply lookup_seqZ in Hdi as [-> _], Hdj as [-> _]. lia.
    + eapply (cumsum_from_mono 0 _ i j); [done|lia|by apply Hcum..].
Qed.

(** ** Running a fetch *)

Lemma bind_Done {A B} (m : io A) (f : A -> io B) (tr tr1 : list event) (a : A) :
  m tr = (Done a, tr1) -> (m ≫= f) tr = f a tr1.
Proof. unfold mbind, io_bind. by intros ->. Qed.

Lemma bind_Raised {A B} (m : io A) (f : A -> io B) (tr tr1 : list event) (e : exn) :
  m tr = (Raised e, tr1) -> (m ≫= f) tr = (Raised e, tr1).
Proof. unfold mbind, io_bind. by intros ->. Qed.

Lemma bind_inv_Done {A B} (m : io A) (f : A -> io B) (tr tr' : list event) (b : B) :
  (m ≫= f) tr = (Done b, tr') -> ∃ a tr1, m tr = (Done a, tr1) ∧ f a tr1 = (Done b, tr').
Proof.
  unfold mbind, io_bind. destruct (m tr) as [[a|e|] tr1]; [|done..]. eauto.
Qed.

Lemma requests_get_Ret {T} (r : request) (server : reply T) (resp : response T)
    (tr : list event) :
  server = Ret resp -> requests_get r server tr = (Done resp, tr ++ [Request r]).
Proof. by intros ->. Qed.

Lemma requests_get_Raise {T} (r : request) (server : reply T) (e : exn)
    (tr : list event) :
  server = Raise e -> requests_get r server tr = (Raised e, tr ++ [Request r]).
Proof. by intros ->. Qed.

Lemma requests_get_inv {T} (r : request) (server : reply T) (resp : response T)
    (tr tr' : list event) :
  requests_get r server tr = (Done resp, tr') -> server = Ret resp ∧ tr' = tr ++ [Request r].
Proof.
  unfold requests_get, mbind, io_bind, emit, lift.
  destruct server; [|done]. by intros [= -> ->].
Qed.

Lemma lift_Ret {A} (m : exc A) (a : A) (tr : list event) :
  m = Ret a -> lift m tr = (Done a, tr).
Proof. by intros ->. Qed.

Lemma lift_Raise {A} (m : exc A) (e : exn) (tr : list event) :
  m = Raise e -> lift m tr = (Raised e, tr).
Proof. by intros ->. Qed.

Lemma lift_inv {A} (m : exc A) (a : A) (tr tr' : list event) :
  lift m tr = (Done a, tr') -> m = Ret a ∧ tr' = tr.
Proof. unfold lift. destruct m; [|done]. by intros [= -> ->]. Qed.

Lemma mret_inv {A} (a b : A) (tr tr' : list event) :
  (mret a : io A) tr = (Done b, tr') -> a = b ∧ tr' = tr.
Proof. by intros [= -> ->]. Qed.

(** ** Claims on the warehouse query and the lifetime downloads *)

Lemma granularity_table_unknown (granularity : string) :
  ¬ enumerated granularity -> Utils.granularity_table !! granularity = None.
Proof.
  unfold enumerated. rewrite !not_elem_of_cons. intros (Hd & Hw & Hm & Hh & _).
  unfold Utils.granularity_table. simpl.
  by rewrite !lookup_insert_ne, lookup_empty.
Qed.

(** In utils.py an unknown granularity gives the query of ["daily"]. *)
Lemma Utils_unknown_granularity_is_daily (granularity : string) :
  ¬ enumerated granularity ->
  Utils.time_group_select_time granularity = daily_sql
  ∧ Utils.time_group_select_time "daily" = daily_sql
  ∧ ∀ client package_name start_date end_date,
      Utils.fetch_pypi_stats client package_name start_date end_date granularity
      = Utils.fetch_pypi_stats client package_name start_date end_date "daily".
Proof.
  intros Hg. unfold Utils.fetch_pypi_stats, Utils.time_group_select_time.
  by rewrite granularity_table_unknown.
Qed.


(** In utils.py, when the request for the lifetime downloads raises a
    [RequestException] or its response has a 4xx or 5xx status,
    [fetch_lifetime_downloads] shows the error and returns 0 without
    raising, and the handler of Home.py goes on with the rest of the
    pipeline with 0 as the lifetime total. *)
Lemma Utils_lifetime_failure_defaults_to_zero
    (api : pypistats) (package_name : string) (e : exn) (tr : list event) :
  lifetime_request_fails (api package_name) e ->
  let tr' := tr ++ [Request (GetOverall package_name)]
                ++ [StErrorExn ("Error fetching download stats for " ++ package_name ++ ": ") e] in
  Utils.fetch_lifetime_downloads api package_name tr = (Done 0, tr')
  ∧ ∀ client gh now fuel start_date end_date granularity,
      Home.fetch_stats api client gh now fuel package_name start_date end_date granularity tr
      = try_except
          (Home.after_lifetime client gh now fuel package_name start_date end_date
             granularity 0)
          (fun _ => true)
          (fun e => st_error_exn "Error fetching data: " e;; mret None) tr'.
Proof.
  intros Hfail tr'.
  assert (Utils.fetch_lifetime_downloads api package_name tr = (Done 0, tr')) as Hzero.
  { unfold Utils.fetch_lifetime_downloads. io_unfold.
    destruct Hfail as [[Hr He]|(resp & Hr & Hstatus & ->)]; rewrite Hr.
    - rewrite He. unfold tr'. by rewrite <-app_assoc.
    - unfold Utils.raise_for_status. destruct (decide _) as [_|Hn]; [|lia].
      cbn. unfold tr'. by rewrite <-app_assoc. }
  split; [done|]. intros.
  unfold Home.fetch_stats, try_except.
  by rewrite (bind_Done _ _ _ _ _ Hzero).
Qed.

(** C6 (app.py does not do this).  In app.py the lifetime total is a
    count query on the warehouse, and [fetch_lifetime_downloads] has no
    handler: when the query fails, the function raises the error instead
    of returning 0, and the "Fetch Stats" handler, whose [try] block it
    leaves, computes nothing: neither the download series nor the
    repository is fetched.  The function of utils.py returns 0 on its
    failures, and Home.py goes on. *)
Theorem C6_app_lifetime_failure_aborts_the_pipeline
    (count_client : string -> exc Z) (package_name : string) (e : exn)
    (tr : list event) :
  count_client package_name = Raise e ->
  App.fetch_lifetime_downloads count_client package_name tr = (Raised e, tr)
  ∧ (App.fetch_lifetime_downloads count_client package_name tr).1 ≠ Done 0
  ∧ ∀ client gh now fuel start_date end_date granularity,
      App.fetch_stats count_client client gh now fuel package_name start_date end_date
        granularity tr
      = (Done None, tr ++ [StErrorExn "Error fetching data: " e]).
Proof.
  intros Hfail.
  assert (App.fetch_lifetime_downloads count_client package_name tr = (Raised e, tr))
    as Hraise.
  { unfold App.fetch_lifetime_downloads. by apply lift_Raise. }
  split_and!.
  - exact Hraise.
  - by rewrite Hraise.
  - intros. unfold App.fetch_stats, try_except.
    by rewrite (bind_Raised _ _ _ _ _ Hraise).
Qed.

(** ** The stargazer pagination loop *)

Lemma page_requests_S (p : Z) (n : nat) :
  page_requests p (S n) = Request (GetStargazers 100 p) :: page_requests (p + 1) n.
Proof.
  unfold page_requests. cbn [seq]. rewrite fmap_cons, <-fmap_S_seq, <-list_fmap_compose.
  f_equal; [do 2 f_equal; lia|].
  apply list_fmap_ext. intros _ i _. simpl. do 2 f_equal. lia.
Qed.

Lemma stargazers_loop_pages (gh : github) (n : nat) :
  ∀ (pages : nat -> list star) (fuel : nat) (p : Z) (acc : list star)
    (tr : list event) (final : response (list star)),
    (∀ i, (i < n)%nat →
       stargazers gh 100 (p + Z.of_nat i)
         = Ret {| status_code := 200; json := Ret (pages i) |}
       ∧ pages i ≠ []) ->
    stargazers gh 100 (p + Z.of_nat n) = Ret final ->
    status_code final ≠ 200 ∨ json final = Ret [] ->
    (n < fuel)%nat ->
    stargazers_loop gh fuel p acc tr
    = (Done (acc ++ concat (pages <$> seq 0 n)), tr ++ page_requests p (S n)).
Proof.
  induction n as [|n IH]; intros pages fuel p acc tr final Hpages Hfinal Hstop Hfuel;
    (destruct fuel as [|fuel]; [lia|]); cbn [stargazers_loop].
  - rewrite Z.add_0_r in Hfinal.
    rewrite (bind_Done _ _ _ _ _ (requests_get_Ret _ _ _ _ Hfinal)).
    simpl. rewrite app_nil_r. unfold page_requests. simpl. rewrite Z.add_0_r.
    destruct (decide (status_code final ≠ 200)) as [|Hok]; [done|].
    destruct Hstop as [|Hempty]; [done|].
    by rewrite (bind_Done _ _ _ _ _ (lift_Ret _ _ _ Hempty)).
  - destruct (Hpages 0%nat) as [Hfirst Hne]; [lia|]. rewrite Z.add_0_r in Hfirst.
    rewrite (bind_Done _ _ _ _ _ (requests_get_Ret _ _ _ _ Hfirst)).
    cbn [status_code json]. destruct (decide (200 ≠ 200)) as [|_]; [done|].
    rewrite (bind_Done _ _ _ _ _ (lift_Ret _ _ _ eq_refl)).
    assert (empty (pages 0%nat) = false) as -> by by apply empty_false_iff.
    rewrite (IH (λ i, pages (S i)) fuel (p + 1) _ _ final); [| | |done|lia].
    + rewrite !page_requests_S, <-!app_assoc. cbn [seq].
      by rewrite fmap_cons, <-fmap_S_seq, <-list_fmap_compose.
    + intros i Hi. destruct (Hpages (S i)) as [Hp Hn]; [lia|].
      split; [|done]. rewrite <-Hp. f_equal. lia.
    + rewrite <-Hfinal. f_equal. lia.
Qed.

(** C9.  The loop asks for the stargazer pages 1, 2, ... with 100 items
    per page and stops at the first page that is empty or not answered
    with status 200: if the pages [1 .. n] are answered with 200 and
    non-empty bodies and page [n + 1] is not, then (with a budget of
    more than [n] iterations) the loop returns the events of the pages
    [1 .. n] after having requested exactly the pages [1 .. n + 1].
    With 100 items on page 1 and an empty page 2 it returns 100 events
    and the requests are those for page 1 and page 2. *)
Theorem C9_stargazer_pagination
    (gh : github) (pages : nat -> list star) (n fuel : nat)
    (final : response (list star)) (tr : list event) :
  (∀ i, (i < n)%nat →
     stargazers gh 100 (1 + Z.of_nat i)
       = Ret {| status_code := 200; json := Ret (pages i) |}
     ∧ pages i ≠ []) ->
  stargazers gh 100 (1 + Z.of_nat n) = Ret final ->
  status_code final ≠ 200 ∨ json final = Ret [] ->
  (n < fuel)%nat ->
  stargazers_loop gh fuel 1 [] tr
  = (Done (concat (pages <$> seq 0 n)), tr ++ page_requests 1 (S n))
  ∧ (n = 1%nat → length (pages 0%nat) = 100%nat →
       ∃ stars_data,
         stargazers_loop gh fuel 1 [] tr
         = (Done stars_data,
            tr ++ [Request (GetStargazers 100 1); Request (GetStargazers 100 2)])
         ∧ length stars_data = 100%nat).
Proof.
  intros Hpages Hfinal Hstop Hfuel.
  pose proof (stargazers_loop_pages gh n pages fuel 1 [] tr final
                Hpages Hfinal Hstop Hfuel) as Hloop.
  rewrite app_nil_l in Hloop. split; [done|].
  intros -> Hlen. eexists. split; [exact Hloop|].
  simpl. by rewrite app_nil_r.
Qed.

(** ** The repository-stats fetch *)

Lemma exc_bind_inv {A B} (m : exc A) (f : A -> exc B) (b : B) :
  m ≫= f = Ret b -> ∃ a, m = Ret a ∧ f a = Ret b.
Proof. destruct m as [a|e]; [|done]. eauto. Qed.

Lemma getitem_inv {A} (field : option A) (a : A) :
  getitem field = Ret a -> field = Some a.
Proof. destruct field; [|done]. by intros [= ->]. Qed.

(** The handler of [fetch_github_stats_api] turns every exception into
    the absent pair. *)
Lemma fetch_github_stats_api_never_raises
    (gh : github) (now : Z) (fuel : nat) (tr tr' : list event) (e : exn) :
  fetch_github_stats_api gh now fuel tr ≠ (Raised e, tr').
Proof.
  unfold fetch_github_stats_api, try_except.
  by destruct (fetch_github_stats_body gh now fuel tr) as [[?|?|] ?].
Qed.

Lemma fetch_github_stats_api_Some
    (gh : github) (now : Z) (fuel : nat) (tr tr' : list event)
    (df : list github_row) (rd : repo_data) :
  fetch_github_stats_api gh now fuel tr = (Done (Some (df, rd)), tr') ->
  fetch_github_stats_body gh now fuel tr = (Done (Some (df, rd)), tr').
Proof.
  unfold fetch_github_stats_api, try_except.
  by destruct (fetch_github_stats_body gh now fuel tr) as [[?|?|] ?].
Qed.

(** What a returned pair looks like: the rows of the series are built
    from the counts of the metadata and the weekly totals. *)
Lemma fetch_github_stats_body_Some
    (gh : github) (now : Z) (fuel : nat) (tr tr' : list event)
    (df : list github_row) (rd : repo_data) :
  fetch_github_stats_body gh now fuel tr = (Done (Some (df, rd)), tr') ->
  ∃ stars forks open_issues watchers dates weekly_commits,
    stargazers_count (repo rd) = Some stars
    ∧ forks_count (repo rd) = Some forks
    ∧ df = zip_with (fun d c => {| row_date := d;
                                   row_stars := stars;
                                   row_forks := forks;
                                   row_open_issues := open_issues;
                                   row_watchers := watchers;
                                   row_weekly_commits := c |})
                    dates weekly_commits.
Proof.
  unfold fetch_github_stats_body. intros H.
  apply bind_inv_Done in H as (repo_response & tr1 & _ & H).
  destruct (decide (status_code repo_response ≠ 200)).
  { apply bind_inv_Done in H as (? & ? & _ & H).
    apply bind_inv_Done in H as (? & ? & _ & H).
    by apply mret_inv in H as [? _]. }
  apply bind_inv_Done in H as (repo_data & ? & _ & H).
  apply bind_inv_Done in H as (stars_data & ? & _ & H).
  apply bind_inv_Done in H as (stars_df & ? & _ & H).
  apply bind_inv_Done in H as (commits_response & ? & _ & H).
  apply bind_inv_Done in H as (commits_data & ? & _ & H).
  apply bind_inv_Done in H as (contributors_response & ? & _ & H).
  apply bind_inv_Done in H as (contributors_data & ? & _ & H).
  apply bind_inv_Done in H as (releases_response & ? & _ & H).
  apply bind_inv_Done in H as (releases_data & ? & _ & H).
  apply bind_inv_Done in H as (prs_response & ? & _ & H).
  apply bind_inv_Done in H as (prs_data & ? & _ & H).
  apply bind_inv_Done in H as (total_commits & ? & _ & H).
  apply bind_inv_Done in H as (df' & ? & Hdf & H).
  apply mret_inv in H as [[= -> <-] _].
  apply lift_inv in Hdf as [Hdf _].
  apply exc_bind_inv in Hdf as (stars & Hstars%getitem_inv & Hdf).
  apply exc_bind_inv in Hdf as (forks & Hforks%getitem_inv & Hdf).
  apply exc_bind_inv in Hdf as (open_issues & _ & Hdf).
  apply exc_bind_inv in Hdf as (watchers & _ & Hdf).
  apply exc_bind_inv in Hdf as (weekly_commits & _ & [= <-]).
  by eexists stars, forks, open_issues, watchers, _, weekly_commits.
Qed.

(** C10.  In a series returned by the repository-stats fetch every row
    holds the [stargazers_count] and the [forks_count] of the returned
    snapshot; so when the series has at least 7 rows, the "this week"
    changes of stars and forks that both handlers derive are 0. *)
Theorem C10_stars_and_forks_columns_are_constant
    (gh : github) (now : Z) (fuel : nat) (tr tr' : list event)
    (df : list github_row) (rd : repo_data) :
  fetch_github_stats_api gh now fuel tr = (Done (Some (df, rd)), tr') ->
  (∀ row, row ∈ df →
     stargazers_count (repo rd) = Some (row_stars row)
     ∧ forks_count (repo rd) = Some (row_forks row))
  ∧ ((7 <= length df)%nat →
       Home.github_changes df rd = Ret (0, 0)
       ∧ App.github_changes df rd = Ret (0, 0)).
Proof.
  intros H%fetch_github_stats_api_Some%fetch_github_stats_body_Some.
  destruct H as (s & f & o & w & dates & commits & Hs & Hf & ->).
  set (df := zip_with _ dates commits).
  assert (∀ row, row ∈ df → row_stars row = s ∧ row_forks row = f) as Hrows.
  { intros row (d & c & -> & _)%elem_of_zip_with. done. }
  split.
  - intros row [-> ->]%Hrows. done.
  - intros Hlen.
    destruct (iloc_neg_in_range 7 df) as (row & Hrow & Hin%list_elem_of_lookup_2); [lia|].
    apply Hrows in Hin as [Hrs Hrf].
    unfold Home.github_changes, App.github_changes.
    destruct (decide (7 <= length df)%nat); [|lia].
    rewrite Hs, Hf, Hrow. simpl. rewrite Hrs, Hrf, !Z.sub_diag. done.
Qed.

Lemma sub_resource_get {T B} (req : request) (r : reply (list T)) (d : list T)
    (k : list T -> io B) (tr : list event) :
  sub_resource r d ->
  (requests_get req r ≫= λ resp, json_or_empty resp ≫= k) tr = k d (tr ++ [Request req]).
Proof.
  intros (resp & Hr & Hd).
  rewrite (bind_Done _ _ _ _ _ (requests_get_Ret _ _ _ _ Hr)).
  unfold json_or_empty.
  destruct Hd as [[Hstatus ->]|[Hstatus Hjson]];
    destruct (decide (status_code resp = 200)); try done.
  by rewrite (bind_Done _ _ _ _ _ (lift_Ret _ _ _ Hjson)).
Qed.

Lemma sub_resource_not_200 {T} (r : reply (list T)) (d : list T) (resp : response (list T)) :
  sub_resource r d -> r = Ret resp -> status_code resp ≠ 200 -> d = [].
Proof.
  intros (resp' & -> & Hd) [= ->] Hstatus. by destruct Hd as [[_ ->]|[? _]].
Qed.

Lemma week_totals_mapM (commits : list week) :
  Forall (λ w, is_Some (total w)) commits ->
  mapM (λ w, getitem (total w)) commits = Ret (week_totals commits).
Proof.
  intros Hall. apply mapM_exc_Ret. intros w Hw.
  rewrite Forall_forall in Hall. by destruct (Hall w Hw) as [t ->].
Qed.

(** C3.  When the metadata call is answered with a status other than
    200, the fetch sends no further request and returns the absent
    pair; the fetch never ends with an exception.  When it is answered
    with 200 and a body that has the four counts, the stargazer loop
    ends and its events have their timestamps, and the four auxiliary
    sub-calls are answered (weekly buckets with their totals), the
    fetch returns a pair whose snapshot holds, for each sub-call, the
    decoded body if its status is 200 and the empty collection
    otherwise, so that a sub-call with another status empties its own
    field only. *)
Theorem C3_repository_fetch_failures
    (gh : github) (now : Z) (fuel : nat) (tr : list event)
    (repo_response : response repo_json) :
  repos gh = Ret repo_response ->
  (status_code repo_response ≠ 200 →
     ∃ ev, fetch_github_stats_api gh now fuel tr
           = (Done None, tr ++ [Request GetRepo; ev]))
  ∧ (∀ e tr', fetch_github_stats_api gh now fuel tr ≠ (Raised e, tr'))
  ∧ (status_code repo_response = 200 →
     ∀ body stars_data tr2 history commits contributors rels prs,
       json repo_response = Ret body →
       is_Some (stargazers_count body) → is_Some (forks_count body) →
       is_Some (open_issues_count body) → is_Some (watchers_count body) →
       stargazers_loop gh fuel 1 [] (tr ++ [Request GetRepo]) = (Done stars_data, tr2) →
       stars_df_records stars_data = Ret history →
       sub_resource (stats_commit_activity gh) commits →
       Forall (λ w, is_Some (total w)) commits →
       sub_resource (stats_contributors gh) contributors →
       sub_resource (releases gh) rels →
       sub_resource (pulls gh) prs →
       ∃ df,
         fetch_github_stats_api gh now fuel tr
         = (Done (Some (df, {| repo := body;
                               total_commits := sum (week_totals commits);
                               total_contributors := length contributors;
                               total_releases := length rels;
                               commits_data := commits;
                               contributors_data := contributors;
                               releases_data := rels;
                               prs_data := prs;
                               stars_history := history |})),
            tr2 ++ [Request GetCommitActivity; Request GetContributors;
                    Request GetReleases; Request GetPulls])
         ∧ length df = length commits
         ∧ (∀ resp, stats_commit_activity gh = Ret resp → status_code resp ≠ 200 →
              commits = [])
         ∧ (∀ resp, stats_contributors gh = Ret resp → status_code resp ≠ 200 →
              contributors = [])
         ∧ (∀ resp, releases gh = Ret resp → status_code resp ≠ 200 → rels = [])
         ∧ (∀ resp, pulls gh = Ret resp → status_code resp ≠ 200 → prs = [])).
Proof.
  intros Hrepo. split_and!.
  - intros Hstatus.
    unfold fetch_github_stats_api, try_except, fetch_github_stats_body.
    rewrite (bind_Done _ _ _ _ _ (requests_get_Ret _ _ _ _ Hrepo)).
    destruct (decide (status_code repo_response ≠ 200)); [|done].
    destruct (json repo_response) as [body|e] eqn:Hjson.
    + rewrite (bind_Done _ _ _ _ _ (lift_Ret _ _ _ eq_refl)).
      eexists. io_unfold. by rewrite <-app_assoc.
    + rewrite (bind_Raised _ _ _ _ _ (lift_Raise _ _ _ eq_refl)).
      eexists. io_unfold. by rewrite <-app_assoc.
  - intros e tr'. apply fetch_github_stats_api_never_raises.
  - intros Hstatus body stars_data tr2 history commits contributors rels prs
      Hjson [s Hs] [f Hf] [o Ho] [w Hw] Hloop Hhistory Hcommits Htotals
      Hcontributors Hrels Hprs.
    exists (zip_with (fun d c => {| row_date := d;
                                    row_stars := s;
                                    row_forks := f;
                                    row_open_issues := o;
                                    row_watchers := w;
                                    row_weekly_commits := c |})
              (if negb (empty commits)
               then date_range_weekly now (length commits) else [])
              (week_totals commits)).
    split_and!; [| |intros; by eapply sub_resource_not_200..].
    2:{ rewrite length_zip_with. unfold week_totals. rewrite length_fmap.
        destruct commits as [|c commits]; [done|].
        rewrite (proj2 (empty_false_iff (c :: commits))) by done.
        cbn [negb]. unfold date_range_weekly.
        rewrite length_fmap, length_seq. lia. }
    unfold fetch_github_stats_api, try_except, fetch_github_stats_body.
    rewrite (bind_Done _ _ _ _ _ (requests_get_Ret _ _ _ _ Hrepo)).
    destruct (decide (status_code repo_response ≠ 200)); [done|].
    rewrite (bind_Done _ _ _ _ _ (lift_Ret _ _ _ Hjson)).
    rewrite (bind_Done _ _ _ _ _ Hloop).
    rewrite (bind_Done _ _ _ _ _ (lift_Ret _ _ _ Hhistory)).
    rewrite (sub_resource_get _ _ _ _ _ Hcommits).
    rewrite (sub_resource_get _ _ _ _ _ Hcontributors).
    rewrite (sub_resource_get _ _ _ _ _ Hrels).
    rewrite (sub_resource_get _ _ _ _ _ Hprs).
    rewrite Hs, Hf, Ho, Hw, (week_totals_mapM _ Htotals).
    rewrite <-!app_assoc.
    destruct commits; reflexivity.
Qed.

(** ** The statements on concrete inputs *)

Lemma C3_witness :
  ∃ df history,
    fetch_github_stats_api example_github 1700000000 5 []
    = (Done (Some (df, {| repo := {| message := None;
                                     stargazers_count := Some 100;
                                     forks_count := Some 7;
                                     open_issues_count := Some 3;
                                     watchers_count := Some 100;
                                     created_at := Some 1600000000;
                                     updated_at := Some 1699000000;
                                     language := Some (Some "Python"%string);
                                     license :=
                                       Some (Some {| license_name :=
                                                       Some "MIT License"%string |});
                                     description := Some None |};
                          total_commits := 16;
                          total_contributors := 0;
                          total_releases := 1;
                          commits_data := replicate 8 {| total := Some 2 |};
                          contributors_data := [];
                          releases_data := ["v1.0"%string];
                          prs_data := [];
                          stars_history := history |})),
       [Request GetRepo; Request (GetStargazers 100 1); Request (GetStargazers 100 2);
        Request GetCommitActivity; Request GetContributors;
        Request GetReleases; Request GetPulls])
    ∧ length df = 8%nat.
Proof.
  destruct (C3_repository_fetch_failures example_github 1700000000 5 [] _ eq_refl)
    as (_ & _ & Hok).
  specialize (Hok eq_refl).
  edestruct Hok with (commits := replicate 8 {| total := Some 2 |})
                     (contributors := @nil json_item)
                     (rels := ["v1.0"%string]) (prs := @nil json_item)
    as (df & Hfetch & Hlen & _).
  - reflexivity.
  - by eexists.
  - by eexists.
  - by eexists.
  - by eexists.
  - vm_compute. reflexivity.
  - vm_compute. reflexivity.
  - eexists. split; [reflexivity|]. right. by split.
  - repeat constructor; by eexists.
  - eexists. split; [reflexivity|]. left. by split.
  - eexists. split; [reflexivity|]. right. by split.
  - eexists. split; [reflexivity|]. left. by split.
  - exists df. eexists. split; [exact Hfetch|exact Hlen].
Defined.

Lemma C4_witness :
  ∃ records,
    stars_df_records (star_event <$> [86400; 518405]) = Ret records
    ∧ length records = 6%nat
    ∧ length (filter (λ rec, stars rec = 0) records) = 4%nat.
Proof.
  destruct (C4_dense_daily_series [86400; 518405])
    as (lo & hi & records & Hrec & _ & _ & _ & _ & Hdays); [done|].
  exists records. split; [exact Hrec|].
  apply (Hdays 1).
  - intros ts Hts. rewrite !elem_of_cons in Hts.
    destruct Hts as [->|[->|Hts]]; [by left|by right|by apply elem_of_nil in Hts].
  - by apply list_elem_of_here.
  - by apply list_elem_of_further, list_elem_of_here.
Defined.

Lemma Utils_lifetime_failure_example :
  Utils.fetch_lifetime_downloads
    (λ _, Ret {| status_code := 404; json := Raise JSONDecodeError |}) "crewai" []
  = (Done 0, [Request (GetOverall "crewai");
              StErrorExn "Error fetching download stats for crewai: " HTTPError]).
Proof.
  apply (Utils_lifetime_failure_defaults_to_zero
           (λ _, Ret {| status_code := 404; json := Raise JSONDecodeError |})
           "crewai" HTTPError []).
  right. eexists. split; [reflexivity|]. split; [simpl; lia|reflexivity].
Defined.

Lemma C6_witness :
  App.fetch_lifetime_downloads (λ _, Raise WarehouseError) "crewai" []
  = (Raised WarehouseError, [])
  ∧ App.fetch_stats (λ _, Raise WarehouseError) example_bigquery example_github
      1700000000 5 "crewai" 19000 19014 "daily" []
    = (Done None, [StErrorExn "Error fetching data: " WarehouseError]).
Proof.
  destruct (C6_app_lifetime_failure_aborts_the_pipeline
              (λ _, Raise WarehouseError) "crewai" WarehouseError [] eq_refl)
    as (Hraise & _ & Hhandler).
  split; [exact Hraise|].
  exact (Hhandler example_bigquery example_github 1700000000 5%nat 19000 19014
           "daily"%string).
Defined.


Lemma C8_witness :
  ∃ records,
    stars_df_records (star_event <$> [86400; 86401; 518405]) = Ret records
    ∧ cumulative_stars <$> records = [2; 2; 2; 2; 2; 3]
    ∧ (∀ i rec, records !! i = Some rec →
         cumulative_stars rec = sum (stars <$> take (S i) records)).
Proof.
  eexists. split; [vm_compute; reflexivity|]. split; [reflexivity|].
  apply (C8_cumulative_stars_running_sum (star_event <$> [86400; 86401; 518405])).
  vm_compute. reflexivity.
Defined.

Lemma C9_witness :
  ∃ stars_data,
    stargazers_loop example_github 2 1 [] []
    = (Done stars_data,
       [Request (GetStargazers 100 1); Request (GetStargazers 100 2)])
    ∧ length stars_data = 100%nat.
Proof.
  apply (C9_stargazer_pagination example_github
           (λ _, replicate 100 (star_event 1700000000)) 1 2
           {| status_code := 200; json := Ret [] |} []).
  - intros i Hi. assert (i = 0%nat) as -> by lia. by split.
  - reflexivity.
  - by right.
  - lia.
  - reflexivity.
  - reflexivity.
Defined.

Lemma C10_witness :
  ∃ df rd tr',
    fetch_github_stats_api example_github 1700000000 5 [] = (Done (Some (df, rd)), tr')
    ∧ length df = 8%nat
    ∧ Home.github_changes df rd = Ret (0, 0)
    ∧ App.github_changes df rd = Ret (0, 0).
Proof.
  do 3 eexists. split; [vm_compute; reflexivity|]. split; [reflexivity|].
  eapply (C10_stars_and_forks_columns_are_constant example_github 1700000000 5 []).
  - vm_compute. reflexivity.
  - simpl. lia.
Defined.

(** * Further properties of the code *)

(** ** The star series *)

Lemma fillna_diff_first (l : list Z) (x : Z) :
  l !! 0%nat = Some x -> fillna (diff l) l !! 0%nat = Some x.
Proof. destruct l as [|y l]; [done|]. by intros [= ->]. Qed.

Lemma fillna_diff_next (l : list Z) (i : nat) (a b : Z) :
  l !! i = Some a -> l !! S i = Some b -> fillna (diff l) l !! S i = Some (b - a).
Proof.
  destruct l as [|y l]; [done|]. intros Ha Hb.
  change (fillna (diff (y :: l)) (y :: l) !! S i)
    with (zip_with (fun x o => match x with NaN => o | Num v => v end)
            (zip_with (fun prev cur => Num (cur - prev)) (y :: l) l) l !! i).
  change ((y :: l) !! S i) with (l !! i) in Hb.
  by rewrite !lookup_zip_with, Ha, Hb.
Qed.

Lemma normalize_star_change_column (dates : list Z) (lo hi : Z) :
  let records := normalize dates lo hi in
  star_change <$> records = fillna (diff (stars <$> records)) (stars <$> records).
Proof.
  unfold normalize.
  set (stars_df := reindex (groupby_sum ((λ d, (d, 1)) <$> dates)) (date_range lo hi) 0).
  set (stars_col := stars_df.*2).
  assert (length stars_col = length stars_df) as Hcol by apply length_fmap.
  destruct (records_of_columns stars_df
              (zip (cumsum stars_col) (fillna (diff stars_col) stars_col)))
    as (_ & Hs & _ & Hch).
  { unfold cumsum. rewrite length_zip, length_cumsum_from, length_fillna_diff.
    by rewrite Nat.min_id, Hcol. }
  cbv zeta. rewrite Hs, Hch. apply snd_zip.
  unfold cumsum. by rewrite length_cumsum_from, length_fillna_diff.
Qed.

(** [star_change] of the first record is its [stars]; of every other
    record it is its [stars] minus the [stars] of the day before. *)
Theorem star_change_first_difference
    (stars_data : list star) (records : list star_record) :
  stars_df_records stars_data = Ret records ->
  (∀ r, records !! 0%nat = Some r → star_change r = stars r)
  ∧ (∀ i r r', records !! i = Some r → records !! S i = Some r' →
       star_change r' = stars r' - stars r
       ∧ date r' = date r + 1).
Proof.
  intros [->|(dates & lo & hi & ->)]%stars_df_records_Ret; [done|].
  pose proof (normalize_star_change_column dates lo hi) as Hch. cbv zeta in Hch.
  destruct (normalize_columns dates lo hi) as (Hd & _ & _). cbv zeta in Hd.
  set (records := normalize dates lo hi) in *.
  assert (∀ i r, records !! i = Some r →
            (star_change <$> records) !! i = Some (star_change r)
            ∧ (stars <$> records) !! i = Some (stars r)
            ∧ (date <$> records) !! i = Some (date r)) as Hcols.
  { intros i r Hi. by rewrite !list_lookup_fmap, Hi. }
  split.
  - intros r (Hc & Hs & _)%Hcols.
    rewrite Hch, (fillna_diff_first _ _ Hs) in Hc. by injection Hc.
  - intros i r r' (_ & Hs & Hdi)%Hcols (Hc' & Hs' & Hdi')%Hcols.
    rewrite Hch, (fillna_diff_next _ _ _ _ Hs Hs') in Hc'. split; [by injection Hc'|].
    rewrite Hd in Hdi, Hdi'. unfold date_range in *.
    apply lookup_seqZ in Hdi as [-> _], Hdi' as [-> _]. lia.
Qed.

Lemma sum_cons (x : Z) (l : list Z) : sum (x :: l) = x + sum l.
Proof. reflexivity. Qed.

Lemma sum_app (l k : list Z) : sum (l ++ k) = sum l + sum k.
Proof. induction l as [|x l IH]; [done|]. rewrite <-app_comm_cons, !sum_cons, IH. lia. Qed.

Lemma sum_fmap_add {A} (f g : A -> Z) (l : list A) :
  sum ((λ a, f a + g a) <$> l) = sum (f <$> l) + sum (g <$> l).
Proof. induction l as [|x l IH]; [done|]. rewrite !fmap_cons, !sum_cons, IH. lia. Qed.

Lemma sum_indicator (x : Z) (l : list Z) :
  NoDup l ->
  sum ((λ d, if decide (x = d) then 1 else 0) <$> l) = (if decide (x ∈ l) then 1 else 0).
Proof.
  induction 1 as [|y l Hnin Hnd IH]; [done|].
  rewrite fmap_cons, sum_cons, IH.
  destruct (decide (x = y)) as [->|Hne].
  - destruct (decide (y ∈ l)); [done|].
    destruct (decide (y ∈ y :: l)) as [|Hn]; [done|].
    exfalso. apply Hn, list_elem_of_here.
  - destruct (decide (x ∈ l)) as [Hin|Hnin'].
    + destruct (decide (x ∈ y :: l)) as [|Hn]; [done|].
      exfalso. by apply Hn, list_elem_of_further.
    + destruct (decide (x ∈ y :: l)) as [[?|?]%elem_of_cons|]; done.
Qed.

Lemma mapM_exc_length {A B} (f : A -> exc B) (l : list A) (k : list B) :
  mapM f l = Ret k -> length k = length l.
Proof.
  revert k. induction l as [|x l IH]; intros k; simpl.
  - by intros [= <-].
  - destruct (f x) as [y|]; [|done]. simpl.
    destruct (mapM f l) as [k'|]; [|done]. simpl. intros [= <-].
    simpl. by rewrite (IH k').
Qed.

(** The event days behind a series that [stars_df_records] returns. *)
Lemma stars_df_records_inv (stars_data : list star) (records : list star_record) :
  stars_df_records stars_data = Ret records ->
  (stars_data = [] ∧ records = [])
  ∨ ∃ dates lo hi,
      mapM (λ s, to_date <$> getitem (starred_at s)) stars_data = Ret dates
      ∧ length dates = length stars_data
      ∧ is_min_of lo dates ∧ is_max_of hi dates
      ∧ records = normalize dates lo hi.
Proof.
  unfold stars_df_records. destruct stars_data as [|s stars_data].
  { intros [= <-]. by left. }
  assert (empty (s :: stars_data) = false) as -> by done. cbn [negb].
  destruct (mapM _ (s :: stars_data)) as [dates|e] eqn:Hdates; [|done].
  pose proof (mapM_exc_length _ _ _ Hdates) as Hlen.
  change (Ret dates ≫= _) with
    (match min dates, max dates with
     | Num lo, Num hi => Ret (normalize dates lo hi)
     | _, _ => Raise ValueError
     end).
  destruct (min_spec dates) as (lo & -> & Hlo); [by destruct dates|].
  destruct (max_spec dates) as (hi & -> & Hhi); [by destruct dates|].
  intros [= <-]. right. by exists dates, lo, hi.
Qed.

Lemma filter_columns_sum (P : Z -> Prop) `{!∀ d, Decision (P d)} (e : Z -> Z)
    (records : list star_record) (days : list Z) :
  date <$> records = days -> stars <$> records = e <$> days ->
  sum (stars <$> filter (λ r, P (date r)) records) = sum (e <$> filter P days).
Proof.
  revert days. induction records as [|r records IH]; intros [|d days]; try done.
  rewrite !fmap_cons. intros [= Hd Hds] [= Hs Hss].
  rewrite !filter_cons, Hd.
  destruct (decide (P d)); rewrite ?fmap_cons, ?sum_cons, ?Hs; by erewrite IH.
Qed.

Lemma events_on_filter_sum (P : Z -> Prop) `{!∀ d, Decision (P d)}
    (dates days : list Z) :
  NoDup days -> (∀ x, x ∈ dates → x ∈ days) ->
  sum ((λ d, events_on d dates) <$> filter P days) = Z.of_nat (length (filter P dates)).
Proof.
  intros Hnd. induction dates as [|x dates IH]; intros Hin.
  - induction (filter P days) as [|d l IHl]; [done|].
    by rewrite fmap_cons, sum_cons, IHl.
  - rewrite (list_fmap_ext _ (λ d, (if decide (x = d) then 1 else 0) + events_on d dates)).
    2:{ intros _ d _. apply events_on_cons. }
    rewrite sum_fmap_add, IH by (intros y Hy; apply Hin, elem_of_cons; auto).
    rewrite sum_indicator by by apply NoDup_filter.
    rewrite filter_cons.
    assert (x ∈ days) as Hx by (apply Hin, elem_of_cons; auto).
    destruct (decide (P x)) as [HP|HP].
    + destruct (decide (x ∈ filter P days)) as [|Hn].
      * simpl. lia.
      * exfalso. by apply Hn, list_elem_of_filter.
    + destruct (decide (x ∈ filter P days)) as [[? _]%list_elem_of_filter|]; [done|].
      lia.
Qed.

(** Summing [stars] over the records whose day satisfies [P] counts the
    star events whose day satisfies [P]. *)
Lemma normalize_window_sum (P : Z -> Prop) `{!∀ d, Decision (P d)}
    (dates : list Z) (lo hi : Z) :
  is_min_of lo dates -> is_max_of hi dates ->
  sum (stars <$> filter (λ r, P (date r)) (normalize dates lo hi))
  = Z.of_nat (length (filter P dates)).
Proof.
  intros [_ Hlo] [_ Hhi].
  destruct (normalize_columns dates lo hi) as (Hd & Hs & _). cbv zeta in Hd, Hs.
  rewrite (filter_columns_sum P (λ d, events_on d dates) _ _ Hd Hs).
  apply events_on_filter_sum; [apply NoDup_seqZ|].
  intros x Hx. apply elem_of_seqZ. specialize (Hlo x Hx). specialize (Hhi x Hx). lia.
Qed.

Lemma filter_all {A} (P : A -> Prop) `{!∀ a, Decision (P a)} (l : list A) :
  (∀ a, P a) -> filter P l = l.
Proof.
  intros HP. induction l as [|a l IH]; [done|].
  by rewrite filter_cons_True, IH.
Qed.

Lemma normalize_sum_stars (dates : list Z) (lo hi : Z) :
  is_min_of lo dates -> is_max_of hi dates ->
  sum (stars <$> normalize dates lo hi) = Z.of_nat (length dates).
Proof.
  intros Hlo Hhi.
  pose proof (normalize_window_sum (λ _, True) dates lo hi Hlo Hhi) as Hsum.
  by rewrite !filter_all in Hsum.
Qed.

Lemma normalize_length (dates : list Z) (lo hi : Z) :
  length (normalize dates lo hi) = Z.to_nat (hi - lo + 1).
Proof.
  destruct (normalize_columns dates lo hi) as (Hd & _). cbv zeta in Hd.
  rewrite <-(length_fmap date), Hd. apply length_seqZ.
Qed.

Lemma normalize_record (dates : list Z) (lo hi : Z) (i : nat) (r : star_record) :
  normalize dates lo hi !! i = Some r ->
  date r = lo + Z.of_nat i ∧ stars r = events_on (date r) dates.
Proof.
  intros Hi.
  destruct (normalize_columns dates lo hi) as (Hd & Hs & _). cbv zeta in Hd, Hs.
  assert ((date <$> normalize dates lo hi) !! i = Some (date r)) as Hdi
    by by rewrite list_lookup_fmap, Hi.
  assert ((stars <$> normalize dates lo hi) !! i = Some (stars r)) as Hsi
    by by rewrite list_lookup_fmap, Hi.
  rewrite Hs, list_lookup_fmap in Hsi. rewrite Hd in Hdi. rewrite Hdi in Hsi.
  unfold date_range in Hdi. apply lookup_seqZ in Hdi as [Hdate _].
  split; [done|]. by injection Hsi.
Qed.

(** No star event is lost or invented by the normalisation: the [stars]
    of the series add up to the number of stargazer entries, and so does
    the [cumulative_stars] of its last record. *)
Theorem normalisation_keeps_every_event
    (stars_data : list star) (records : list star_record) :
  stars_df_records stars_data = Ret records ->
  sum (stars <$> records) = Z.of_nat (length stars_data)
  ∧ (∀ r, last records = Some r → cumulative_stars r = Z.of_nat (length stars_data)).
Proof.
  intros [[-> ->]|(dates & lo & hi & _ & Hlen & Hlo & Hhi & ->)]%stars_df_records_inv;
    [done|].
  pose proof (normalize_sum_stars dates lo hi Hlo Hhi) as Hsum. rewrite Hlen in Hsum.
  split; [done|]. intros r Hlast.
  destruct (normalize_columns dates lo hi) as (_ & _ & Hc). cbv zeta in Hc.
  set (records := normalize dates lo hi) in *.
  rewrite last_lookup in Hlast.
  assert (cumsum_from 0 (stars <$> records) !! pred (length records)
          = Some (cumulative_stars r)) as Hcum.
  { fold (cumsum (stars <$> records)). by rewrite <-Hc, list_lookup_fmap, Hlast. }
  apply cumsum_from_lookup in Hcum. rewrite Hcum, take_ge, Hsum; [lia|].
  rewrite length_fmap. lia.
Qed.

(** The series starts on the day of the earliest event and ends on the
    day of the latest one: its first and its last record have at least
    one star, so there are no empty days before or after the events. *)
Theorem series_starts_and_ends_on_event_days
    (stars_data : list star) (records : list star_record) (r : star_record) :
  stars_df_records stars_data = Ret records ->
  records !! 0%nat = Some r ∨ last records = Some r ->
  1 <= stars r.
Proof.
  intros [[-> ->]|(dates & lo & hi & _ & _ & Hlo & Hhi & ->)]%stars_df_records_inv.
  { by intros [?|?]. }
  assert (lo <= hi) as Hle by (destruct Hlo as [Hin _], Hhi as [_ Hmax]; by apply Hmax).
  intros Hr.
  assert (date r = lo ∨ date r = hi) as Hdate.
  { destruct Hr as [Hr|Hr].
    - apply normalize_record in Hr as [-> _]. left. lia.
    - rewrite last_lookup, normalize_length in Hr.
      apply normalize_record in Hr as [-> _]. right.
      rewrite Nat2Z.inj_pred by lia. rewrite Z2Nat.id by lia. lia. }
  assert (stars r = events_on (date r) dates) as ->.
  { destruct Hr as [Hr|Hr]; [|rewrite last_lookup in Hr];
      by apply normalize_record in Hr as [_ ?]. }
  assert (0 < events_on (date r) dates); [|lia].
  apply events_on_pos. destruct Hdate as [->| ->]; [apply Hlo|apply Hhi].
Qed.

Lemma events_on_Permutation (d : Z) (l l' : list Z) :
  l ≡ₚ l' -> events_on d l = events_on d l'.
Proof. intros Hp. unfold events_on. by rewrite Hp. Qed.

Lemma is_min_of_Permutation (p : Z) (l l' : list Z) :
  l ≡ₚ l' -> is_min_of p l -> is_min_of p l'.
Proof.
  intros Hp [Hin Hle]. split; [by rewrite <-Hp|].
  intros x Hx. apply Hle. by rewrite Hp.
Qed.

Lemma is_max_of_Permutation (p : Z) (l l' : list Z) :
  l ≡ₚ l' -> is_max_of p l -> is_max_of p l'.
Proof.
  intros Hp [Hin Hle]. split; [by rewrite <-Hp|].
  intros x Hx. apply Hle. by rewrite Hp.
Qed.

Lemma normalize_Permutation (dates dates' : list Z) (lo hi : Z) :
  dates ≡ₚ dates' -> normalize dates lo hi = normalize dates' lo hi.
Proof.
  intros Hp.
  assert (reindex (groupby_sum ((λ d, (d, 1)) <$> dates)) (date_range lo hi) 0
          = reindex (groupby_sum ((λ d, (d, 1)) <$> dates')) (date_range lo hi) 0) as Hdf.
  { unfold reindex. apply list_fmap_ext. intros _ d _.
    by rewrite !groupby_sum_count, (events_on_Permutation d _ _ Hp). }
  unfold normalize. cbv zeta. by rewrite Hdf.
Qed.

(** A missing [starred_at] is the only way the date column can fail. *)
Lemma star_dates_cases (stars_data : list star) :
  (Forall (λ s, is_Some (starred_at s)) stars_data
   ∧ mapM (λ s, to_date <$> getitem (starred_at s)) stars_data
     = Ret ((λ s, to_date (default 0 (starred_at s))) <$> stars_data))
  ∨ (¬ Forall (λ s, is_Some (starred_at s)) stars_data
     ∧ mapM (λ s, to_date <$> getitem (starred_at s)) stars_data = Raise KeyError).
Proof.
  induction stars_data as [|[[ts|]] stars_data IH].
  - left. by split.
  - destruct IH as [[Hall Hm]|[Hnall Hm]]; [left|right].
    + split; [by constructor|]. simpl. by rewrite Hm.
    + split; [by intros [_ ?]%Forall_cons|]. simpl. by rewrite Hm.
  - right. split; [|done]. by intros [[? [=]] _]%Forall_cons.
Qed.

(** The series depends on the stargazer entries only as a multiset: the
    order in which the pages deliver them does not matter. *)
Theorem normalisation_ignores_event_order (stars_data stars_data' : list star) :
  stars_data ≡ₚ stars_data' ->
  stars_df_records stars_data = stars_df_records stars_data'.
Proof.
  intros Hp. unfold stars_df_records.
  assert (empty stars_data = empty stars_data') as <-.
  { unfold empty. by rewrite (Permutation_length Hp). }
  destruct (negb (empty stars_data)); [|done].
  destruct (star_dates_cases stars_data) as [[Hall ->]|[Hnall ->]],
           (star_dates_cases stars_data') as [[Hall' ->]|[Hnall' ->]];
    try done; try (by rewrite Hp in Hall); try (by rewrite <-Hp in Hall').
  set (day := λ s, to_date (default 0 (starred_at s))).
  assert (day <$> stars_data ≡ₚ day <$> stars_data') as Hdays by by rewrite Hp.
  simpl. destruct stars_data as [|s stars_data].
  { apply Permutation_nil_l in Hp as <-. done. }
  destruct (min_spec (day <$> s :: stars_data)) as (lo & Hlo & Hmin); [done|].
  destruct (max_spec (day <$> s :: stars_data)) as (hi & Hhi & Hmax); [done|].
  destruct (min_spec (day <$> stars_data')) as (lo' & Hlo' & Hmin').
  { intros Hnil. rewrite Hnil in Hdays. by apply Permutation_nil_r in Hdays. }
  destruct (max_spec (day <$> stars_data')) as (hi' & Hhi' & Hmax').
  { intros Hnil. rewrite Hnil in Hdays. by apply Permutation_nil_r in Hdays. }
  rewrite Hlo, Hhi, Hlo', Hhi'.
  rewrite (is_min_of_unique lo' lo (day <$> stars_data'))
    by eauto using is_min_of_Permutation.
  rewrite (is_max_of_unique hi' hi (day <$> stars_data'))
    by eauto using is_max_of_Permutation.
  f_equal. by apply normalize_Permutation.
Qed.

(** The "stars this week" and "previous week" figures of Home.py count
    the raw star events of the 8 days up to today and of the 7 days
    before them: filling the gaps with zero rows changes nothing. *)
Theorem star_windows_count_events (timestamps : list Z) (current_date : Z) :
  timestamps ≠ [] ->
  ∃ records,
    stars_df_records (star_event <$> timestamps) = Ret records
    ∧ Home.star_windows current_date records
      = (Z.of_nat (length (filter (λ d, current_date - 7 <= d) (to_date <$> timestamps))),
         Z.of_nat (length (filter (λ d, current_date - 14 <= d ∧ d < current_date - 7)
                             (to_date <$> timestamps)))).
Proof.
  intros Hne.
  destruct (stars_df_records_events timestamps Hne) as (lo & hi & Hrec & Hmin & Hmax).
  eexists. split; [exact Hrec|].
  unfold Home.star_windows.
  assert (empty (normalize (to_date <$> timestamps) lo hi) = false) as ->.
  { apply empty_false_iff. intros Hnil.
    pose proof (normalize_length (to_date <$> timestamps) lo hi) as Hlen.
    rewrite Hnil in Hlen. simpl in Hlen.
    destruct Hmin as [Hin _], Hmax as [_ Hle]. specialize (Hle lo Hin). lia. }
  cbn [negb].
  pose proof (normalize_window_sum (λ d, current_date - 7 <= d)
                _ lo hi Hmin Hmax) as Hlast.
  pose proof (normalize_window_sum (λ d, current_date - 14 <= d ∧ d < current_date - 7)
                _ lo hi Hmin Hmax) as Hprevious.
  cbv zeta. f_equal; [exact Hlast|exact Hprevious].
Qed.

(** ** Peak day and moving average of Home.py *)

Lemma idxmax_from_spec (xs : list Z) :
  ∀ (pre : list Z) (best_i : nat) (best : Z),
    pre !! best_i = Some best ->
    (∀ j x, pre !! j = Some x → x <= best) ->
    (∀ j x, (j < best_i)%nat → pre !! j = Some x → x < best) ->
    ∃ m, (pre ++ xs) !! idxmax_from (length pre) best_i best xs = Some m
         ∧ (∀ j x, (pre ++ xs) !! j = Some x → x <= m)
         ∧ (∀ j x, (j < idxmax_from (length pre) best_i best xs)%nat →
              (pre ++ xs) !! j = Some x → x < m).
Proof.
  induction xs as [|x xs IH]; intros pre best_i best Hbest Hle Hlt.
  - rewrite app_nil_r. by exists best.
  - cbn [idxmax_from]. rewrite (cons_middle x pre xs), app_assoc.
    replace (S (length pre)) with (length (pre ++ [x])) by (rewrite length_app; simpl; lia).
    destruct (decide (best < x)) as [Hnew|Hold]; apply IH.
    + by rewrite list_lookup_middle.
    + intros j y [Hj|[_ Hj]]%lookup_app_Some.
      * specialize (Hle _ _ Hj). lia.
      * destruct (j - length pre)%nat; [|done]. injection Hj as <-. lia.
    + intros j y Hj [Hy|[Hge _]]%lookup_app_Some; [|lia].
      specialize (Hle _ _ Hy). lia.
    + apply lookup_app_l_Some, Hbest.
    + intros j y [Hj|[_ Hj]]%lookup_app_Some.
      * by eapply Hle.
      * destruct (j - length pre)%nat; [|done]. injection Hj as <-. lia.
    + intros j y Hj [Hy|[Hge _]]%lookup_app_Some.
      * by eapply Hlt.
      * apply lookup_lt_Some in Hbest. lia.
Qed.

(** For a repository with stargazers, the "Peak Stars/Day" box shows the
    largest [stars] of the history and the date of the first day that
    reached it. *)
Theorem peak_stars_first_maximum (stars_history : list star_record) :
  stars_history ≠ [] ->
  ∃ (i : nat) (r : star_record),
    Home.peak_stars stars_history = Ret (Num (stars r), Some (date r))
    ∧ stars_history !! i = Some r
    ∧ (∀ r', r' ∈ stars_history → stars r' <= stars r)
    ∧ (∀ j r', (j < i)%nat → stars_history !! j = Some r' → stars r' < stars r).
Proof.
  destruct stars_history as [|r0 rest]; [done|intros _].
  destruct (idxmax_from_spec (stars <$> rest) [stars r0] 0 (stars r0))
    as (m & Hm & Hle & Hlt); [done| |intros; lia|].
  { intros [|j] x; [|done]. intros [= <-]. lia. }
  set (i := idxmax_from (length [stars r0]) 0 (stars r0) (stars <$> rest)) in *.
  change ([stars r0] ++ (stars <$> rest)) with (stars <$> r0 :: rest) in *.
  apply list_lookup_fmap_Some in Hm as (r & -> & Hr).
  assert (∀ r', r' ∈ r0 :: rest → stars r' <= stars r) as Hmax.
  { intros r' (j & Hj)%list_elem_of_lookup. apply (Hle j).
    by rewrite list_lookup_fmap, Hj. }
  exists i, r. split_and!; [|done|done|].
  - unfold Home.peak_stars.
    assert (empty (r0 :: rest) = false) as -> by done. cbn [negb].
    destruct (max_spec (stars <$> r0 :: rest)) as (p & Hp & Hpmax); [done|].
    rewrite Hp.
    assert (is_max_of (stars r) (stars <$> r0 :: rest)) as Hrmax.
    { split; [by apply list_elem_of_fmap_2, list_elem_of_lookup_2 with i|].
      intros x (r' & -> & Hin)%list_elem_of_fmap. by apply Hmax. }
    rewrite (is_max_of_unique p (stars r) _ Hpmax Hrmax).
    change (idxmax (stars <$> r0 :: rest)) with (@Ret nat i).
    unfold loc. cbn. by rewrite Hr.
  - intros j r' Hj Hr'. apply (Hlt j); [done|]. by rewrite list_lookup_fmap, Hr'.
Qed.

Lemma mean_Num (l : list Z) : l ≠ [] -> ∃ q, mean l = Num q.
Proof. destruct l; [done|]. intros _. by eexists. Qed.

Lemma rolling_mean_lookup (window : nat) (l : list Z) (i : nat) (v : scalar Qc) :
  rolling_mean window l !! i = Some v ->
  (i < length l)%nat
  ∧ v = (if decide (window <= S i)%nat
         then mean (take window (drop (S i - window) l)) else NaN).
Proof.
  unfold rolling_mean. rewrite list_lookup_imap.
  destruct (l !! i) as [x|] eqn:Hi; [|done]. intros [= <-].
  split; [by eapply lookup_lt_Some|done].
Qed.

Lemma rolling_mean_last (window : nat) (l : list Z) :
  (1 <= window <= length l)%nat ->
  last (rolling_mean window l) = Some (mean (tail window l)).
Proof.
  intros Hw. rewrite last_lookup. unfold rolling_mean at 1.
  rewrite length_imap.
  destruct (lookup_lt_is_Some_2 (rolling_mean window l) (pred (length l))) as [v Hv].
  { unfold rolling_mean. rewrite length_imap. lia. }
  fold (rolling_mean window l). rewrite Hv.
  apply rolling_mean_lookup in Hv as [_ ->].
  destruct (decide _) as [_|Hn]; [|lia].
  unfold tail. replace (S (pred (length l)) - window)%nat with (length l - window)%nat by lia.
  rewrite take_ge; [done|]. rewrite length_drop. lia.
Qed.

(** The moving-average line has one point per download record; with a
    window of [w] rows, exactly the first [w - 1] points are undefined,
    and once [w] records exist the last point is the mean of the last
    [w] counts. *)
Theorem moving_average_shape (ma_window : nat) (df_pypi : list download_record) :
  (1 <= ma_window)%nat ->
  length (Home.moving_average ma_window df_pypi) = length df_pypi
  ∧ (∀ i v, Home.moving_average ma_window df_pypi !! i = Some v →
       (v = NaN ↔ (S i < ma_window)%nat))
  ∧ ((ma_window <= length df_pypi)%nat →
       last (Home.moving_average ma_window df_pypi)
       = Some (mean (downloads_col (tail ma_window df_pypi)))).
Proof.
  intros Hw. unfold Home.moving_average. split_and!.
  - unfold rolling_mean, downloads_col. by rewrite length_imap, length_fmap.
  - intros i v [Hi ->]%rolling_mean_lookup.
    destruct (decide (ma_window <= S i)%nat) as [Hle|Hgt]; [|split; [lia|done]].
    destruct (mean_Num (take ma_window (drop (S i - ma_window) (downloads_col df_pypi))))
      as [q ->].
    + intros Hnil%(f_equal length). rewrite length_take, length_drop in Hnil.
      simpl in Hnil. lia.
    + split; [done|lia].
  - intros Hlen. rewrite rolling_mean_last.
    + unfold tail, downloads_col. by rewrite fmap_drop, length_fmap.
    + unfold downloads_col. rewrite length_fmap. lia.
Qed.

(** The "Weekly Average" box shows the last point of the moving-average
    line when the window is the default of 7 rows. *)
Theorem weekly_average_is_last_moving_average (df_pypi : list download_record) :
  (7 <= length df_pypi)%nat ->
  ∃ m, Home.calculate_metrics df_pypi = Ret m
       ∧ last (Home.moving_average 7 df_pypi) = Some (avg_last_week m).
Proof.
  intros Hlen. eexists. split; [apply Home_calculate_metrics_eq|].
  cbn [avg_last_week]. unfold Home.moving_average.
  rewrite rolling_mean_last.
  - unfold tail, downloads_col. by rewrite fmap_drop, length_fmap.
  - unfold downloads_col. rewrite length_fmap. lia.
Qed.

(** ** Exceptions inside the repository-stats fetch *)

Lemma try_except_all_Raised {A} (body : io A) (handler : exn -> io A)
    (tr tr' : list event) (e : exn) :
  body tr = (Raised e, tr') ->
  try_except body (fun _ => true) handler tr = handler e tr'.
Proof. unfold try_except. by intros ->. Qed.

Lemma try_except_Done {A} (body : io A) (caught : exn -> bool) (handler : exn -> io A)
    (tr tr' : list event) (a : A) :
  body tr = (Done a, tr') -> try_except body caught handler tr = (Done a, tr').
Proof. unfold try_except. by intros ->. Qed.

Lemma raises_on_use_get {T B} (req : request) (r : reply (list T)) (e : exn)
    (k : list T -> io B) (tr : list event) :
  raises_on_use r e ->
  (requests_get req r ≫= λ resp, json_or_empty resp ≫= k) tr
  = (Raised e, tr ++ [Request req]).
Proof.
  intros [Hr|(resp & Hr & Hstatus & Hjson)].
  - by rewrite (bind_Raised _ _ _ _ _ (requests_get_Raise _ _ _ _ Hr)).
  - rewrite (bind_Done _ _ _ _ _ (requests_get_Ret _ _ _ _ Hr)).
    unfold json_or_empty. destruct (decide (status_code resp = 200)); [|done].
    by rewrite (bind_Raised _ _ _ _ _ (lift_Raise _ _ _ Hjson)).
Qed.

(** An exception in the last sub-call voids everything fetched before
    it: when the pull-request request raises, or is answered with 200
    and a body that cannot be decoded, the fetch shows the error and
    returns the absent pair, although the metadata, the stargazers and
    the three other sub-calls were fetched and the pull requests are
    not read by any later step. *)
Theorem pull_request_exception_voids_the_fetch
    (gh : github) (now : Z) (fuel : nat) (tr tr2 : list event)
    (repo_response : response repo_json) (body : repo_json)
    (stars_data : list star) (history : list star_record)
    (commits : list week) (contributors rels : list json_item) (e : exn) :
  repos gh = Ret repo_response ->
  status_code repo_response = 200 ->
  json repo_response = Ret body ->
  stargazers_loop gh fuel 1 [] (tr ++ [Request GetRepo]) = (Done stars_data, tr2) ->
  stars_df_records stars_data = Ret history ->
  sub_resource (stats_commit_activity gh) commits ->
  sub_resource (stats_contributors gh) contributors ->
  sub_resource (releases gh) rels ->
  raises_on_use (pulls gh) e ->
  fetch_github_stats_api gh now fuel tr
  = (Done None,
     tr2 ++ [Request GetCommitActivity; Request GetContributors; Request GetReleases;
             Request GetPulls; StErrorExn "Error fetching GitHub data: " e]).
Proof.
  intros Hrepo Hstatus Hjson Hloop Hhistory Hcommits Hcontributors Hrels Hprs.
  assert (fetch_github_stats_body gh now fuel tr
          = (Raised e, tr2 ++ [Request GetCommitActivity; Request GetContributors;
                               Request GetReleases; Request GetPulls])) as Hbody.
  { unfold fetch_github_stats_body.
    rewrite (bind_Done _ _ _ _ _ (requests_get_Ret _ _ _ _ Hrepo)).
    destruct (decide (status_code repo_response ≠ 200)); [done|].
    rewrite (bind_Done _ _ _ _ _ (lift_Ret _ _ _ Hjson)).
    rewrite (bind_Done _ _ _ _ _ Hloop).
    rewrite (bind_Done _ _ _ _ _ (lift_Ret _ _ _ Hhistory)).
    rewrite (sub_resource_get _ _ _ _ _ Hcommits).
    rewrite (sub_resource_get _ _ _ _ _ Hcontributors).
    rewrite (sub_resource_get _ _ _ _ _ Hrels).
    rewrite (raises_on_use_get _ _ _ _ _ Hprs).
    by rewrite <-!app_assoc. }
  unfold fetch_github_stats_api.
  rewrite (try_except_all_Raised _ _ _ _ _ Hbody).
  io_unfold. by rewrite <-!app_assoc.
Qed.

Lemma stargazers_loop_raises (gh : github) (n : nat) :
  ∀ (pages : nat -> list star) (fuel : nat) (p : Z) (acc : list star)
    (tr : list event) (e : exn),
    (∀ i, (i < n)%nat →
       stargazers gh 100 (p + Z.of_nat i)
         = Ret {| status_code := 200; json := Ret (pages i) |}
       ∧ pages i ≠ []) ->
    raises_on_use (stargazers gh 100 (p + Z.of_nat n)) e ->
    (n < fuel)%nat ->
    stargazers_loop gh fuel p acc tr = (Raised e, tr ++ page_requests p (S n)).
Proof.
  induction n as [|n IH]; intros pages fuel p acc tr e Hpages Hraise Hfuel;
    (destruct fuel as [|fuel]; [lia|]); cbn [stargazers_loop].
  - rewrite Z.add_0_r in Hraise. unfold page_requests. simpl. rewrite Z.add_0_r.
    destruct Hraise as [Hr|(resp & Hr & Hstatus & Hjson)].
    + by rewrite (bind_Raised _ _ _ _ _ (requests_get_Raise _ _ _ _ Hr)).
    + rewrite (bind_Done _ _ _ _ _ (requests_get_Ret _ _ _ _ Hr)).
      destruct (decide (status_code resp ≠ 200)); [done|].
      by rewrite (bind_Raised _ _ _ _ _ (lift_Raise _ _ _ Hjson)).
  - destruct (Hpages 0%nat) as [Hfirst Hne]; [lia|]. rewrite Z.add_0_r in Hfirst.
    rewrite (bind_Done _ _ _ _ _ (requests_get_Ret _ _ _ _ Hfirst)).
    cbn [status_code json]. destruct (decide (200 ≠ 200)) as [|_]; [done|].
    rewrite (bind_Done _ _ _ _ _ (lift_Ret _ _ _ eq_refl)).
    assert (empty (pages 0%nat) = false) as -> by by apply empty_false_iff.
    rewrite (IH (λ i, pages (S i)) fuel (p + 1) _ _ e); [| | |lia].
    + by rewrite !page_requests_S, <-!app_assoc.
    + intros i Hi. destruct (Hpages (S i)) as [Hp Hn]; [lia|].
      split; [|done]. rewrite <-Hp. f_equal. lia.
    + replace (p + 1 + Z.of_nat n) with (p + Z.of_nat (S n)) by lia. done.
Qed.

(** An exception while paging loses the stargazers already fetched and
    the whole snapshot: when the pages [1 .. n] are answered and the
    request for page [n + 1] raises (or its body cannot be decoded), the
    fetch returns the absent pair and sends none of the four auxiliary
    requests. *)
Theorem stargazer_page_exception_voids_the_fetch
    (gh : github) (now : Z) (fuel n : nat) (tr : list event)
    (repo_response : response repo_json) (body : repo_json)
    (pages : nat -> list star) (e : exn) :
  repos gh = Ret repo_response ->
  status_code repo_response = 200 ->
  json repo_response = Ret body ->
  (∀ i, (i < n)%nat →
     stargazers gh 100 (1 + Z.of_nat i)
       = Ret {| status_code := 200; json := Ret (pages i) |}
     ∧ pages i ≠ []) ->
  raises_on_use (stargazers gh 100 (1 + Z.of_nat n)) e ->
  (n < fuel)%nat ->
  fetch_github_stats_api gh now fuel tr
  = (Done None,
     tr ++ [Request GetRepo] ++ page_requests 1 (S n)
        ++ [StErrorExn "Error fetching GitHub data: " e]).
Proof.
  intros Hrepo Hstatus Hjson Hpages Hraise Hfuel.
  assert (fetch_github_stats_body gh now fuel tr
          = (Raised e, tr ++ [Request GetRepo] ++ page_requests 1 (S n))) as Hbody.
  { unfold fetch_github_stats_body.
    rewrite (bind_Done _ _ _ _ _ (requests_get_Ret _ _ _ _ Hrepo)).
    destruct (decide (status_code repo_response ≠ 200)); [done|].
    rewrite (bind_Done _ _ _ _ _ (lift_Ret _ _ _ Hjson)).
    rewrite (bind_Raised _ _ _ _ _
               (stargazers_loop_raises gh n pages fuel 1 [] _ e Hpages Hraise Hfuel)).
    by rewrite <-!app_assoc. }
  unfold fetch_github_stats_api.
  rewrite (try_except_all_Raised _ _ _ _ _ Hbody).
  io_unfold. by rewrite <-!app_assoc.
Qed.

(** ** The pair the repository-stats fetch returns *)

Lemma mapM_getitem_inv {A B} (field : A -> option B) (l : list A) (k : list B) :
  mapM (λ a, getitem (field a)) l = Ret k -> Forall2 (λ a b, field a = Some b) l k.
Proof.
  revert k. induction l as [|a l IH]; intros k; simpl.
  - intros [= <-]. constructor.
  - destruct (field a) as [b|] eqn:Ha; [|done]. simpl.
    destruct (mapM _ l) as [k'|]; [|done]. simpl. intros [= <-].
    constructor; [done|]. by apply IH.
Qed.

Lemma fetch_github_stats_body_inv
    (gh : github) (now : Z) (fuel : nat) (tr tr' : list event)
    (df : list github_row) (rd : repo_data) :
  fetch_github_stats_body gh now fuel tr = (Done (Some (df, rd)), tr') ->
  ∃ stars_data weekly_commits stars forks open_issues watchers,
    stars_df_records stars_data = Ret (stars_history rd)
    ∧ Forall2 (λ wk c, total wk = Some c) (commits_data rd) weekly_commits
    ∧ total_commits rd = sum weekly_commits
    ∧ total_contributors rd = length (contributors_data rd)
    ∧ total_releases rd = length (releases_data rd)
    ∧ stargazers_count (repo rd) = Some stars
    ∧ forks_count (repo rd) = Some forks
    ∧ open_issues_count (repo rd) = Some open_issues
    ∧ watchers_count (repo rd) = Some watchers
    ∧ df = zip_with (fun d c => {| row_date := d;
                                   row_stars := stars;
                                   row_forks := forks;
                                   row_open_issues := open_issues;
                                   row_watchers := watchers;
                                   row_weekly_commits := c |})
                    (date_range_weekly now (length (commits_data rd))) weekly_commits.
Proof.
  unfold fetch_github_stats_body. intros H.
  apply bind_inv_Done in H as (repo_response & tr1 & _ & H).
  destruct (decide (status_code repo_response ≠ 200)).
  { apply bind_inv_Done in H as (? & ? & _ & H).
    apply bind_inv_Done in H as (? & ? & _ & H).
    by apply mret_inv in H as [? _]. }
  apply bind_inv_Done in H as (repo_data & ? & _ & H).
  apply bind_inv_Done in H as (stars_data & ? & _ & H).
  apply bind_inv_Done in H as (stars_df & ? & [Hstars _]%lift_inv & H).
  apply bind_inv_Done in H as (commits_response & ? & _ & H).
  apply bind_inv_Done in H as (commits & ? & _ & H).
  apply bind_inv_Done in H as (contributors_response & ? & _ & H).
  apply bind_inv_Done in H as (contributors & ? & _ & H).
  apply bind_inv_Done in H as (releases_response & ? & _ & H).
  apply bind_inv_Done in H as (rels & ? & _ & H).
  apply bind_inv_Done in H as (prs_response & ? & _ & H).
  apply bind_inv_Done in H as (prs & ? & _ & H).
  apply bind_inv_Done in H as (total & ? & [Htotal _]%lift_inv & H).
  apply bind_inv_Done in H as (df' & ? & [Hdf _]%lift_inv & H).
  apply mret_inv in H as [[= -> <-] _]. cbn [stars_history commits_data total_commits
    total_contributors total_releases contributors_data releases_data repo].
  apply exc_bind_inv in Hdf as (stars & Hs%getitem_inv & Hdf).
  apply exc_bind_inv in Hdf as (forks & Hf%getitem_inv & Hdf).
  apply exc_bind_inv in Hdf as (open_issues & Ho%getitem_inv & Hdf).
  apply exc_bind_inv in Hdf as (watchers & Hw%getitem_inv & Hdf).
  apply exc_bind_inv in Hdf as (weekly_commits & Hweekly & [= <-]).
  exists stars_data, weekly_commits, stars, forks, open_issues, watchers.
  split_and!; try done.
  - destruct commits as [|wk commits].
    + injection Hweekly as <-. constructor.
    + by apply mapM_getitem_inv.
  - destruct commits as [|wk commits].
    + injection Hweekly as <-. by injection Htotal as <-.
    + change (negb (empty (wk :: commits))) with true in *. cbv iota in Htotal, Hweekly.
      rewrite Hweekly in Htotal. by injection Htotal as <-.
  - by destruct commits.
Qed.

(** Every pair the fetch returns is consistent: the series has one row
    per weekly bucket, in order, with the bucket's total as its
    [weekly_commits]; [total_commits] is the sum of that column; the
    contributor and release totals are the lengths of their lists; each
    row repeats the open-issue and watcher counts of the snapshot; and
    the star history is a normalised series. *)
Theorem returned_snapshot_is_consistent
    (gh : github) (now : Z) (fuel : nat) (tr tr' : list event)
    (df : list github_row) (rd : repo_data) :
  fetch_github_stats_api gh now fuel tr = (Done (Some (df, rd)), tr') ->
  Forall2 (λ row wk, total wk = Some (row_weekly_commits row)) df (commits_data rd)
  ∧ total_commits rd = sum (row_weekly_commits <$> df)
  ∧ total_contributors rd = length (contributors_data rd)
  ∧ total_releases rd = length (releases_data rd)
  ∧ (∀ row, row ∈ df →
       open_issues_count (repo rd) = Some (row_open_issues row)
       ∧ watchers_count (repo rd) = Some (row_watchers row))
  ∧ (∃ stars_data, stars_df_records stars_data = Ret (stars_history rd)).
Proof.
  intros H%fetch_github_stats_api_Some%fetch_github_stats_body_inv.
  destruct H as (stars_data & weekly & s & f & o & w
                 & Hstars & Hweekly & Htotal & Hcontrib & Hrel & _ & _ & Ho & Hw & ->).
  assert (length (date_range_weekly now (length (commits_data rd))) = length weekly) as Hlen.
  { unfold date_range_weekly. rewrite length_fmap, length_seq.
    by apply Forall2_length in Hweekly. }
  assert (row_weekly_commits <$>
            zip_with (fun d c => {| row_date := d; row_stars := s; row_forks := f;
                                    row_open_issues := o; row_watchers := w;
                                    row_weekly_commits := c |})
              (date_range_weekly now (length (commits_data rd))) weekly = weekly) as Hcol.
  { apply fmap_zip_with_r; [done|lia]. }
  split_and!; try done.
  - apply Forall2_flip.
    apply (proj1 (Forall2_fmap_r row_weekly_commits
                    (λ wk c, total wk = Some c) _ _)).
    by rewrite Hcol.
  - by rewrite Hcol.
  - intros row (d & c & -> & _)%elem_of_zip_with. by split.
  - by exists stars_data.
Qed.

(** ** The download metrics of the two handlers *)

Lemma max_Num (l : list Z) : l ≠ [] -> is_Num (max l).
Proof. intros (p & -> & _)%max_spec. by eexists. Qed.

Lemma mean_is_Num (l : list Z) : l ≠ [] -> is_Num (mean l).
Proof. intros [q ->]%mean_Num. by eexists. Qed.

Lemma scalar_sub_Num {A} (sub : A -> A -> A) (x y : scalar A) :
  is_Num x -> is_Num y -> is_Num (scalar_sub sub x y).
Proof. intros [a ->] [b ->]. by eexists. Qed.

Lemma fmap_nonempty {A B} (f : A -> B) (l : list A) : l ≠ [] -> f <$> l ≠ [].
Proof. by destruct l. Qed.

Lemma tail_nonempty {A} (n : nat) (l : list A) : (1 <= n)%nat -> l ≠ [] -> tail n l ≠ [].
Proof.
  intros Hn Hl Hnil%(f_equal length). unfold tail in Hnil.
  rewrite length_drop in Hnil. destruct l; [done|]. simpl in Hnil. lia.
Qed.

Lemma head_nonempty {A} (n : nat) (l : list A) : (1 <= n)%nat -> l ≠ [] -> head n l ≠ [].
Proof.
  intros Hn Hl Hnil%(f_equal length). unfold head in Hnil.
  rewrite length_take in Hnil. destruct l; [done|]. simpl in Hnil. lia.
Qed.

Lemma but_last_nonempty {A} (l : list A) : (1 < length l)%nat -> but_last l ≠ [].
Proof.
  intros Hn Hnil%(f_equal length). unfold but_last in Hnil.
  rewrite length_take in Hnil. simpl in Hnil. lia.
Qed.

(** On a series with at least one record no figure of the download
    metrics is [NaN], in either handler: the empty series is the only
    one that produces [NaN]. *)
Theorem metrics_defined_on_nonempty_series (df_pypi : list download_record) :
  df_pypi ≠ [] ->
  (∃ m, Home.calculate_metrics df_pypi = Ret m ∧ all_defined m)
  ∧ (∃ m, App.calculate_metrics df_pypi = Ret m ∧ all_defined m).
Proof.
  intros Hne.
  assert (is_Num (mean (downloads_col df_pypi))) as Havg
    by by apply mean_is_Num, fmap_nonempty.
  assert (is_Num (max (downloads_col df_pypi))) as Hmax
    by by apply max_Num, fmap_nonempty.
  assert (is_Num (mean (downloads_col (tail 7 df_pypi)))) as Hweek
    by (apply mean_is_Num, fmap_nonempty, tail_nonempty; [lia|done]).
  assert (is_Num (mean (downloads_col (head 7 (tail 14 df_pypi))))) as Hprev.
  { apply mean_is_Num, fmap_nonempty, head_nonempty; [lia|].
    apply tail_nonempty; [lia|done]. }
  assert (is_Num (if decide (1 < length df_pypi)%nat
                  then max (downloads_col (but_last df_pypi)) else Num 0)) as Hpeak.
  { destruct (decide (1 < length df_pypi)%nat); [|by eexists].
    by apply max_Num, fmap_nonempty, but_last_nonempty. }
  split; eexists;
    (split; [apply Home_calculate_metrics_eq || apply App_calculate_metrics_eq|]);
    unfold all_defined; cbn [avg_downloads max_downloads avg_last_week
      avg_previous_week avg_change previous_peak peak_change].
  - assert (is_Num (if decide (14 <= length df_pypi)%nat
                    then mean (downloads_col (head 7 (tail 14 df_pypi)))
                    else Num 0%Qc)) as Hprev'
      by (destruct (decide (14 <= length df_pypi)%nat); [exact Hprev|by eexists]).
    split_and!; try done; apply scalar_sub_Num; try done; by eexists.
  - split_and!; try done; apply scalar_sub_Num; try done; by eexists.
Qed.

(** The two handlers differ on short series only: from 14 records on
    they compute the same download metrics, and they compute the same
    repository changes (or raise the same exception) on every input. *)
Theorem handlers_agree_on_long_series
    (df_pypi : list download_record) (df_github : list github_row) (rd : repo_data) :
  ((14 <= length df_pypi)%nat →
     Home.calculate_metrics df_pypi = App.calculate_metrics df_pypi)
  ∧ Home.github_changes df_github rd = App.github_changes df_github rd.
Proof.
  split.
  - intros Hlen. rewrite Home_calculate_metrics_eq, App_calculate_metrics_eq.
    by destruct (decide (14 <= length df_pypi)%nat).
  - unfold Home.github_changes, App.github_changes.
    destruct (decide (7 <= length df_github)%nat); [|done].
    destruct (stargazers_count (repo rd)) as [s|]; [|done]. cbn.
    destruct (iloc_neg 7 df_github) as [row|e]; [|done]. cbn.
    by destruct (forks_count (repo rd)).
Qed.

(** ** The lifetime downloads and the handlers *)

Lemma mapM_getitem_Raise {A B} (field : A -> option B) (l : list A) :
  ¬ Forall (λ a, is_Some (field a)) l ->
  mapM (λ a, getitem (field a)) l = Raise KeyError.
Proof.
  induction l as [|a l IH]; intros Hn.
  - destruct Hn. constructor.
  - simpl. destruct (field a) as [b|] eqn:Ha; [|done]. simpl.
    rewrite IH; [done|]. intros Hall. apply Hn. constructor; [by eexists|done].
Qed.

(** When the statistics endpoint answers with a status outside 4xx and
    5xx and a body whose rows all have their [downloads], the lifetime
    total is the sum of the [downloads] of all rows; one request is
    sent and no error is shown. *)
Theorem lifetime_downloads_is_the_sum_of_all_rows
    (api : pypistats) (package_name : string) (tr : list event)
    (resp : response overall_json) (body : overall_json)
    (items : list overall_item) (counts : list Z) :
  api package_name = Ret resp ->
  ¬ (400 <= status_code resp < 600) ->
  json resp = Ret body ->
  data body = Some items ->
  Forall2 (λ item c, item_downloads item = Some c) items counts ->
  Utils.fetch_lifetime_downloads api package_name tr
  = (Done (sum counts), tr ++ [Request (GetOverall package_name)]).
Proof.
  intros Hapi Hstatus Hjson Hdata Hitems.
  assert (mapM (λ item, getitem (item_downloads item)) items = Ret counts) as Hcounts.
  { clear -Hitems. induction Hitems as [|item c items counts Hc _ IH]; [done|].
    simpl. by rewrite Hc, IH. }
  unfold Utils.fetch_lifetime_downloads.
  apply try_except_Done.
  rewrite (bind_Done _ _ _ _ _ (requests_get_Ret _ _ _ _ Hapi)).
  unfold Utils.raise_for_status. destruct (decide _); [done|].
  rewrite (bind_Done _ _ _ _ _ (lift_Ret _ _ _ eq_refl)).
  rewrite (bind_Done _ _ _ _ _ (lift_Ret _ _ _ Hjson)).
  rewrite Hdata.
  rewrite (bind_Done _ _ _ _ _ (lift_Ret (getitem (Some items)) items _ eq_refl)).
  rewrite Hcounts. reflexivity.
Qed.

(** A body that lacks the key [data], or a row that lacks [downloads],
    is not a [RequestException]: the [KeyError] leaves
    [fetch_lifetime_downloads], and the handler of Home.py then shows
    the error and nothing else, without querying the warehouse or the
    repository. *)
Theorem lifetime_key_error_aborts_the_handler
    (api : pypistats) (package_name : string) (tr : list event)
    (resp : response overall_json) (body : overall_json) :
  api package_name = Ret resp ->
  ¬ (400 <= status_code resp < 600) ->
  json resp = Ret body ->
  (data body = None
   ∨ ∃ items, data body = Some items
              ∧ ¬ Forall (λ item, is_Some (item_downloads item)) items) ->
  Utils.fetch_lifetime_downloads api package_name tr
  = (Raised KeyError, tr ++ [Request (GetOverall package_name)])
  ∧ ∀ client gh now fuel start_date end_date granularity,
      Home.fetch_stats api client gh now fuel package_name start_date end_date
        granularity tr
      = (Done None, tr ++ [Request (GetOverall package_name);
                           StErrorExn "Error fetching data: " KeyError]).
Proof.
  intros Hapi Hstatus Hjson Hbody.
  assert (Utils.fetch_lifetime_downloads api package_name tr
          = (Raised KeyError, tr ++ [Request (GetOverall package_name)])) as Hraise.
  { unfold Utils.fetch_lifetime_downloads, try_except.
    rewrite (bind_Done _ _ _ _ _ (requests_get_Ret _ _ _ _ Hapi)).
    unfold Utils.raise_for_status. destruct (decide _); [done|].
    rewrite (bind_Done _ _ _ _ _ (lift_Ret _ _ _ eq_refl)).
    rewrite (bind_Done _ _ _ _ _ (lift_Ret _ _ _ Hjson)).
    destruct Hbody as [->|(items & -> & Hn)]; [done|].
    rewrite (bind_Done _ _ _ _ _ (lift_Ret (getitem (Some items)) items _ eq_refl)).
    by rewrite (mapM_getitem_Raise _ _ Hn). }
  split; [done|]. intros.
  unfold Home.fetch_stats.
  rewrite (try_except_all_Raised _ _ _ _ _ (bind_Raised _ _ _ _ _ Hraise)).
  io_unfold. by rewrite <-app_assoc.
Qed.

(** In app.py the lifetime total is a warehouse query without a handler
    of its own: when it fails, the handler shows the error and nothing
    else, and no other request is sent. *)
Theorem app_lifetime_failure_aborts_the_handler
    (count_client : string -> exc Z) (client : bigquery) (gh : github)
    (now : Z) (fuel : nat) (package : string) (start_date end_date : Z)
    (granularity : string) (e : exn) (tr : list event) :
  count_client package = Raise e ->
  App.fetch_stats count_client client gh now fuel package start_date end_date
    granularity tr
  = (Done None, tr ++ [StErrorExn "Error fetching data: " e]).
Proof.
  intros Hfail. unfold App.fetch_stats.
  erewrite try_except_all_Raised; [reflexivity|].
  apply bind_Raised. unfold App.fetch_lifetime_downloads. by apply lift_Raise.
Qed.

(** When the warehouse query for the download series fails, the handler
    of Home.py shows that error and stops: the repository is not
    consulted at all. *)
Theorem warehouse_error_stops_before_github
    (api : pypistats) (client : bigquery) (gh : github) (now : Z) (fuel : nat)
    (package : string) (start_date end_date : Z) (granularity : string)
    (lifetime : Z) (e : exn) (tr tr1 : list event) :
  Utils.fetch_lifetime_downloads api package tr = (Done lifetime, tr1) ->
  Utils.fetch_pypi_stats client package start_date end_date granularity = Raise e ->
  Home.fetch_stats api client gh now fuel package start_date end_date granularity tr
  = (Done None, tr1 ++ [StErrorExn "Error fetching data: " e]).
Proof.
  intros Hlifetime Hquery. unfold Home.fetch_stats.
  erewrite try_except_all_Raised; [reflexivity|].
  rewrite (bind_Done _ _ _ _ _ Hlifetime). unfold Home.after_lifetime.
  by apply bind_Raised, lift_Raise.
Qed.

Lemma fetch_github_stats_api_not_200
    (gh : github) (now : Z) (fuel : nat) (tr : list event)
    (repo_response : response repo_json) :
  repos gh = Ret repo_response -> status_code repo_response ≠ 200 ->
  fetch_github_stats_api gh now fuel tr
  = (Done None,
     tr ++ [Request GetRepo;
            match json repo_response with
            | Ret body =>
                StError ("Error fetching GitHub data: " ++ default "" (message body))
            | Raise e => StErrorExn "Error fetching GitHub data: " e
            end]).
Proof.
  intros Hrepo Hstatus.
  unfold fetch_github_stats_api, try_except, fetch_github_stats_body.
  rewrite (bind_Done _ _ _ _ _ (requests_get_Ret _ _ _ _ Hrepo)).
  destruct (decide (status_code repo_response ≠ 200)); [|done].
  destruct (json repo_response) as [body|e] eqn:Hjson.
  - rewrite (bind_Done _ _ _ _ _ (lift_Ret _ _ _ eq_refl)).
    io_unfold. by rewrite <-app_assoc.
  - rewrite (bind_Raised _ _ _ _ _ (lift_Raise _ _ _ eq_refl)).
    io_unfold. by rewrite <-app_assoc.
Qed.

(** When the repository metadata call is refused, the handler of
    Home.py computes no metric at all, although the lifetime total and
    the download series were fetched: after the metadata request its
    only output is the error box of the repository fetch, with the
    [message] of the error body, or with the exception when the body
    cannot be decoded.  No further request is sent and the handler shows
    no error of its own. *)
Theorem repository_failure_hides_the_downloads
    (api : pypistats) (client : bigquery) (gh : github) (now : Z) (fuel : nat)
    (package : string) (start_date end_date : Z) (granularity : string)
    (lifetime : Z) (df_pypi : list download_record)
    (repo_response : response repo_json) (tr tr1 : list event) :
  Utils.fetch_lifetime_downloads api package tr = (Done lifetime, tr1) ->
  Utils.fetch_pypi_stats client package start_date end_date granularity = Ret df_pypi ->
  repos gh = Ret repo_response ->
  status_code repo_response ≠ 200 ->
  (∀ body, json repo_response = Ret body ->
     Home.fetch_stats api client gh now fuel package start_date end_date granularity tr
     = (Done None,
        tr1 ++ [Request GetRepo;
                StError ("Error fetching GitHub data: " ++ default "" (message body))]))
  ∧ (∀ e, json repo_response = Raise e ->
       Home.fetch_stats api client gh now fuel package start_date end_date granularity tr
       = (Done None,
          tr1 ++ [Request GetRepo; StErrorExn "Error fetching GitHub data: " e])).
Proof.
  intros Hlifetime Hquery Hrepo Hstatus.
  pose proof (fetch_github_stats_api_not_200 gh now fuel tr1 _ Hrepo Hstatus) as Hfetch.
  assert (∀ ev,
            fetch_github_stats_api gh now fuel tr1
            = (Done None, tr1 ++ [Request GetRepo; ev]) ->
            Home.fetch_stats api client gh now fuel package start_date end_date
              granularity tr
            = (Done None, tr1 ++ [Request GetRepo; ev])) as Hhandler.
  { intros ev Hev. unfold Home.fetch_stats. apply try_except_Done.
    rewrite (bind_Done _ _ _ _ _ Hlifetime). unfold Home.after_lifetime.
    rewrite (bind_Done _ _ _ _ _ (lift_Ret _ _ _ Hquery)).
    by rewrite (bind_Done _ _ _ _ _ Hev). }
  split.
  - intros body Hbody. apply Hhandler. by rewrite Hfetch, Hbody.
  - intros e He. apply Hhandler. by rewrite Hfetch, He.
Qed.

Lemma github_changes_of_fetch
    (gh : github) (now : Z) (fuel : nat) (tr tr' : list event)
    (df : list github_row) (rd : repo_data) :
  fetch_github_stats_api gh now fuel tr = (Done (Some (df, rd)), tr') ->
  Home.github_changes df rd = Ret (0, 0) ∧ App.github_changes df rd = Ret (0, 0).
Proof.
  intros H%fetch_github_stats_api_Some%fetch_github_stats_body_Some.
  destruct H as (s & f & o & w & dates & commits & Hs & Hf & ->).
  set (df := zip_with _ dates commits).
  unfold Home.github_changes, App.github_changes.
  destruct (decide (7 <= length df)%nat) as [Hlen|]; [|done].
  destruct (iloc_neg_in_range 7 df) as (row & Hrow & Hin%list_elem_of_lookup_2); [lia|].
  apply elem_of_zip_with in Hin as (d & c & -> & _).
  rewrite Hs, Hf, Hrow. simpl. by rewrite !Z.sub_diag.
Qed.

Lemma handler_inv_Some {A} (body : io (option A)) (prefix : string)
    (tr tr' : list event) (a : A) :
  try_except body (fun _ => true) (fun e => st_error_exn prefix e;; mret None) tr
    = (Done (Some a), tr') ->
  body tr = (Done (Some a), tr').
Proof.
  unfold try_except. destruct (body tr) as [[x|e|] tr1]; [done| |done].
  io_unfold. by intros [=].
Qed.

(** What the handler of Home.py has computed when it comes to draw its
    metrics: the lifetime total the statistics fetch returned, the
    metrics of the series the warehouse returned, the lines of the
    Quick Package Info read from the repository body (which therefore
    has the keys of these lines and no [null] licence), and "this week"
    changes of stars and forks that are 0 whatever the repository, also
    with fewer than 7 weekly rows. *)
Theorem shown_dashboard_contents
    (api : pypistats) (client : bigquery) (gh : github) (now : Z) (fuel : nat)
    (package : string) (start_date end_date : Z) (granularity : string)
    (d : dashboard) (tr tr' : list event) :
  Home.fetch_stats api client gh now fuel package start_date end_date granularity tr
    = (Done (Some d), tr') ->
  stars_change d = 0 ∧ forks_change d = 0
  ∧ ∃ tr1 df_pypi df_github repo_data,
      Utils.fetch_lifetime_downloads api package tr = (Done (total_downloads d), tr1)
      ∧ Utils.fetch_pypi_stats client package start_date end_date granularity
        = Ret df_pypi
      ∧ fetch_github_stats_api gh now fuel tr1 = (Done (Some (df_github, repo_data)), tr')
      ∧ quick_package_info repo_data = Ret (info d)
      ∧ license (repo repo_data) ≠ Some None
      ∧ Home.calculate_metrics df_pypi = Ret (pypi d).
Proof.
  unfold Home.fetch_stats. intros H%handler_inv_Some.
  apply bind_inv_Done in H as (lifetime & tr1 & Hlifetime & H).
  unfold Home.after_lifetime in H.
  apply bind_inv_Done in H as (df_pypi & ? & [Hquery ->]%lift_inv & H).
  apply bind_inv_Done in H as ([[df_github rd]|] & tr2 & Hfetch & H).
  2:{ by apply mret_inv in H as [? _]. }
  apply bind_inv_Done in H as (shown & ? & [Hinfo ->]%lift_inv & H).
  apply bind_inv_Done in H as (metrics & ? & [Hmetrics ->]%lift_inv & H).
  apply bind_inv_Done in H as (changes & ? & [Hchanges ->]%lift_inv & H).
  apply mret_inv in H as [[= <-] <-]. cbn.
  pose proof (github_changes_of_fetch _ _ _ _ _ _ _ Hfetch) as [Hzero _].
  rewrite Hzero in Hchanges. injection Hchanges as <-.
  split_and!; [done..|]. exists tr1, df_pypi, df_github, rd.
  split_and!; [done..| |done].
  intros Hnull. revert Hinfo. unfold quick_package_info. rewrite Hnull.
  destruct (getitem (created_at (repo rd))); [|done].
  destruct (getitem (updated_at (repo rd))); [|done].
  by destruct (getitem (language (repo rd))).
Qed.

(** A repository without a licence has ["license": null] in its body.
    Both handlers then stop in the Quick Package Info, on the
    [.get('name', ...)] of [None]: although the three fetches succeeded,
    no metric is computed, and the handler's error box is the only
    addition to the trace of the fetches. *)
Theorem null_licence_aborts_the_handler
    (gh : github) (now : Z) (fuel : nat)
    (df_pypi : list download_record) (df_github : list github_row)
    (repo_data : repo_data) (tr1 tr2 : list event) :
  fetch_github_stats_api gh now fuel tr1 = (Done (Some (df_github, repo_data)), tr2) ->
  is_Some (created_at (repo repo_data)) ->
  is_Some (updated_at (repo repo_data)) ->
  is_Some (language (repo repo_data)) ->
  license (repo repo_data) = Some None ->
  (∀ api client package start_date end_date granularity lifetime tr,
     Utils.fetch_lifetime_downloads api package tr = (Done lifetime, tr1) ->
     Utils.fetch_pypi_stats client package start_date end_date granularity = Ret df_pypi ->
     Home.fetch_stats api client gh now fuel package start_date end_date granularity tr
     = (Done None, tr2 ++ [StErrorExn "Error fetching data: " AttributeError]))
  ∧ (∀ count_client client package start_date end_date granularity lifetime,
       count_client package = Ret lifetime ->
       App.fetch_pypi_stats client package start_date end_date granularity = Ret df_pypi ->
       App.fetch_stats count_client client gh now fuel package start_date end_date
         granularity tr1
       = (Done None, tr2 ++ [StErrorExn "Error fetching data: " AttributeError])).
Proof.
  intros Hfetch [c Hc] [u Hu] [l Hl] Hnull.
  assert (quick_package_info repo_data = Raise AttributeError) as Hinfo.
  { unfold quick_package_info. by rewrite Hc, Hu, Hl, Hnull. }
  split.
  - intros api client package start_date end_date granularity lifetime tr Hlifetime Hquery.
    unfold Home.fetch_stats.
    erewrite try_except_all_Raised; [reflexivity|].
    rewrite (bind_Done _ _ _ _ _ Hlifetime). unfold Home.after_lifetime.
    rewrite (bind_Done _ _ _ _ _ (lift_Ret _ _ _ Hquery)).
    rewrite (bind_Done _ _ _ _ _ Hfetch).
    by apply bind_Raised, lift_Raise.
  - intros count_client client package start_date end_date granularity lifetime
      Hlifetime Hquery.
    unfold App.fetch_stats.
    erewrite try_except_all_Raised; [reflexivity|].
    unfold App.fetch_lifetime_downloads.
    rewrite (bind_Done _ _ _ _ _ (lift_Ret _ _ _ Hlifetime)). unfold App.after_lifetime.
    rewrite (bind_Done _ _ _ _ _ (lift_Ret _ _ _ Hquery)).
    rewrite (bind_Done _ _ _ _ _ Hfetch).
    by apply bind_Raised, lift_Raise.
Qed.

(** ** The further properties on concrete inputs *)

Lemma star_change_first_difference_witness :
  ∃ records,
    stars_df_records (star_event <$> [86400; 86401; 518405]) = Ret records
    ∧ star_change <$> records = [2; -2; 0; 0; 0; 1]
    ∧ (∀ r, records !! 0%nat = Some r → star_change r = stars r).
Proof.
  eexists. split; [vm_compute; reflexivity|]. split; [reflexivity|].
  refine (proj1 (star_change_first_difference
                   (star_event <$> [86400; 86401; 518405]) _ _)).
  vm_compute. reflexivity.
Defined.

Lemma normalisation_keeps_every_event_witness :
  ∃ records,
    stars_df_records (star_event <$> [86400; 86401; 518405]) = Ret records
    ∧ sum (stars <$> records) = 3.
Proof.
  eexists. split; [vm_compute; reflexivity|].
  refine (proj1 (normalisation_keeps_every_event
                   (star_event <$> [86400; 86401; 518405]) _ _)).
  vm_compute. reflexivity.
Defined.

Lemma series_starts_and_ends_on_event_days_witness :
  1 <= stars {| date := 6; stars := 1; cumulative_stars := 3; star_change := 1 |}.
Proof.
  eapply (series_starts_and_ends_on_event_days
            (star_event <$> [86400; 86401; 518405])).
  - vm_compute. reflexivity.
  - right. reflexivity.
Defined.

Lemma normalisation_ignores_event_order_witness :
  stars_df_records (star_event <$> [518405; 86400; 86401])
  = stars_df_records (star_event <$> [86400; 86401; 518405]).
Proof.
  apply normalisation_ignores_event_order.
  apply (Permutation_cons_append [star_event 86400; star_event 86401] (star_event 518405)).
Defined.

Lemma star_windows_count_events_witness :
  ∃ records,
    stars_df_records (star_event <$> [86400; 86401; 518405]) = Ret records
    ∧ Home.star_windows 10 records = (1, 2).
Proof. apply (star_windows_count_events [86400; 86401; 518405] 10). done. Defined.

Lemma peak_stars_first_maximum_witness :
  ∃ (i : nat) (r : star_record),
    Home.peak_stars [ {| date := 1; stars := 2; cumulative_stars := 2; star_change := 2 |};
                      {| date := 2; stars := 5; cumulative_stars := 7; star_change := 3 |};
                      {| date := 3; stars := 5; cumulative_stars := 12; star_change := 0 |} ]
      = Ret (Num (stars r), Some (date r))
    ∧ i = 1%nat ∧ date r = 2.
Proof.
  edestruct (peak_stars_first_maximum
    [ {| date := 1; stars := 2; cumulative_stars := 2; star_change := 2 |};
      {| date := 2; stars := 5; cumulative_stars := 7; star_change := 3 |};
      {| date := 3; stars := 5; cumulative_stars := 12; star_change := 0 |} ])
    as (i & r & Hpeak & _); [done|].
  exists 1%nat, {| date := 2; stars := 5; cumulative_stars := 7; star_change := 3 |}.
  split; [reflexivity|]. by split.
Defined.

Lemma moving_average_shape_witness :
  length (Home.moving_average 7 example_series) = 14%nat
  ∧ Home.moving_average 7 example_series !! 5%nat = Some NaN.
Proof.
  destruct (moving_average_shape 7 example_series) as (Hlen & _); [lia|].
  split; [exact Hlen|reflexivity].
Defined.

Lemma weekly_average_is_last_moving_average_witness :
  ∃ m, Home.calculate_metrics example_series = Ret m
       ∧ last (Home.moving_average 7 example_series) = Some (avg_last_week m).
Proof. apply weekly_average_is_last_moving_average. vm_compute. lia. Defined.

Lemma pull_request_exception_voids_the_fetch_witness :
  ∃ tr2,
    fetch_github_stats_api (with_pulls example_github (Raise ConnectionError))
      1700000000 5 []
    = (Done None,
       tr2 ++ [Request GetCommitActivity; Request GetContributors; Request GetReleases;
               Request GetPulls;
               StErrorExn "Error fetching GitHub data: " ConnectionError]).
Proof.
  eexists.
  eapply (pull_request_exception_voids_the_fetch
            (with_pulls example_github (Raise ConnectionError)) 1700000000 5 []).
  - reflexivity.
  - reflexivity.
  - reflexivity.
  - vm_compute. reflexivity.
  - vm_compute. reflexivity.
  - eexists. split; [reflexivity|]. right. by split.
  - eexists. split; [reflexivity|]. left. by split.
  - eexists. split; [reflexivity|]. right. by split.
  - by left.
Defined.

Lemma stargazer_page_exception_voids_the_fetch_witness :
  fetch_github_stats_api
    (with_stargazers example_github
       (λ per_page page,
          if decide (page = 1)
          then Ret {| status_code := 200;
                      json := Ret (replicate 100 (star_event 1700000000)) |}
          else Raise ConnectionError))
    1700000000 5 []
  = (Done None,
     [Request GetRepo; Request (GetStargazers 100 1); Request (GetStargazers 100 2);
      StErrorExn "Error fetching GitHub data: " ConnectionError]).
Proof.
  eapply (stargazer_page_exception_voids_the_fetch _ 1700000000 5 1 [] _ _
            (λ _, replicate 100 (star_event 1700000000)) ConnectionError).
  - reflexivity.
  - reflexivity.
  - reflexivity.
  - intros i Hi. assert (i = 0%nat) as -> by lia. by split.
  - by left.
  - lia.
Defined.

Lemma returned_snapshot_is_consistent_witness :
  ∃ df rd tr',
    fetch_github_stats_api example_github 1700000000 5 [] = (Done (Some (df, rd)), tr')
    ∧ total_commits rd = 16
    ∧ total_commits rd = sum (row_weekly_commits <$> df).
Proof.
  do 3 eexists. split; [vm_compute; reflexivity|]. split; [reflexivity|].
  refine (proj1 (proj2 (returned_snapshot_is_consistent
                          example_github 1700000000 5 [] _ _ _ _))).
  vm_compute. reflexivity.
Defined.

Lemma metrics_defined_on_nonempty_series_witness :
  ∃ m, Home.calculate_metrics example_series = Ret m ∧ all_defined m.
Proof. refine (proj1 (metrics_defined_on_nonempty_series example_series _)). done. Defined.

Lemma lifetime_downloads_is_the_sum_of_all_rows_witness :
  Utils.fetch_lifetime_downloads example_pypistats "crewai" []
  = (Done 150, [Request (GetOverall "crewai")]).
Proof.
  eapply (lifetime_downloads_is_the_sum_of_all_rows example_pypistats "crewai" []
            _ _ _ [120; 30]).
  - reflexivity.
  - simpl. lia.
  - reflexivity.
  - reflexivity.
  - by repeat constructor.
Defined.

Lemma lifetime_key_error_aborts_the_handler_witness :
  Utils.fetch_lifetime_downloads
    (λ _, Ret {| status_code := 200; json := Ret {| data := None |} |}) "crewai" []
  = (Raised KeyError, [Request (GetOverall "crewai")]).
Proof.
  refine (proj1 (lifetime_key_error_aborts_the_handler
            (λ _, Ret {| status_code := 200; json := Ret {| data := None |} |})
            "crewai" [] _ _ eq_refl _ eq_refl _)).
  - simpl. lia.
  - by left.
Defined.

Lemma app_lifetime_failure_aborts_the_handler_witness :
  App.fetch_stats (λ _, Raise WarehouseError) example_bigquery example_github
    1700000000 5 "crewai" 19000 19014 "daily" []
  = (Done None, [StErrorExn "Error fetching data: " WarehouseError]).
Proof.
  exact (app_lifetime_failure_aborts_the_handler (λ _, Raise WarehouseError)
           example_bigquery example_github 1700000000 5 "crewai" 19000 19014 "daily"
           WarehouseError [] eq_refl).
Defined.

Lemma warehouse_error_stops_before_github_witness :
  Home.fetch_stats example_pypistats (λ _ _ _ _, Raise WarehouseError) example_github
    1700000000 5 "crewai" 19000 19014 "daily" []
  = (Done None, [Request (GetOverall "crewai");
                 StErrorExn "Error fetching data: " WarehouseError]).
Proof.
  by apply (warehouse_error_stops_before_github example_pypistats
              (λ _ _ _ _, Raise WarehouseError) example_github 1700000000 5
              "crewai" 19000 19014 "daily" 150 WarehouseError []
              [Request (GetOverall "crewai")]).
Defined.

Lemma repository_failure_hides_the_downloads_witness :
  Home.fetch_stats example_pypistats example_bigquery (with_repos example_github not_found)
    1700000000 5 "crewai" 19000 19014 "daily" []
  = (Done None, [Request (GetOverall "crewai"); Request GetRepo;
                 StError "Error fetching GitHub data: Not Found"]).
Proof.
  refine (proj1 (repository_failure_hides_the_downloads example_pypistats example_bigquery
                   (with_repos example_github not_found) 1700000000 5
                   "crewai" 19000 19014 "daily" 150 example_series
                   {| status_code := 404; json := Ret not_found_body |} []
                   [Request (GetOverall "crewai")] _ _ _ _) not_found_body _).
  - reflexivity.
  - reflexivity.
  - reflexivity.
  - done.
  - reflexivity.
Defined.

Lemma shown_dashboard_contents_witness :
  ∃ d tr',
    Home.fetch_stats example_pypistats example_bigquery example_github
      1700000000 5 "crewai" 19000 19014 "daily" [] = (Done (Some d), tr')
    ∧ total_downloads d = 150
    ∧ info_license (info d) = "MIT License"%string
    ∧ stars_change d = 0 ∧ forks_change d = 0.
Proof.
  do 2 eexists. split; [vm_compute; reflexivity|]. split; [reflexivity|].
  split; [reflexivity|].
  match goal with
  | |- stars_change ?d = 0 ∧ _ =>
      assert (Home.fetch_stats example_pypistats example_bigquery example_github
                1700000000 5 "crewai" 19000 19014 "daily" []
              = (Done (Some d),
                 (Home.fetch_stats example_pypistats example_bigquery example_github
                    1700000000 5 "crewai" 19000 19014 "daily" []).2)) as Hshown
        by (vm_compute; reflexivity)
  end.
  destruct (shown_dashboard_contents _ _ _ _ _ _ _ _ _ _ _ _ Hshown)
    as (Hstars & Hforks & _).
  split; [exact Hstars|exact Hforks].
Defined.

Lemma null_licence_aborts_the_handler_witness :
  Home.fetch_stats example_pypistats example_bigquery
    (with_repos example_github unlicensed) 1700000000 5 "crewai" 19000 19014 "daily" []
  = (Done None,
     [Request (GetOverall "crewai"); Request GetRepo;
      Request (GetStargazers 100 1); Request (GetStargazers 100 2);
      Request GetCommitActivity; Request GetContributors;
      Request GetReleases; Request GetPulls;
      StErrorExn "Error fetching data: " AttributeError]).
Proof.
  assert (∃ df_github repo_data,
            fetch_github_stats_api (with_repos example_github unlicensed) 1700000000 5
              [Request (GetOverall "crewai")]
            = (Done (Some (df_github, repo_data)),
               [Request (GetOverall "crewai"); Request GetRepo;
                Request (GetStargazers 100 1); Request (GetStargazers 100 2);
                Request GetCommitActivity; Request GetContributors;
                Request GetReleases; Request GetPulls])
            ∧ repo repo_data = unlicensed_body) as (df_github & repo_data & Hfetch & Hrepo).
  { do 2 eexists. split; [vm_compute; reflexivity|reflexivity]. }
  refine (proj1 (null_licence_aborts_the_handler
                   (with_repos example_github unlicensed) 1700000000 5
                   example_series df_github repo_data _ _ Hfetch _ _ _ _)
            example_pypistats example_bigquery "crewai"%string 19000 19014
            "daily"%string 150 [] _ _).
  - by rewrite Hrepo.
  - by rewrite Hrepo.
  - by rewrite Hrepo.
  - by rewrite Hrepo.
  - reflexivity.
  - reflexivity.
Defined.

(** ** The names typed into the Compare page *)

Section names_properties.

Context {C : Type} `{EqDecision C}.
Variable is_space : C -> bool.
Variable comma : C.

Lemma split_nonempty (s : list C) : Compare.split comma s ≠ [].
Proof.
  induction s as [|c s IH]; [done|]. simpl.
  destruct (decide (c = comma)); [done|]. by destruct (Compare.split comma s).
Qed.

Lemma split_no_comma (s p : list C) : p ∈ Compare.split comma s -> comma ∉ p.
Proof.
  revert p. induction s as [|c s IH]; intros p; simpl.
  - intros ->%list_elem_of_singleton. apply not_elem_of_nil.
  - destruct (decide (c = comma)) as [->|Hne].
    + intros [->|Hp]%elem_of_cons; [apply not_elem_of_nil|by apply IH].
    + destruct (Compare.split comma s) as [|q qs] eqn:Hs.
      * intros ->%list_elem_of_singleton.
        intros [?|?%elem_of_nil]%elem_of_cons; congruence.
      * intros [->|Hp]%elem_of_cons.
        -- intros [?|Hq]%elem_of_cons; [congruence|].
           revert Hq. apply IH, list_elem_of_here.
        -- by apply IH, list_elem_of_further.
Qed.

Lemma split_comma_free (name : list C) :
  comma ∉ name -> Compare.split comma name = [name].
Proof.
  induction name as [|c name IH]; [done|].
  intros [Hne Hnin]%not_elem_of_cons. simpl.
  destruct (decide (c = comma)); [congruence|]. by rewrite IH.
Qed.

Lemma split_app_comma (name s : list C) :
  comma ∉ name ->
  Compare.split comma (name ++ comma :: s) = name :: Compare.split comma s.
Proof.
  induction name as [|c name IH].
  - intros _. simpl. by destruct (decide (comma = comma)).
  - intros [Hne Hnin]%not_elem_of_cons. simpl.
    destruct (decide (c = comma)); [congruence|]. by rewrite IH.
Qed.

Lemma lstrip_suffix (s : list C) : ∃ pre, s = pre ++ Compare.lstrip is_space s.
Proof.
  induction s as [|c s [pre IH]]; [by exists []|]. simpl.
  destruct (is_space c); [|by exists []].
  exists (c :: pre). simpl. by rewrite <-IH.
Qed.

Lemma lstrip_first (s : list C) (c : C) :
  Compare.lstrip is_space s !! 0%nat = Some c -> is_space c = false.
Proof.
  induction s as [|d s IH]; [done|]. simpl.
  destruct (is_space d) eqn:Hd; [done|]. by intros [= <-].
Qed.

Lemma lstrip_id (s : list C) :
  (∀ c, s !! 0%nat = Some c → is_space c = false) -> Compare.lstrip is_space s = s.
Proof.
  destruct s as [|c s]; [done|]. intros Hc. simpl. by rewrite (Hc c).
Qed.

Lemma lstrip_elem (s : list C) (c : C) : c ∈ Compare.lstrip is_space s -> c ∈ s.
Proof.
  destruct (lstrip_suffix s) as [pre Hs]. intros Hc. rewrite Hs.
  apply elem_of_app. by right.
Qed.

Lemma strip_elem (s : list C) (c : C) : c ∈ Compare.strip is_space s -> c ∈ s.
Proof.
  unfold Compare.strip. rewrite elem_of_reverse.
  intros Hc%lstrip_elem. rewrite elem_of_reverse in Hc. by apply lstrip_elem.
Qed.

Lemma strip_clean (name : list C) :
  clean_name is_space comma name -> Compare.strip is_space name = name.
Proof.
  intros (_ & _ & Hfirst & Hlast). unfold Compare.strip.
  rewrite (lstrip_id name Hfirst), lstrip_id; [apply reverse_involutive|].
  intros c. rewrite <-head_lookup, head_reverse. apply Hlast.
Qed.

Lemma strip_blank_clean (sp : C) (name : list C) :
  is_space sp = true -> clean_name is_space comma name ->
  Compare.strip is_space (sp :: name) = name.
Proof.
  intros Hsp Hclean.
  rewrite <-(strip_clean name Hclean) at 2. unfold Compare.strip. simpl. by rewrite Hsp.
Qed.

(** Every name the page parses out of the typed text is not empty, has
    no comma and neither starts nor ends with whitespace. *)
Theorem parsed_names_are_clean (text name : list C) :
  name ∈ Compare.parse_names is_space comma text -> clean_name is_space comma name.
Proof.
  unfold Compare.parse_names.
  intros (p & -> & [Hne Hp]%list_elem_of_filter)%list_elem_of_fmap.
  split_and!; [done| | |].
  - intros Hc%strip_elem. by apply (split_no_comma text p).
  - unfold Compare.strip in *. intros c.
    rewrite <-head_lookup, head_reverse.
    set (t := reverse (Compare.lstrip is_space p)) in *.
    destruct (lstrip_suffix t) as [pre Ht].
    assert (Compare.lstrip is_space t ≠ []) as Hx.
    { intros Hnil. apply Hne. by rewrite Hnil. }
    intros Hlast.
    assert (last t = Some c) as Ht'.
    { rewrite Ht, last_app, Hlast. done. }
    unfold t in Ht'. rewrite last_reverse, head_lookup in Ht'.
    by apply lstrip_first in Ht'.
  - unfold Compare.strip. intros c. rewrite last_reverse, head_lookup.
    apply lstrip_first.
Qed.

Lemma split_join (sp : C) (name : list C) (rest : list (list C)) :
  sp ≠ comma -> comma ∉ name -> Forall (λ n, comma ∉ n) rest ->
  Compare.split comma (join_names comma sp (name :: rest))
  = name :: (cons sp <$> rest).
Proof.
  intros Hsp. revert name. induction rest as [|m rest IH]; intros name Hname Hrest.
  - by apply split_comma_free.
  - apply Forall_cons in Hrest as [Hm Hrest].
    change (join_names comma sp (name :: m :: rest))
      with (name ++ comma :: sp :: join_names comma sp (m :: rest)).
    rewrite split_app_comma by done.
    change (Compare.split comma (sp :: join_names comma sp (m :: rest)))
      with (if decide (sp = comma) then [] :: Compare.split comma (join_names comma sp (m :: rest))
            else match Compare.split comma (join_names comma sp (m :: rest)) with
                 | p :: ps => (sp :: p) :: ps
                 | [] => [[sp]]
                 end).
    destruct (decide (sp = comma)); [done|]. by rewrite IH.
Qed.

Lemma filter_Forall_id {A} (P : A -> Prop) `{!∀ a, Decision (P a)} (l : list A) :
  Forall P l -> filter P l = l.
Proof. induction 1 as [|a l Ha _ IH]; [done|]. by rewrite filter_cons_True, IH. Qed.

(** Typing clean names separated by a comma and a blank gives exactly
    these names back, in order. *)
Theorem parse_names_of_joined_names (sp : C) (names : list (list C)) :
  sp ≠ comma -> is_space sp = true ->
  Forall (clean_name is_space comma) names ->
  Compare.parse_names is_space comma (join_names comma sp names) = names.
Proof.
  intros Hne Hsp Hclean. destruct names as [|name rest]; [reflexivity|].
  apply Forall_cons in Hclean as [Hname Hrest].
  unfold Compare.parse_names. rewrite split_join; [|done|by apply Hname|].
  2:{ eapply Forall_impl; [exact Hrest|]. by intros n (_ & ? & _). }
  assert (Compare.strip is_space <$> (cons sp <$> rest) = rest) as Hstrip.
  { clear Hname. induction Hrest as [|m rest Hm _ IH]; [done|].
    rewrite !fmap_cons, IH. by rewrite (strip_blank_clean sp m Hsp Hm). }
  rewrite filter_Forall_id.
  - by rewrite fmap_cons, (strip_clean name Hname), Hstrip.
  - constructor.
    + rewrite (strip_clean name Hname). apply Hname.
    + clear Hstrip Hname. induction Hrest as [|m rest Hm _ IH]; [constructor|].
      rewrite fmap_cons. constructor; [|done].
      rewrite (strip_blank_clean sp m Hsp Hm). apply Hm.
Qed.

End names_properties.

(** ** The loop of the Compare page *)

Section page_properties.

Variable client : bigquery.
Variable api : pypistats.
Variable repositories : string -> github.
Variable now : Z.
Variable fuel : nat.
Variable start_date end_date : Z.
Variable granularity : string.
Variable package_list github_list : list string.

Local Abbreviation loop :=
  (Compare.compare_loop client api repositories now fuel start_date end_date
     granularity package_list github_list).
Local Abbreviation series := (tagged_series client start_date end_date granularity).

(** What one finished round of the loop has written and kept. *)
Lemma compare_loop_Done (packages : list string) :
  ∀ (i : nat) (reports reports' : list package_report)
    (all_data all_data' : list (list (download_record * string)))
    (tr tr' : list event),
    loop i packages reports all_data tr = (Done (reports', all_data'), tr') ->
    (∃ new, reports' = reports ++ new
            ∧ Forall2 (λ rep pkg, report_package rep = pkg
                                  ∧ (report_stats rep = None ↔ series pkg = []))
                new packages)
    ∧ concat all_data' = concat all_data ++ concat (series <$> packages)
    ∧ (Forall (λ frame, frame ≠ []) all_data → Forall (λ frame, frame ≠ []) all_data')
    ∧ Forall (λ pkg, ∃ df_pypi,
                Utils.fetch_pypi_stats client pkg start_date end_date granularity
                = Ret df_pypi) packages.
Proof.
  induction packages as [|pkg rest IH];
    intros i reports reports' all_data all_data' tr tr' H.
  - apply mret_inv in H as [[= <- <-] _]. split_and!; [|by rewrite app_nil_r|done|done].
    exists []. split; [by rewrite app_nil_r|constructor].
  - cbn [Compare.compare_loop] in H.
    apply bind_inv_Done in H as (df_pypi & ? & [Hquery ->]%lift_inv & H).
    apply bind_inv_Done in H as (total_downloads & tr1 & _ & H).
    apply bind_inv_Done in H as (github & tr2 & _ & H).
    apply IH in H as ((new & -> & Hnew) & Hconcat & Hframes & Hall).
    assert (series pkg = (λ r, (r, pkg)) <$> df_pypi) as Hseries
      by (unfold tagged_series; by rewrite Hquery).
    split_and!.
    + eexists (_ :: new). split; [by rewrite <-app_assoc|].
      constructor; [|done]. split; [done|]. cbn [report_stats]. rewrite Hseries.
      destruct df_pypi; [done|]. by split.
    + rewrite Hconcat, fmap_cons, Hseries. cbn [concat].
      destruct df_pypi as [|r df_pypi]; [done|].
      change (negb (empty (r :: df_pypi))) with true. cbv iota.
      rewrite concat_app. cbn [concat]. by rewrite app_nil_r, <-app_assoc.
    + intros Hne. apply Hframes. destruct df_pypi as [|r df_pypi]; [done|].
      change (negb (empty (r :: df_pypi))) with true. cbv iota.
      apply Forall_app. split; [done|]. by repeat constructor.
    + constructor; [by exists df_pypi|done].
Qed.

(** What the page shows when it runs to its end: one report per
    package, in the order typed, with download figures exactly for the
    packages whose series is not empty; and a comparison chart over the
    series of all packages one after the other, each row tagged with
    its package, unless every series is empty. *)
Theorem compare_page_result
    (reports : list package_report)
    (chart : option (list (download_record * string))) (tr tr' : list event) :
  Compare.compare_packages client api repositories now fuel start_date end_date
    granularity package_list github_list tr
    = (Done (Some (reports, chart)), tr') ->
  package_list ≠ []
  ∧ Forall2 (λ rep pkg, report_package rep = pkg
                        ∧ (report_stats rep = None ↔ series pkg = []))
      reports package_list
  ∧ chart = (match concat (series <$> package_list) with
             | [] => None
             | rows => Some rows
             end).
Proof.
  unfold Compare.compare_packages.
  destruct package_list as [|pkg rest] eqn:Hlist.
  { intros H. apply bind_inv_Done in H as (? & ? & _ & H).
    by apply mret_inv in H as [? _]. }
  change (empty (pkg :: rest)) with false. cbv iota. rewrite <-Hlist.
  intros H. apply bind_inv_Done in H as ([reports' all_data] & tr1 & Hloop & H).
  apply mret_inv in H as [[= <- <-] _].
  apply compare_loop_Done in Hloop as ((new & -> & Hnew) & Hconcat & Hframes & _).
  split_and!; [by rewrite Hlist|done|].
  simpl in Hconcat. rewrite <-Hconcat. cbn [snd].
  specialize (Hframes ltac:(constructor)).
  destruct all_data as [|frame all_data]; [done|].
  change (negb (empty (frame :: all_data))) with true. cbv iota.
  apply Forall_cons in Hframes as [Hframe _].
  simpl. by destruct frame.
Qed.

(** The page has no handler of its own: when the warehouse query of any
    of the packages raises, pressing "Compare" never ends with a
    result. *)
Theorem compare_page_has_no_handler
    (pkg : string) (e : exn) (tr tr' : list event)
    (result : option (list package_report * option (list (download_record * string)))) :
  pkg ∈ package_list ->
  Utils.fetch_pypi_stats client pkg start_date end_date granularity = Raise e ->
  Compare.compare_packages client api repositories now fuel start_date end_date
    granularity package_list github_list tr
  ≠ (Done result, tr').
Proof.
  intros Hin Hraise H. unfold Compare.compare_packages in H.
  destruct (empty package_list) eqn:Hempty.
  { unfold empty in Hempty. apply bool_decide_eq_true in Hempty.
    destruct package_list; [by apply elem_of_nil in Hin|done]. }
  apply bind_inv_Done in H as ([reports' all_data] & tr1 & Hloop & _).
  apply compare_loop_Done in Hloop as (_ & _ & _ & Hall).
  rewrite Forall_forall in Hall. destruct (Hall pkg Hin) as [df Hdf]. congruence.
Qed.

Lemma lifetime_trace (pkg : string) (tr tr1 : list event) (out : outcome Z) :
  Utils.fetch_lifetime_downloads api pkg tr = (out, tr1) ->
  ∀ r, Request r ∈ tr1 → Request r ∈ tr ∨ r = GetOverall pkg.
Proof.
  unfold Utils.fetch_lifetime_downloads. io_unfold.
  intros H r. revert H.
  destruct (api pkg) as [resp|e].
  - destruct (Utils.raise_for_status resp) as [[]|e1].
    + destruct (json resp) as [body|e2].
      * destruct (getitem (data body)) as [items|e3].
        -- destruct (sum <$> mapM _ items) as [total|e4].
           ++ intros [= _ <-]. rewrite elem_of_app, list_elem_of_singleton.
              intros [?|[= ->]]; auto.
           ++ destruct (is_RequestException e4); intros [= _ <-];
                rewrite ?elem_of_app, ?list_elem_of_singleton;
                intros H; destruct_or?; simplify_eq; auto.
        -- destruct (is_RequestException e3); intros [= _ <-];
             rewrite ?elem_of_app, ?list_elem_of_singleton;
             intros H; destruct_or?; simplify_eq; auto.
      * destruct (is_RequestException e2); intros [= _ <-];
          rewrite ?elem_of_app, ?list_elem_of_singleton;
          intros H; destruct_or?; simplify_eq; auto.
    + destruct (is_RequestException e1); intros [= _ <-];
        rewrite ?elem_of_app, ?list_elem_of_singleton;
        intros H; destruct_or?; simplify_eq; auto.
  - destruct (is_RequestException e); intros [= _ <-];
      rewrite ?elem_of_app, ?list_elem_of_singleton;
      intros H; destruct_or?; simplify_eq; auto.
Qed.

Lemma compare_loop_trace (packages : list string) :
  length github_list ≠ length package_list ->
  ∀ (i : nat) (reports : list package_report)
    (all_data : list (list (download_record * string))) (tr tr' : list event)
    (out : outcome (list package_report * list (list (download_record * string)))),
    loop i packages reports all_data tr = (out, tr') ->
    ∀ r, Request r ∈ tr' → Request r ∈ tr ∨ ∃ pkg, pkg ∈ packages ∧ r = GetOverall pkg.
Proof.
  intros Hcount. induction packages as [|pkg rest IH];
    intros i reports all_data tr tr' out H r Hr.
  - injection H as _ <-. by left.
  - cbn [Compare.compare_loop] in H. unfold mbind at 1, io_bind at 1 in H.
    destruct (Utils.fetch_pypi_stats client pkg start_date end_date granularity).
    2:{ injection H as _ <-. by left. }
    cbn [lift] in H. unfold mbind at 1, io_bind at 1 in H.
    destruct (Utils.fetch_lifetime_downloads api pkg tr) as [out1 tr1] eqn:Hlifetime.
    pose proof (lifetime_trace pkg tr tr1 out1 Hlifetime) as Htr1.
    assert (Request r ∈ tr1 → Request r ∈ tr ∨ ∃ p, p ∈ pkg :: rest ∧ r = GetOverall p)
      as Hstep.
    { intros [?| ->]%Htr1; [by left|]. right. exists pkg. split; [apply list_elem_of_here|done]. }
    destruct out1 as [total|e|]; [|injection H as _ <-; auto..].
    unfold Compare.github_section in H.
    destruct (decide (length github_list = length package_list)); [done|].
    unfold mbind at 1, io_bind at 1 in H. cbn [mret io_ret] in H.
    apply IH with (r := r) in H; [|done].
    destruct H as [H|(p & Hp & ->)]; [by apply Hstep|].
    right. exists p. split; [by apply list_elem_of_further|done].
Qed.

(** When the number of repositories typed differs from the number of
    packages, the page never contacts the source-hosting API: whatever
    happens, the only requests it sends are the lifetime-download
    requests of the packages. *)
Theorem compare_page_skips_repositories_on_mismatch
    (tr tr' : list event) (r : request)
    (out : outcome (option (list package_report
                            * option (list (download_record * string))))) :
  length github_list ≠ length package_list ->
  Compare.compare_packages client api repositories now fuel start_date end_date
    granularity package_list github_list tr = (out, tr') ->
  Request r ∈ tr' ->
  Request r ∈ tr ∨ ∃ pkg, pkg ∈ package_list ∧ r = GetOverall pkg.
Proof.
  intros Hcount H Hr. unfold Compare.compare_packages in H.
  destruct (empty package_list).
  { revert H. io_unfold. intros [= _ <-].
    apply elem_of_app in Hr as [?|Hs%list_elem_of_singleton]; [by left|done]. }
  unfold mbind, io_bind in H.
  destruct (loop 0%nat package_list [] [] tr) as [out1 tr1] eqn:Hloop.
  assert (tr' = tr1) as -> by (destruct out1; by injection H).
  by eapply (compare_loop_trace package_list Hcount).
Qed.

End page_properties.

(** ** The Compare page on concrete inputs *)

Lemma parsed_names_are_clean_witness :
  clean_name is_space_latin1 ","%char (list_ascii_of_string "langgraph").
Proof.
  apply (parsed_names_are_clean is_space_latin1 ","%char
           (list_ascii_of_string " crewai, langgraph ,,autogen")).
  assert (Compare.parse_names is_space_latin1 ","%char
            (list_ascii_of_string " crewai, langgraph ,,autogen")
          = [list_ascii_of_string "crewai"; list_ascii_of_string "langgraph";
             list_ascii_of_string "autogen"]) as -> by (vm_compute; reflexivity).
  apply list_elem_of_further, list_elem_of_here.
Defined.

Lemma parse_names_of_joined_names_witness :
  Compare.parse_names is_space_latin1 ","%char
    (join_names ","%char " "%char
       [list_ascii_of_string "crewai"; list_ascii_of_string "langgraph"])
  = [list_ascii_of_string "crewai"; list_ascii_of_string "langgraph"].
Proof.
  apply (parse_names_of_joined_names is_space_latin1 ","%char " "%char).
  - done.
  - reflexivity.
  - repeat constructor; try done.
    + simpl. rewrite !not_elem_of_cons. split_and!; try done. apply not_elem_of_nil.
    + by intros c [= <-].
    + by intros c [= <-].
    + simpl. rewrite !not_elem_of_cons. split_and!; try done. apply not_elem_of_nil.
    + by intros c [= <-].
    + by intros c [= <-].
Defined.

Lemma compare_page_result_witness :
  ∃ reports chart tr',
    Compare.compare_packages example_bigquery example_pypistats (λ _, example_github)
      1700000000 5 19000 19014 "daily" ["crewai"%string] [] []
    = (Done (Some (reports, chart)), tr')
    ∧ report_package <$> reports = ["crewai"%string]
    ∧ ["crewai"%string] ≠ [].
Proof.
  do 3 eexists. split; [vm_compute; reflexivity|]. split; [reflexivity|].
  refine (proj1 (compare_page_result example_bigquery example_pypistats
                   (λ _, example_github) 1700000000 5 19000 19014 "daily"
                   ["crewai"%string] [] _ _ [] _ _)).
  vm_compute. reflexivity.
Defined.

Lemma compare_page_has_no_handler_witness :
  Compare.compare_packages (λ _ _ _ _, Raise WarehouseError) example_pypistats
    (λ _, example_github) 1700000000 5 19000 19014 "daily" ["crewai"%string] [] []
  ≠ (Done None, []).
Proof.
  apply (compare_page_has_no_handler (λ _ _ _ _, Raise WarehouseError) example_pypistats
           (λ _, example_github) 1700000000 5 19000 19014 "daily" ["crewai"%string] []
           "crewai" WarehouseError).
  - apply list_elem_of_here.
  - reflexivity.
Defined.

Lemma compare_page_skips_repositories_on_mismatch_witness :
  Request (GetOverall "crewai") ∈ @nil event
  ∨ ∃ pkg, pkg ∈ ["crewai"%string] ∧ GetOverall "crewai" = GetOverall pkg.
Proof.
  eapply (compare_page_skips_repositories_on_mismatch example_bigquery example_pypistats
            (λ _, example_github) 1700000000 5 19000 19014 "daily"
            ["crewai"%string] ["crewAIInc/crewAI"%string; "x/y"%string] []).
  - simpl. lia.
  - vm_compute. reflexivity.
  - apply list_elem_of_here.
Defined.

(** ** The two copies of the granularity dispatch *)

(** The dispatch of utils.py and the one of app.py choose the same
    query exactly for the four enumerated granularities: on every other
    value utils.py asks for daily buckets and app.py for monthly ones. *)
Theorem dispatches_agree_on_enumerated_only (granularity : string) :
  Utils.time_group_select_time granularity = App.time_group_select_time granularity
  ↔ enumerated granularity.
Proof.
  split.
  - intros Heq. destruct (decide (enumerated granularity)) as [|Hunknown]; [done|].
    exfalso. revert Heq.
    destruct (Utils_unknown_granularity_is_daily granularity Hunknown) as (-> & _).
    unfold enumerated in Hunknown. rewrite !not_elem_of_cons in Hunknown.
    destruct Hunknown as (Hd & Hw & Hm & Hh & _).
    unfold App.time_group_select_time.
    destruct (decide (granularity = "hourly"%string)); [done|].
    destruct (decide (granularity = "daily"%string)); [done|].
    by destruct (decide (granularity = "weekly"%string)).
  - unfold enumerated. rewrite !elem_of_cons.
    intros [->|[->|[->|[->|Hnil]]]]; [done..|]. by apply elem_of_nil in Hnil.
Qed.
